(** * GameCriticizer: a shallow embedding of [game/core/self_game/criticizer.py]

    The module scores an actor's output along six fixed dimensions.  The
    embedding follows the Python source function by function:

    - Python objects decoded from JSON are values of [pyval];
    - [float] is the binary64 type of the kernel, as Python's [float] is;
    - [str] is a [string] holding the UTF-8 encoding of the text, and the
      operations that count characters ([len], slices, [find]) count code
      points;
    - an operation that may raise returns a [result]; [try]/[except] is a
      [match] on it;
    - the mutable state of a [GameCriticizer] is threaded explicitly;
    - a coroutine is cut at its only suspension point, the call of the
      text-generation collaborator, and [asyncio.gather] interleaves the
      pieces. *)

From Stdlib Require Import ZArith List String Ascii Bool Lia.
From Stdlib Require Import Floats.PrimFloat Floats.SpecFloat Floats.FloatOps.
From Stdlib Require Import Floats.FloatAxioms.
From Stdlib Require Import Permutation.
From Stdlib Require Import DecimalString.
From Stdlib Require DecimalPos DecimalZ.
Import ListNotations.
Local Open Scope list_scope.
Local Open Scope string_scope.

Set Implicit Arguments.

(* ================================================================= *)
(** ** Exceptions and results *)

(** The exception classes the module can meet.  [JSONDecodeError] is a
    subclass of [ValueError]; [OtherException] stands for any further
    subclass of [Exception] a collaborator may raise. *)
Inductive exn_class : Type :=
| TypeError
| ValueError
| KeyError
| AttributeError
| OverflowError
| JSONDecodeError
| OtherException.

(** An exception object; [exn_msg] is what [str(e)] returns. *)
Record exn : Type := mkExn { exn_cls : exn_class; exn_msg : string }.

Inductive result (A : Type) : Type :=
| Ok (a : A)
| Raise (e : exn).
Arguments Ok {A} a.
Arguments Raise {A} e.

Definition bind {A B : Type} (c : result A) (k : A -> result B) : result B :=
  match c with
  | Ok a => k a
  | Raise e => Raise e
  end.

Notation "x <- c ;; k" := (bind c (fun x => k))
  (at level 61, c at next level, right associativity).

(** [except (ValueError, KeyError)]: [isinstance] against the two classes. *)
Definition is_ValueError_or_KeyError (e : exn) : bool :=
  match exn_cls e with
  | ValueError | KeyError | JSONDecodeError => true
  | _ => false
  end.

(* ================================================================= *)
(** ** Strings *)

Definition nl : string := String "010"%char EmptyString.

(** [jq s] is [s] with every apostrophe replaced by a double quote.  The
    source's literals that contain double quotes are written with
    apostrophes and passed through [jq]; none of them contains an
    apostrophe of its own. *)
Fixpoint jq (s : string) : string :=
  match s with
  | EmptyString => EmptyString
  | String c r => String (if Ascii.eqb c "'"%char then "034"%char else c) (jq r)
  end.

(** [sep.join(parts)]. *)
Definition join (sep : string) (parts : list string) : string :=
  String.concat sep parts.

(** [needle in hay] on two strings. *)
Fixpoint str_contains (needle hay : string) : bool :=
  String.prefix needle hay ||
  match hay with
  | EmptyString => false
  | String _ r => str_contains needle r
  end.

(** A byte [10xxxxxx] continues a UTF-8 sequence; every other byte starts a
    code point. *)
Definition is_continuation (c : ascii) : bool :=
  let n := nat_of_ascii c in (128 <=? n)%nat && (n <? 192)%nat.

(** [len(s)]: the number of code points. *)
Fixpoint py_len (s : string) : nat :=
  match s with
  | EmptyString => 0
  | String c r => if is_continuation c then py_len r else S (py_len r)
  end.

(** [s[:n]]: the first [n] code points. *)
Fixpoint cp_take (n : nat) (s : string) : string :=
  match s with
  | EmptyString => EmptyString
  | String c r =>
      if is_continuation c then String c (cp_take n r)
      else match n with
           | O => EmptyString
           | S n' => String c (cp_take n' r)
           end
  end.

(** The continuation bytes at the head of [s] are dropped. *)
Fixpoint skip_continuation (s : string) : string :=
  match s with
  | EmptyString => EmptyString
  | String c r => if is_continuation c then skip_continuation r else s
  end.

(** [s[n:]]: all but the first [n] code points. *)
Fixpoint cp_drop (n : nat) (s : string) : string :=
  match n with
  | O => s
  | S n' =>
      match s with
      | EmptyString => EmptyString
      | String _ r => cp_drop n' (skip_continuation r)
      end
  end.

(** [s[start:stop]] for [0 <= start]. *)
Definition cp_slice (start stop : Z) (s : string) : string :=
  cp_take (Z.to_nat (stop - start)) (cp_drop (Z.to_nat start) s).

(** The code points of [s], each as a string of its own: what iterating
    over a [str] yields. *)
Fixpoint code_points_rev (s : string) (acc : list string) : list string :=
  match s with
  | EmptyString => acc
  | String c r =>
      if is_continuation c
      then code_points_rev r
             (match acc with
              | [] => [String c EmptyString]
              | x :: acc' => (x ++ String c EmptyString)%string :: acc'
              end)
      else code_points_rev r (String c EmptyString :: acc)
  end.

Definition code_points (s : string) : list string := rev (code_points_rev s []).

(** [s.find(c)] for a one-byte [c]: the index (in code points) of the first
    occurrence, or [-1]. *)
Fixpoint find_from (c : ascii) (s : string) (i : Z) : Z :=
  match s with
  | EmptyString => (-1)%Z
  | String x r =>
      if Ascii.eqb x c then i
      else find_from c r (if is_continuation x then i else i + 1)%Z
  end.

Definition str_find (c : ascii) (s : string) : Z := find_from c s 0%Z.

(** [s.rfind(c)]: the index of the last occurrence, or [-1]. *)
Fixpoint rfind_from (c : ascii) (s : string) (i last : Z) : Z :=
  match s with
  | EmptyString => last
  | String x r =>
      rfind_from c r (if is_continuation x then i else i + 1)%Z
        (if Ascii.eqb x c then i else last)
  end.

Definition str_rfind (c : ascii) (s : string) : Z :=
  rfind_from c s 0%Z (-1)%Z.

(** *** Whitespace

    [str.strip()] and the regular expression class [\s] remove and match
    the same characters, those for which [str.isspace()] holds: U+0009 to
    U+000D, U+001C to U+0020, U+0085, U+00A0, U+1680, U+2000 to U+200A,
    U+2028, U+2029, U+202F, U+205F and U+3000. *)

Definition is_space1 (c : ascii) : bool :=
  let n := nat_of_ascii c in
  ((9 <=? n) && (n <=? 13) || (28 <=? n) && (n <=? 32))%nat.

Definition is_space2 (c1 c2 : ascii) : bool :=
  let n1 := nat_of_ascii c1 in
  let n2 := nat_of_ascii c2 in
  ((n1 =? 194) && ((n2 =? 133) || (n2 =? 160)))%nat.

Definition is_space3 (c1 c2 c3 : ascii) : bool :=
  let n1 := nat_of_ascii c1 in
  let n2 := nat_of_ascii c2 in
  let n3 := nat_of_ascii c3 in
  ((n1 =? 225) && (n2 =? 154) && (n3 =? 128)
   || (n1 =? 226) && (n2 =? 128)
      && ((128 <=? n3) && (n3 <=? 138) || (n3 =? 168) || (n3 =? 169) || (n3 =? 175))
   || (n1 =? 226) && (n2 =? 129) && (n3 =? 159)
   || (n1 =? 227) && (n2 =? 128) && (n3 =? 128))%nat.

(** [s.lstrip()]. *)
Fixpoint lstrip (s : string) : string :=
  match s with
  | EmptyString => s
  | String c1 r1 =>
      if is_space1 c1 then lstrip r1
      else
        match r1 with
        | EmptyString => s
        | String c2 r2 =>
            if is_space2 c1 c2 then lstrip r2
            else
              match r2 with
              | EmptyString => s
              | String c3 r3 => if is_space3 c1 c2 c3 then lstrip r3 else s
              end
        end
  end.

Definition is_empty (s : string) : bool :=
  match s with
  | EmptyString => true
  | String _ _ => false
  end.

(** [s.rstrip()]: cut where only whitespace remains. *)
Fixpoint rstrip (s : string) : string :=
  match s with
  | EmptyString => EmptyString
  | String c r => if is_empty (lstrip s) then EmptyString else String c (rstrip r)
  end.

(** [s.strip()]. *)
Definition strip (s : string) : string := rstrip (lstrip s).

(** [s.startswith(p)]. *)
Definition startswith (p s : string) : bool := String.prefix p s.

Fixpoint drop_bytes (n : nat) (s : string) : string :=
  match n, s with
  | O, _ => s
  | S n', String _ r => drop_bytes n' r
  | S _, EmptyString => EmptyString
  end.

(** *** The fenced-block pattern

    [re.search(r'```json\s*(\{.*?\})\s*```', s, re.DOTALL)], returning
    group 1.  The search tries each start position from the left.  At a
    start the greedy [\s*] can only take all the whitespace (what follows
    it is not whitespace), and the lazy [.*?] stops at the first closing
    brace that is followed by optional whitespace and the closing fence. *)

Definition fence : string := "```".

Definition closes_block (s : string) : bool := String.prefix fence (lstrip s).

Fixpoint lazy_object_body (s : string) : option string :=
  match s with
  | EmptyString => None
  | String c r =>
      if Ascii.eqb c "}"%char && closes_block r then Some "}"
      else option_map (String c) (lazy_object_body r)
  end.

Definition match_fenced_at (s : string) : option string :=
  if String.prefix (fence ++ "json") s then
    match lstrip (drop_bytes 7 s) with
    | String c r =>
        if Ascii.eqb c "{"%char
        then option_map (String c) (lazy_object_body r)
        else None
    | EmptyString => None
    end
  else None.

Fixpoint re_search_fenced_json (s : string) : option string :=
  match match_fenced_at s with
  | Some g => Some g
  | None =>
      match s with
      | EmptyString => None
      | String _ r => re_search_fenced_json r
      end
  end.

(** [str(n)] for an [int]. *)
Definition str_int (z : Z) : string := NilZero.string_of_int (Z.to_int z).

(* ================================================================= *)
(** ** Floats *)

(** [float(n)] for an [int]: the nearest binary64 value, ties to even;
    the values that round beyond the largest finite float overflow. *)
Definition nearest_float (z : Z) : float :=
  SF2Prim (binary_normalize prec emax z 0 false).

Definition float_of_int (z : Z) : result float :=
  let f := nearest_float z in
  if PrimFloat.is_infinity f
  then Raise (mkExn OverflowError "int too large to convert to float")
  else Ok f.

(** The builtins [max(a, b)] and [min(a, b)]: the first argument is kept
    unless the second is strictly greater (smaller). *)
Definition py_max (a b : float) : float := if PrimFloat.ltb a b then b else a.
Definition py_min (a b : float) : float := if PrimFloat.ltb b a then b else a.

(** [sum(l)]: the items are added from left to right to the start value
    [0]. *)
Definition py_sum (l : list float) : float :=
  fold_left PrimFloat.add l 0%float.

(* ================================================================= *)
(** ** Python objects *)

(** The objects [json.loads] builds, which are also the objects the module
    stores in fields it does not convert. *)
#[warnings="-register-all"]
Inductive pyval : Type :=
| PyNone
| PyBool (b : bool)
| PyInt (z : Z)
| PyFloat (f : float)
| PyStr (s : string)
| PyList (l : list pyval)
| PyDict (d : list (string * pyval)).

(** A [dict] with [str] keys, in insertion order; a key occurs once. *)
Definition dict : Type := list (string * pyval).

Fixpoint lookup (k : string) (d : dict) : option pyval :=
  match d with
  | [] => None
  | (k', v) :: d' => if String.eqb k k' then Some v else lookup k d'
  end.

Definition type_name (v : pyval) : string :=
  match v with
  | PyNone => "NoneType"
  | PyBool _ => "bool"
  | PyInt _ => "int"
  | PyFloat _ => "float"
  | PyStr _ => "str"
  | PyList _ => "list"
  | PyDict _ => "dict"
  end.

Definition is_str (k : string) (v : pyval) : bool :=
  match v with
  | PyStr s => String.eqb s k
  | _ => false
  end.

(** [k in v] for a [str] [k]. *)
Definition py_in (k : string) (v : pyval) : result bool :=
  match v with
  | PyDict d => Ok (match lookup k d with Some _ => true | None => false end)
  | PyList l => Ok (existsb (is_str k) l)
  | PyStr s => Ok (str_contains k s)
  | _ => Raise (mkExn TypeError
                  ("argument of type '" ++ type_name v ++ "' is not iterable"))
  end.

(** [v[k]] for a [str] [k]. *)
Definition py_getitem (v : pyval) (k : string) : result pyval :=
  match v with
  | PyDict d =>
      match lookup k d with
      | Some x => Ok x
      | None => Raise (mkExn KeyError ("'" ++ k ++ "'"))
      end
  | PyList _ =>
      Raise (mkExn TypeError "list indices must be integers or slices, not str")
  | PyStr _ =>
      Raise (mkExn TypeError "string indices must be integers, not 'str'")
  | _ => Raise (mkExn TypeError
                  ("'" ++ type_name v ++ "' object is not subscriptable"))
  end.

(** [v.get(k, default)]. *)
Definition py_get (v : pyval) (k : string) (default : pyval) : result pyval :=
  match v with
  | PyDict d =>
      Ok (match lookup k d with Some x => x | None => default end)
  | _ => Raise (mkExn AttributeError
                  ("'" ++ type_name v ++ "' object has no attribute 'get'"))
  end.

(** The items [for x in v] visits. *)
Definition py_iter (v : pyval) : result (list pyval) :=
  match v with
  | PyList l => Ok l
  | PyDict d => Ok (map (fun kv => PyStr (fst kv)) d)
  | PyStr s => Ok (map PyStr (code_points s))
  | _ => Raise (mkExn TypeError
                  ("'" ++ type_name v ++ "' object is not iterable"))
  end.

(** [v[:n]].  A [dict] cannot be sliced: the slice is not a key. *)
Definition py_slice_to (n : nat) (v : pyval) : result pyval :=
  match v with
  | PyStr s => Ok (PyStr (cp_take n s))
  | PyList l => Ok (PyList (firstn n l))
  | PyDict _ => Raise (mkExn TypeError "unhashable type: 'slice'")
  | _ => Raise (mkExn TypeError
                  ("'" ++ type_name v ++ "' object is not subscriptable"))
  end.

(** Truth value of an object, as [not v] and [if v] test it. *)
Definition py_truthy (v : pyval) : bool :=
  match v with
  | PyNone => false
  | PyBool b => b
  | PyInt z => negb (Z.eqb z 0)
  | PyFloat f => negb (PrimFloat.eqb f 0%float)
  | PyStr s => negb (is_empty s)
  | PyList l => match l with [] => false | _ => true end
  | PyDict d => match d with [] => false | _ => true end
  end.

(* ================================================================= *)
(** ** Data model *)

(** [class CriticDimension(Enum)]. *)
Inductive CriticDimension : Type :=
| INNOVATION
| LOGIC
| COMPLETENESS
| FEASIBILITY
| QUALITY
| RELEVANCE.

(** [dimension.value]. *)
Definition value (d : CriticDimension) : string :=
  match d with
  | INNOVATION => "创新性"
  | LOGIC => "逻辑性"
  | COMPLETENESS => "完整性"
  | FEASIBILITY => "可行性"
  | QUALITY => "质量"
  | RELEVANCE => "相关性"
  end.

(** The members in definition order, as [for dimension in CriticDimension]
    visits them. *)
Definition all_dimensions : list CriticDimension :=
  [INNOVATION; LOGIC; COMPLETENESS; FEASIBILITY; QUALITY; RELEVANCE].

Definition CriticDimension_eq_dec (a b : CriticDimension) : {a = b} + {a <> b}.
Proof. decide equality. Defined.

Definition dimension_eqb (a b : CriticDimension) : bool :=
  if CriticDimension_eq_dec a b then true else false.

(** [CriticDimension(v)]: the member whose value is [v]; [ValueError] when
    there is none. *)
Definition CriticDimension_of (v : pyval) : result CriticDimension :=
  match v with
  | PyStr s =>
      match find (fun d => String.eqb (value d) s) all_dimensions with
      | Some d => Ok d
      | None => Raise (mkExn ValueError
                         ("'" ++ s ++ "' is not a valid CriticDimension"))
      end
  | _ => Raise (mkExn ValueError "not a valid CriticDimension")
  end.

(** [@dataclass CriticScore].  [score] is always the result of [float(..)];
    [reasoning] and [suggestions] hold whatever object the payload gave. *)
Record CriticScore : Type := mkCriticScore {
  dimension : CriticDimension;
  score : float;
  reasoning : pyval;
  suggestions : pyval
}.

(** [@dataclass CriticOutput]. *)
Record CriticOutput : Type := mkCriticOutput {
  target_output_id : string;
  critic_agent_id : string;
  overall_score : float;
  satisfaction_score : float;
  dimension_scores : list CriticScore;
  summary_critique : pyval;
  improvement_suggestions : pyval;
  critique_time : float;
  iteration : Z;
  metadata : dict
}.

(** The classes [ActorOutput], [Agent] and [Task] are imported from sibling
    modules ([.actor], [..models.data_models]) that are not among the
    sources.  Each record below has the fields this module reads, with the
    types of the external interfaces (specification, section 6). *)

Module ActorOutput.
(** Modelled from the spec: the content under review, which supplies the
    content text, the id of its producer, its iteration number, its
    generation latency and a metadata mapping. *)
Record t : Type := mk {
  agent_id : string;
  iteration : Z;
  content : string;
  generation_time : float;
  metadata : dict
}.
End ActorOutput.

Module Agent.
(** Modelled from the spec: the evaluator identity, which supplies an id, a
    display name, a role label and a system prompt. *)
Record t : Type := mk {
  agent_id : string;
  name : string;
  role : string;
  system_prompt : string
}.
End Agent.

Module Task.
(** Modelled from the spec: the task context, which supplies an id, a
    description, a domain, a requirement list and a constraint list. *)
Record t : Type := mk {
  task_id : string;
  description : string;
  domain : string;
  requirements : list string;
  constraints : list string
}.
End Task.

(** [d.get(k, default)] on a [dict]. *)
Definition get_default (k : string) (default : pyval) (d : dict) : pyval :=
  match lookup k d with
  | Some v => v
  | None => default
  end.

(** [CriticOutput.to_dict]. *)
Definition to_dict (c : CriticOutput) : dict :=
  [ ("target_output_id", PyStr (target_output_id c));
    ("critic_agent_id", PyStr (critic_agent_id c));
    ("overall_score", PyFloat (overall_score c));
    ("satisfaction_score", PyFloat (satisfaction_score c));
    ("dimension_scores",
      PyList (map (fun s =>
                     PyDict [ ("dimension", PyStr (value (dimension s)));
                              ("score", PyFloat (score s));
                              ("reasoning", reasoning s);
                              ("suggestions", suggestions s) ])
                  (dimension_scores c)));
    ("summary_critique", summary_critique c);
    ("improvement_suggestions", improvement_suggestions c);
    ("critique_time", PyFloat (critique_time c));
    ("iteration", PyInt (iteration c));
    ("metadata", PyDict (metadata c)) ].

(** The text-generation collaborator: [get_response(prompt, temperature)]
    returns a text or raises, and may suspend the calling coroutine before
    it does. *)
Inductive reply : Type :=
| Returns (response : string)
| Raises (e : exn).

Record llm_call : Type := mkCall { suspends : bool; outcome : reply }.

Definition Conversation : Type := string -> float -> llm_call.

(** The attributes of a [GameCriticizer] ([config] is never read). *)
Record GameCriticizer : Type := mkCriticizer {
  naga_conversation : option Conversation;
  critique_history : list CriticOutput;
  current_iteration : Z
}.

(** [target_output_id]: [f"{actor_output.agent_id}_{actor_output.iteration}"]. *)
Definition target_id (actor_output : ActorOutput.t) : string :=
  ActorOutput.agent_id actor_output ++ "_" ++
  str_int (ActorOutput.iteration actor_output).

Definition last_opt {A : Type} (l : list A) : option A :=
  match rev l with
  | [] => None
  | x :: _ => Some x
  end.

(** [l[-2:]]. *)
Definition last_two {A : Type} (l : list A) : list A :=
  skipn (List.length l - 2) l.

(** [float(len(l))]. *)
Definition float_of_len (n : nat) : float := nearest_float (Z.of_nat n).

(* ================================================================= *)
(** ** The simulated evaluator *)

(** [mock_critiques], in insertion order. *)
Definition mock_critiques : list (string * string) :=
  [ ("质量分析师",
     join nl
       [ "{";
         jq "  'dimension_scores': [";
         jq "    {'dimension': '创新性', 'score': 7.5, 'reasoning': '提出了一些新颖的想法,但缺乏突破性创新', 'suggestions': ['探索更前沿的技术方案', '结合最新行业趋势']},";
         jq "    {'dimension': '逻辑性', 'score': 8.2, 'reasoning': '整体逻辑清晰,论证较为严密', 'suggestions': ['加强因果关系论证']},";
         jq "    {'dimension': '完整性', 'score': 6.8, 'reasoning': '主要内容齐全,但部分细节有待补充', 'suggestions': ['补充实施细节', '增加风险评估']},";
         jq "    {'dimension': '可行性', 'score': 7.0, 'reasoning': '方案基本可行,但需要考虑实际约束', 'suggestions': ['评估资源需求', '制定分阶段实施计划']},";
         jq "    {'dimension': '质量', 'score': 7.8, 'reasoning': '专业水准良好,表达清晰', 'suggestions': ['优化文档结构', '增加可视化元素']},";
         jq "    {'dimension': '相关性', 'score': 8.5, 'reasoning': '与任务需求高度匹配', 'suggestions': ['进一步细化需求对应关系']}";
         "  ],";
         jq "  'overall_score': 7.6,";
         jq "  'summary_critique': '整体方案具有良好的专业基础和可行性,逻辑结构清晰,与任务需求匹配度高.主要优势在于专业性和相关性,但在创新性和完整性方面还有提升空间.建议加强前沿技术的探索,补充实施细节和风险评估.',";
         jq "  'improvement_suggestions': ['增加创新技术方案的探索', '补充详细的实施计划和时间线', '加入风险评估和应对策略', '优化文档结构和可读性']";
         "}" ]);
    ("技术评审",
     join nl
       [ "{";
         jq "  'dimension_scores': [";
         jq "    {'dimension': '创新性', 'score': 6.5, 'reasoning': '技术方案相对保守,创新点不够突出', 'suggestions': ['引入新兴技术栈', '探索创新架构模式']},";
         jq "    {'dimension': '逻辑性', 'score': 8.8, 'reasoning': '技术逻辑严密,架构设计合理', 'suggestions': ['完善异常处理逻辑']},";
         jq "    {'dimension': '完整性', 'score': 7.2, 'reasoning': '核心技术要素完备,但缺少部署和运维考虑', 'suggestions': ['补充部署方案', '增加监控体系']},";
         jq "    {'dimension': '可行性', 'score': 8.0, 'reasoning': '技术方案成熟可靠,实施风险较低', 'suggestions': ['评估性能瓶颈', '制定扩容策略']},";
         jq "    {'dimension': '质量', 'score': 7.5, 'reasoning': '技术文档规范,但可视化不足', 'suggestions': ['增加架构图', '完善API文档']},";
         jq "    {'dimension': '相关性', 'score': 8.3, 'reasoning': '技术选型符合项目需求', 'suggestions': ['优化技术栈匹配度']}";
         "  ],";
         jq "  'overall_score': 7.7,";
         jq "  'summary_critique': '技术方案整体稳健可靠,架构设计合理,逻辑严密.在可行性和相关性方面表现优秀,但创新性有待提升.建议引入更多前沿技术,完善部署运维方案,增强文档的可视化表达.',";
         jq "  'improvement_suggestions': ['探索微服务架构的创新实践', '补充完整的部署和运维方案', '增加系统架构图和流程图', '建立性能监控和告警体系']";
         "}" ]);
    ("产品评估",
     join nl
       [ "{";
         jq "  'dimension_scores': [";
         jq "    {'dimension': '创新性', 'score': 8.0, 'reasoning': '产品理念新颖,用户体验有创新点', 'suggestions': ['深化差异化特性', '探索新交互模式']},";
         jq "    {'dimension': '逻辑性', 'score': 7.5, 'reasoning': '产品逻辑基本清晰,但部分流程需优化', 'suggestions': ['简化用户操作流程', '优化信息架构']},";
         jq "    {'dimension': '完整性', 'score': 6.9, 'reasoning': '核心功能完备,但缺少边界场景考虑', 'suggestions': ['补充异常场景处理', '完善用户反馈机制']},";
         jq "    {'dimension': '可行性', 'score': 7.8, 'reasoning': '产品方案可行,符合市场需求', 'suggestions': ['评估开发成本', '制定MVP方案']},";
         jq "    {'dimension': '质量', 'score': 7.3, 'reasoning': '产品设计专业,但细节需打磨', 'suggestions': ['优化界面设计', '完善交互细节']},";
         jq "    {'dimension': '相关性', 'score': 8.7, 'reasoning': '高度符合用户需求和市场定位', 'suggestions': ['加强用户画像分析']}";
         "  ],";
         jq "  'overall_score': 7.7,";
         jq "  'summary_critique': '产品方案创新性较强,市场定位准确,用户需求匹配度高.在创新性和相关性方面表现突出,但在完整性和细节打磨方面需要加强.建议深化产品差异化特性,完善边界场景处理,优化用户体验细节.',";
         jq "  'improvement_suggestions': ['深化产品差异化竞争优势', '完善用户场景和边界情况处理', '优化产品原型和交互设计', '建立用户反馈和迭代机制']";
         "}" ]) ].

(** [_generate_mock_critique]: the first canned payload whose key occurs in
    the evaluator's name or role, else the generic payload, which quotes
    the role. *)
Definition _generate_mock_critique (critic_agent : Agent.t) : string :=
  match
    find (fun kv => str_contains (fst kv) (Agent.name critic_agent)
                    || str_contains (fst kv) (Agent.role critic_agent))
         mock_critiques
  with
  | Some (_, critique) => critique
  | None =>
      join nl
        [ "{";
          jq "  'dimension_scores': [";
          jq "    {'dimension': '创新性', 'score': 7.0, 'reasoning': '具有一定创新性,但突破性不够', 'suggestions': ['探索更具突破性的方案']},";
          jq "    {'dimension': '逻辑性', 'score': 7.5, 'reasoning': '逻辑基本清晰,论证较为合理', 'suggestions': ['加强逻辑链条的完整性']},";
          jq "    {'dimension': '完整性', 'score': 6.8, 'reasoning': '主要内容完备,细节有待补充', 'suggestions': ['补充实施细节和边界情况']},";
          jq "    {'dimension': '可行性', 'score': 7.2, 'reasoning': '方案基本可行,需考虑实际约束', 'suggestions': ['评估实施难度和资源需求']},";
          jq "    {'dimension': '质量', 'score': 7.3, 'reasoning': '专业水准良好,表达清晰', 'suggestions': ['优化内容结构和表达方式']},";
          jq "    {'dimension': '相关性', 'score': 8.0, 'reasoning': '与任务需求匹配度较高', 'suggestions': ['进一步对齐具体需求']}";
          "  ],";
          jq "  'overall_score': 7.3,";
          jq "  'summary_critique': '作为" ++ Agent.role critic_agent ++ jq ",我认为这个方案整体质量良好,与任务需求匹配度高,逻辑结构基本清晰.主要优势在于相关性和专业性,但在创新性和完整性方面还有改进空间.建议加强突破性思维,完善实施细节.',";
          jq "  'improvement_suggestions': ['增强方案的创新性和前瞻性', '补充详细的实施计划和风险评估', '优化内容结构和表达质量', '加强与任务需求的精确对应']";
          "}" ]
  end.

(** [temperature=0.6]: the binary64 value nearest to 0.6. *)
Definition temperature : float := 0x1.3333333333333p-1%float.

(** [_call_llm_for_critique] once [get_response] has answered: the
    stripped response, or the simulated payload when it raised. *)
Definition llm_answer (critic_agent : Agent.t) (r : reply) : string :=
  match r with
  | Returns response => strip response
  | Raises _ => _generate_mock_critique critic_agent
  end.

(** [_call_llm_for_critique]: the whole body is inside [try], and the
    handler returns the simulated payload, so the call never raises. *)
Definition _call_llm_for_critique (self : GameCriticizer) (prompt : string)
    (critic_agent : Agent.t) : string :=
  match naga_conversation self with
  | None => _generate_mock_critique critic_agent
  | Some conversation =>
      llm_answer critic_agent (outcome (conversation prompt temperature))
  end.

(* ================================================================= *)
(** ** The satisfaction estimator *)

(** The inner loop of [_calculate_satisfaction_score]: the first previous
    score of the same dimension gives one improvement, then [break]. *)
Fixpoint improvement_of (current_score : CriticScore)
    (last_scores : list CriticScore) : list float :=
  match last_scores with
  | [] => []
  | last_score :: rest =>
      if dimension_eqb (dimension last_score) (dimension current_score)
      then [(score current_score - score last_score)%float]
      else improvement_of current_score rest
  end.

(** The outer loop. *)
Fixpoint improvements_of (current_scores last_scores : list CriticScore)
    : list float :=
  match current_scores with
  | [] => []
  | current_score :: rest =>
      (improvement_of current_score last_scores
       ++ improvements_of rest last_scores)%list
  end.

(** [_calculate_satisfaction_score].  [previous_critiques[-1]] cannot fail
    after the guard; were it to, the handler would return [7.0]. *)
Definition _calculate_satisfaction_score
    (previous_critiques : option (list CriticOutput))
    (current_scores : list CriticScore) : float :=
  match previous_critiques, current_scores with
  | None, _ => 7%float
  | Some [], _ => 7%float
  | Some _, [] => 7%float
  | Some previous, _ :: _ =>
      match last_opt previous with
      | None => 7%float
      | Some last_critique =>
          let improvements :=
            improvements_of current_scores (dimension_scores last_critique) in
          match improvements with
          | [] => 7%float
          | _ :: _ =>
              let avg_improvement :=
                (py_sum improvements / float_of_len (List.length improvements))%float in
              let satisfaction := (7 + avg_improvement)%float in
              py_max 0%float (py_min 10%float satisfaction)
          end
      end
  end.

(** [_get_default_critique_result]. *)
Definition _get_default_critique_result
    : list CriticScore * float * pyval * pyval :=
  ( map (fun dimension =>
           mkCriticScore dimension 7%float
             (PyStr ("默认" ++ value dimension ++ "评分"))
             (PyList [PyStr ("改进" ++ value dimension ++ "相关方面")]))
        all_dimensions,
    7%float,
    PyStr "批判分析过程出现问题,使用默认评分",
    PyList [PyStr "建议重新进行详细分析"; PyStr "优化内容质量"; PyStr "加强专业性"] ).

(** The extraction chain of [_parse_critique_result]: the fenced block if
    there is one; else the stripped text, cut from its first opening brace
    to its last closing brace when it does not start with a brace. *)
Definition extract_json_str (critique_result : string) : string :=
  match re_search_fenced_json critique_result with
  | Some group1 => group1
  | None =>
      let json_str := strip critique_result in
      if startswith "{" json_str then json_str
      else
        let start := str_find "{"%char json_str in
        let end_ := (str_rfind "}"%char json_str + 1)%Z in
        if negb (start =? -1)%Z && (end_ >? start)%Z
        then cp_slice start end_ json_str
        else json_str
  end.

(** The library functions whose results the module only passes on: the
    model is stated for any implementation of them. *)
Class PyLib : Type := {
  (** [json.loads(s)]. *)
  json_loads : string -> result pyval;
  (** [float(s)] for a [str]; it raises [ValueError] on a text that is not
      a number. *)
  float_of_str : string -> result float;
  (** [repr(v)]. *)
  py_repr : pyval -> string;
  (** [format(x, '.nf')]. *)
  format_fixed : nat -> float -> string;
  (** The successive readings of [time.time()]. *)
  time_time : nat -> float
}.

Section Criticizer.

Context {lib : PyLib}.

(** [str(v)], which an f-string applies to a field without a format. *)
Definition py_str (v : pyval) : string :=
  match v with
  | PyStr s => s
  | _ => py_repr v
  end.

(** [float(v)]. *)
Definition py_float (v : pyval) : result float :=
  match v with
  | PyFloat f => Ok f
  | PyInt z => float_of_int z
  | PyBool b => Ok (if b then 1%float else 0%float)
  | PyStr s => float_of_str s
  | _ => Raise (mkExn TypeError
                  ("float() argument must be a string or a real number, not '"
                   ++ type_name v ++ "'"))
  end.

(* --------------------------------------------------------------- *)
(** *** [_build_critique_prompt] *)

(** One pass of the loop over the recent evaluations: three sections.
    The slice raises when the summary is not a sequence. *)
Definition history_sections_of (prev_critique : CriticOutput)
    : result (list string) :=
  summary <- py_slice_to 100 (summary_critique prev_critique) ;;
  Ok [ "### 第" ++ str_int (iteration prev_critique) ++ "轮批判:" ++ nl;
       "- 总体评分:" ++ format_fixed 1 (overall_score prev_critique)
         ++ "/10" ++ nl;
       "- 主要意见:" ++ py_str summary ++ "..." ++ nl ].

Fixpoint history_sections (l : list CriticOutput) : result (list string) :=
  match l with
  | [] => Ok []
  | prev_critique :: rest =>
      s <- history_sections_of prev_critique ;;
      r <- history_sections rest ;;
      Ok (s ++ r)%list
  end.

Definition _build_critique_prompt (actor_output : ActorOutput.t)
    (critic_agent : Agent.t) (task : Task.t)
    (previous_critiques : option (list CriticOutput)) : result string :=
  let prompt_sections :=
    [ "# 批判专家身份" ++ nl ++ (Agent.system_prompt critic_agent) ++ nl;
      "# 批判任务" ++ nl ++ "你需要对以下内容进行专业的多维度批判分析:" ++ nl;
      "## 原始任务背景" ++ nl;
      "- 任务ID:" ++ (Task.task_id task) ++ nl;
      "- 任务描述:" ++ (Task.description task) ++ nl;
      "- 任务领域:" ++ (Task.domain task) ++ nl ] in
  let prompt_sections :=
    app prompt_sections
    match Task.requirements task with
    | [] => []
    | _ :: _ => ["- 任务需求:" ++ join "、" (Task.requirements task) ++ nl]
    end in
  let prompt_sections :=
    app prompt_sections
    match Task.constraints task with
    | [] => []
    | _ :: _ => ["- 约束条件:" ++ join "、" (Task.constraints task) ++ nl]
    end in
  let prompt_sections :=
    app prompt_sections
    [ nl ++ "## 待批判内容" ++ nl;
      "**作者**:" ++ (py_str (get_default "agent_name" (PyStr "未知") (ActorOutput.metadata actor_output))) ++ nl;
      "**迭代轮次**:第" ++ (str_int (ActorOutput.iteration actor_output)) ++ "轮" ++ nl;
      "**生成时间**:" ++ (format_fixed 2 (ActorOutput.generation_time actor_output)) ++ "秒" ++ nl;
      "**内容**:" ++ nl ++ "```" ++ nl ++ (ActorOutput.content actor_output) ++ nl ++ "```" ++ nl ] in
  history <-
    match previous_critiques with
    | Some ((_ :: _) as previous) =>
        sections <- history_sections (last_two previous) ;;
        Ok ((nl ++ "## 历史批判参考" ++ nl) :: sections)
    | _ => Ok []
    end ;;
  let prompt_sections := app prompt_sections history in
  let prompt_sections :=
    app prompt_sections
    [ nl ++ "# 批判维度要求" ++ nl;
      "请从以下6个维度对内容进行评分（0-10分）和分析:" ++ nl;
      "1. **创新性**:内容是否具有新颖的思路和独特的见解" ++ nl;
      "2. **逻辑性**:论证是否严密,结构是否合理" ++ nl;
      "3. **完整性**:内容是否全面,是否遗漏重要方面" ++ nl;
      "4. **可行性**:方案是否具有实际操作性和可执行性" ++ nl;
      "5. **质量**:内容的专业水准和表达质量" ++ nl;
      "6. **相关性**:内容与任务需求的匹配程度" ++ nl ] in
  let prompt_sections :=
    app prompt_sections
    [ nl ++ "# 输出格式要求" ++ nl;
      "请严格按照以下JSON格式输出批判结果:" ++ nl;
      "```json" ++ nl;
      "{" ++ nl;
      jq "  'dimension_scores': [" ++ nl;
      jq "    {'dimension': '创新性', 'score': 7.5, 'reasoning': '评分理由', 'suggestions': ['建议1', '建议2']}," ++ nl;
      jq "    {'dimension': '逻辑性', 'score': 8.0, 'reasoning': '评分理由', 'suggestions': ['建议1']}," ++ nl;
      "    ..." ++ nl;
      "  ]," ++ nl;
      jq "  'overall_score': 7.8," ++ nl;
      jq "  'summary_critique': '总体批判意见,包含主要优点和不足'," ++ nl;
      jq "  'improvement_suggestions': ['具体改进建议1', '具体改进建议2', '具体改进建议3']" ++ nl;
      "}" ++ nl ++ "```" ++ nl ] in
  let prompt_sections :=
    app prompt_sections
    [ nl ++ "# 批判原则" ++ nl;
      "1. **客观公正**:基于内容质量进行评价,避免主观偏见" ++ nl;
      "2. **建设性**:不仅指出问题,更要提供改进方向" ++ nl;
      "3. **专业性**:运用" ++ (Agent.role critic_agent) ++ "的专业知识进行分析" ++ nl;
      "4. **针对性**:针对" ++ (Task.domain task) ++ "领域的特点进行评价" ++ nl;
      "5. **发展性**:考虑内容的发展潜力和优化空间" ++ nl ] in
  let prompt_sections :=
    app prompt_sections [nl ++ "请开始进行专业的批判分析:"] in
  Ok (join nl prompt_sections).

(* --------------------------------------------------------------- *)
(** *** [_parse_critique_result] *)

(** The body of the loop over [data['dimension_scores']]. *)
Definition parse_score (score_data : pyval) : result CriticScore :=
  label <- py_getitem score_data "dimension" ;;
  dimension <- CriticDimension_of label ;;
  raw_score <- py_getitem score_data "score" ;;
  score <- py_float raw_score ;;
  reasoning <- py_get score_data "reasoning" (PyStr "") ;;
  suggestions <- py_get score_data "suggestions" (PyList []) ;;
  Ok (mkCriticScore dimension score reasoning suggestions).

(** The loop: an entry that raises [ValueError] or [KeyError] is skipped,
    any other exception leaves the loop. *)
Fixpoint parse_scores (items : list pyval) : result (list CriticScore) :=
  match items with
  | [] => Ok []
  | score_data :: rest =>
      match parse_score score_data with
      | Ok score => scores <- parse_scores rest ;; Ok (score :: scores)
      | Raise e =>
          if is_ValueError_or_KeyError e then parse_scores rest else Raise e
      end
  end.

(** The statements under [if 'dimension_scores' in data]. *)
Definition parse_dimension_scores (data : pyval)
    : result (list CriticScore) :=
  has_scores <- py_in "dimension_scores" data ;;
  if has_scores : bool
  then entries <- py_getitem data "dimension_scores" ;;
       items <- py_iter entries ;;
       parse_scores items
  else Ok [].

(** The [try] block after [json.loads]. *)
Definition parse_data (data : pyval)
    : result (list CriticScore * float * pyval * pyval) :=
  dimension_scores <- parse_dimension_scores data ;;
  raw_overall <- py_get data "overall_score" (PyFloat 7%float) ;;
  overall_score <- py_float raw_overall ;;
  summary_critique <- py_get data "summary_critique" (PyStr "批判解析失败") ;;
  suggestions <- py_get data "improvement_suggestions" (PyList []) ;;
  Ok (dimension_scores, overall_score, summary_critique, suggestions).

(** The whole [try] block. *)
Definition parse_try (critique_result : string)
    : result (list CriticScore * float * pyval * pyval) :=
  data <- json_loads (extract_json_str critique_result) ;;
  parse_data data.

(** [_parse_critique_result]: any exception of the [try] block gives the
    default result ([actor_output] and [task] are not read). *)
Definition _parse_critique_result (critique_result : string)
    (actor_output : ActorOutput.t) (task : Task.t)
    : list CriticScore * float * pyval * pyval :=
  match parse_try critique_result with
  | Ok r => r
  | Raise _ => _get_default_critique_result
  end.

(* --------------------------------------------------------------- *)
(** *** State *)

(** The criticizer and the clock: [ticks] counts the readings of
    [time.time()] taken so far. *)
Record World : Type := mkWorld { self : GameCriticizer; ticks : nat }.

(** [time.time()]. *)
Definition time_now (w : World) : float * World :=
  (time_time (ticks w), mkWorld (self w) (S (ticks w))).

(** [self.current_iteration += 1]. *)
Definition increment_iteration (w : World) : World :=
  mkWorld (mkCriticizer (naga_conversation (self w))
                        (critique_history (self w))
                        (current_iteration (self w) + 1)%Z)
          (ticks w).

(** [self.critique_history.append(c)]. *)
Definition append_history (w : World) (c : CriticOutput) : World :=
  mkWorld (mkCriticizer (naga_conversation (self w))
                        (critique_history (self w) ++ [c])%list
                        (current_iteration (self w)))
          (ticks w).

(* --------------------------------------------------------------- *)
(** *** [critique_output] *)

(** The [try] block from the parsing of the answer on: parse, estimate
    the satisfaction, build the result with the counter as it is now, and
    append it to the history.  None of these statements raises. *)
Definition critique_finish (w : World) (start_time : float)
    (actor_output : ActorOutput.t) (critic_agent : Agent.t) (task : Task.t)
    (previous_critiques : option (list CriticOutput))
    (critique_result : string) : World * CriticOutput :=
  let '(dimension_scores, overall_score, summary_critique, suggestions) :=
    _parse_critique_result critique_result actor_output task in
  let satisfaction_score :=
    _calculate_satisfaction_score previous_critiques dimension_scores in
  let '(now, w) := time_now w in
  let critique_output :=
    {| target_output_id := target_id actor_output;
       critic_agent_id := Agent.agent_id critic_agent;
       overall_score := overall_score;
       satisfaction_score := satisfaction_score;
       dimension_scores := dimension_scores;
       summary_critique := summary_critique;
       improvement_suggestions := suggestions;
       critique_time := (now - start_time)%float;
       iteration := current_iteration (self w);
       metadata :=
         [ ("target_agent_name",
             get_default "agent_name" (PyStr "unknown")
               (ActorOutput.metadata actor_output));
           ("critic_agent_name", PyStr (Agent.name critic_agent));
           ("task_domain", PyStr (Task.domain task));
           ("has_previous_critiques",
             PyBool match previous_critiques with
                    | Some (_ :: _) => true
                    | _ => false
                    end);
           ("content_length",
             PyInt (Z.of_nat (py_len (ActorOutput.content actor_output)))) ]
    |} in
  (append_history w critique_output, critique_output).

(** The [try] block. *)
Definition critique_try (w : World) (start_time : float)
    (actor_output : ActorOutput.t) (critic_agent : Agent.t) (task : Task.t)
    (previous_critiques : option (list CriticOutput))
    : result (World * CriticOutput) :=
  critique_prompt <-
    _build_critique_prompt actor_output critic_agent task previous_critiques ;;
  let critique_result :=
    _call_llm_for_critique (self w) critique_prompt critic_agent in
  Ok (critique_finish w start_time actor_output critic_agent task
        previous_critiques critique_result).

(** The [except Exception as e] block: the degraded result is returned;
    the history is not touched. *)
Definition critique_except (w : World) (start_time : float)
    (actor_output : ActorOutput.t) (critic_agent : Agent.t) (e : exn)
    : World * CriticOutput :=
  let '(now, w) := time_now w in
  (w,
   {| target_output_id := target_id actor_output;
      critic_agent_id := Agent.agent_id critic_agent;
      overall_score := 5%float;
      satisfaction_score := 5%float;
      dimension_scores := [];
      summary_critique := PyStr ("批判过程出错:" ++ exn_msg e);
      improvement_suggestions := PyList [PyStr "建议重新进行批判分析"];
      critique_time := (now - start_time)%float;
      iteration := current_iteration (self w);
      metadata := [ ("error", PyBool true);
                    ("error_message", PyStr (exn_msg e)) ] |}).

(** [critique_output], awaited to completion with nothing interleaved. *)
Definition critique_output (w : World)
    (actor_output : ActorOutput.t) (critic_agent : Agent.t) (task : Task.t)
    (previous_critiques : option (list CriticOutput))
    : World * CriticOutput :=
  let '(start_time, w) := time_now w in
  let w := increment_iteration w in
  match critique_try w start_time actor_output critic_agent task
          previous_critiques with
  | Ok r => r
  | Raise e => critique_except w start_time actor_output critic_agent e
  end.

(* --------------------------------------------------------------- *)
(** *** Coroutines

    A call of [critique_output] is a coroutine.  Its only suspension
    point is [await self.naga_conversation.get_response(..)]; between two
    suspension points the event loop runs nothing else.  A coroutine is
    thus either suspended there, holding its locals and the answer it
    will be resumed with, or finished. *)

Definition critique_args : Type :=
  (ActorOutput.t * Agent.t * Task.t * option (list CriticOutput))%type.

Inductive coroutine : Type :=
| Awaiting (start_time : float) (args : critique_args) (answer : reply)
| Returned (r : result CriticOutput).

(** The first step of the coroutine: up to the suspension, or to the end
    when nothing suspends it. *)
Definition critique_start (w : World) (args : critique_args)
    : World * coroutine :=
  let '(actor_output, critic_agent, task, previous_critiques) := args in
  let '(start_time, w) := time_now w in
  let w := increment_iteration w in
  match _build_critique_prompt actor_output critic_agent task
          previous_critiques with
  | Raise e =>
      let '(w, out) :=
        critique_except w start_time actor_output critic_agent e in
      (w, Returned (Ok out))
  | Ok critique_prompt =>
      match naga_conversation (self w) with
      | None =>
          let '(w, out) :=
            critique_finish w start_time actor_output critic_agent task
              previous_critiques (_generate_mock_critique critic_agent) in
          (w, Returned (Ok out))
      | Some conversation =>
          let call := conversation critique_prompt temperature in
          if suspends call
          then (w, Awaiting start_time args (outcome call))
          else
            let '(w, out) :=
              critique_finish w start_time actor_output critic_agent task
                previous_critiques (llm_answer critic_agent (outcome call)) in
            (w, Returned (Ok out))
      end
  end.

(** The step after the answer has arrived: the coroutine runs to its
    end.  A finished coroutine keeps its result. *)
Definition critique_resume (w : World) (co : coroutine)
    : World * result CriticOutput :=
  match co with
  | Awaiting start_time (actor_output, critic_agent, task, previous_critiques)
      answer =>
      let '(w, out) :=
        critique_finish w start_time actor_output critic_agent task
          previous_critiques (llm_answer critic_agent answer) in
      (w, Ok out)
  | Returned r => (w, r)
  end.

(** *** [asyncio.gather] with [return_exceptions=True]

    The tasks take their first step in the order given.  The suspended
    ones are then resumed as their answers arrive: [order] lists task
    indices in arrival order, and the tasks it leaves out are resumed
    last, in task order.  The results come in task order. *)

Fixpoint start_all (w : World) (tasks : list critique_args)
    : World * list coroutine :=
  match tasks with
  | [] => (w, [])
  | args :: rest =>
      let '(w, co) := critique_start w args in
      let '(w, cos) := start_all w rest in
      (w, co :: cos)
  end.

Fixpoint resume_at (i : nat) (w : World) (cos : list coroutine)
    {struct cos} : World * list coroutine :=
  match cos with
  | [] => (w, [])
  | co :: rest =>
      match i with
      | O => let '(w, r) := critique_resume w co in (w, Returned r :: rest)
      | S i' => let '(w, rest) := resume_at i' w rest in (w, co :: rest)
      end
  end.

Fixpoint resume_in_order (order : list nat) (w : World)
    (cos : list coroutine) : World * list coroutine :=
  match order with
  | [] => (w, cos)
  | i :: order' =>
      let '(w, cos) := resume_at i w cos in
      resume_in_order order' w cos
  end.

Fixpoint join_all (w : World) (cos : list coroutine)
    : World * list (result CriticOutput) :=
  match cos with
  | [] => (w, [])
  | co :: rest =>
      let '(w, r) := critique_resume w co in
      let '(w, results) := join_all w rest in
      (w, r :: results)
  end.

Definition gather (order : list nat) (w : World) (tasks : list critique_args)
    : World * list (result CriticOutput) :=
  let '(w, cos) := start_all w tasks in
  let '(w, cos) := resume_in_order order w cos in
  join_all w cos.

(* --------------------------------------------------------------- *)
(** *** [batch_critique] *)

(** The two nested loops: every pair of an output and a critic whose
    identities differ, outputs outermost. *)
Definition critique_pairs (actor_outputs : list ActorOutput.t)
    (critic_agents : list Agent.t) : list (ActorOutput.t * Agent.t) :=
  flat_map
    (fun actor_output =>
       flat_map
         (fun critic_agent =>
            if negb (String.eqb (ActorOutput.agent_id actor_output)
                                (Agent.agent_id critic_agent))
            then [(actor_output, critic_agent)]
            else [])
         critic_agents)
    actor_outputs.

(** The last loop: the results that are exceptions are left out. *)
Fixpoint valid_critiques (critique_results : list (result CriticOutput))
    : list CriticOutput :=
  match critique_results with
  | [] => []
  | Ok c :: rest => c :: valid_critiques rest
  | Raise _ :: rest => valid_critiques rest
  end.

Definition batch_critique (order : list nat) (w : World)
    (actor_outputs : list ActorOutput.t) (critic_agents : list Agent.t)
    (task : Task.t) : World * list CriticOutput :=
  let critique_tasks :=
    map (fun p : ActorOutput.t * Agent.t => (fst p, snd p, task, None))
        (critique_pairs actor_outputs critic_agents) in
  let '(w, critique_results) := gather order w critique_tasks in
  (w, valid_critiques critique_results).

End Criticizer.


(* ================================================================= *)
(** ** The history ledger *)

Definition is_some {A : Type} (o : option A) : bool :=
  match o with
  | Some _ => true
  | None => false
  end.

(** [not c.metadata.get('error', False)]. *)
Definition is_successful (c : CriticOutput) : bool :=
  negb (py_truthy (get_default "error" (PyBool false) (metadata c))).

(** [get_critique_statistics]. *)
Definition get_critique_statistics (self : GameCriticizer) : dict :=
  match critique_history self with
  | [] =>
      [ ("total_critiques", PyInt 0);
        ("average_overall_score", PyInt 0);
        ("average_satisfaction_score", PyInt 0);
        ("current_iteration", PyInt (current_iteration self));
        ("api_available", PyBool (is_some (naga_conversation self))) ]
  | _ :: _ =>
      let history := critique_history self in
      let total_overall := py_sum (map overall_score history) in
      let total_satisfaction := py_sum (map satisfaction_score history) in
      let successful_critiques := filter is_successful history in
      [ ("total_critiques", PyInt (Z.of_nat (List.length history)));
        ("successful_critiques",
          PyInt (Z.of_nat (List.length successful_critiques)));
        ("failed_critiques",
          PyInt (Z.of_nat (List.length history)
                 - Z.of_nat (List.length successful_critiques)));
        ("average_overall_score",
          PyFloat (total_overall / float_of_len (List.length history))%float);
        ("average_satisfaction_score",
          PyFloat (total_satisfaction / float_of_len (List.length history))%float);
        ("current_iteration", PyInt (current_iteration self));
        ("api_available", PyBool (is_some (naga_conversation self)));
        ("average_critique_time",
          PyFloat (py_sum (map critique_time history)
                   / float_of_len (List.length history))%float) ]
  end.

(** [get_latest_critique]. *)
Definition get_latest_critique (self : GameCriticizer) : option CriticOutput :=
  last_opt (critique_history self).

(** [clear_history]. *)
Definition clear_history (self : GameCriticizer) : GameCriticizer :=
  mkCriticizer (naga_conversation self) [] 0%Z.

(** [__init__] with [_init_naga_api]: when no conversation is given, the
    import of one is tried; [imported] is what that gives, [None] when it
    fails with [ImportError]. *)
Definition GameCriticizer_init (naga_conversation imported : option Conversation)
    : GameCriticizer :=
  mkCriticizer
    (match naga_conversation with
     | Some c => Some c
     | None => imported
     end)
    [] 0%Z.

(* ================================================================= *)
(** ** Reference library functions

    The theorems of this file hold for every [json.loads], [float],
    [repr], [format] and clock.  To run the embedding on concrete inputs,
    this module implements them:

    - a JSON decoder for objects, arrays, strings with their escapes,
      numbers, [true], [false], [null], [NaN] and [Infinity], where a
      duplicate key keeps its last value; it has no limit on nesting depth
      or on the number of digits of an integer;
    - the conversion of a decimal numeral written with ASCII digits to the
      nearest binary64 value, which is what [float] and the decoder do;
    - the fixed-point formatting of a float, rounded half to even on its
      exact value. *)
Module Ref.

(** The binary64 value nearest to [m * 10 ^ e10], ties to even. *)
Definition decimal_to_float (neg : bool) (m e10 : Z) : float :=
  if (m =? 0)%Z then (if neg then neg_zero else zero)
  else if (400 <? e10)%Z then (if neg then neg_infinity else infinity)
  else if (Z.log2 m / 3 + 2 + e10 <? -330)%Z
       then (if neg then neg_zero else zero)
  else if (0 <=? e10)%Z
       then SF2Prim (binary_normalize prec emax
                       ((if neg then - m else m) * 10 ^ e10) 0 false)
  else
    let '(q, e, l) := SFdiv_core_binary prec emax m 0 (10 ^ (- e10)) 0 in
    SF2Prim (binary_round_aux prec emax neg q e l).

Definition is_digit (c : ascii) : bool :=
  let n := nat_of_ascii c in (48 <=? n)%nat && (n <=? 57)%nat.

Definition digit_value (c : ascii) : Z := Z.of_nat (nat_of_ascii c) - 48.

(** The longest prefix of digits, and the rest. *)
Fixpoint take_digits (s : string) : string * string :=
  match s with
  | EmptyString => (EmptyString, EmptyString)
  | String c r =>
      if is_digit c
      then let '(ds, rest) := take_digits r in (String c ds, rest)
      else (EmptyString, s)
  end.

Fixpoint digits_value (ds : string) (acc : Z) : Z :=
  match ds with
  | EmptyString => acc
  | String c r => digits_value r (acc * 10 + digit_value c)
  end.

(** An optional fraction [.ddd]: its digits and the rest. *)
Definition take_fraction (at_least_one : bool) (s : string)
    : option string * string :=
  match s with
  | String "."%char r =>
      let '(ds, rest) := take_digits r in
      if at_least_one && is_empty ds then (None, s) else (Some ds, rest)
  | _ => (None, s)
  end.

(** An optional exponent [e+ddd]: its value and the rest. *)
Definition take_exponent (s : string) : option Z * string :=
  match s with
  | String c r =>
      if Ascii.eqb c "e"%char || Ascii.eqb c "E"%char then
        let '(neg, r') :=
          match r with
          | String "-"%char r' => (true, r')
          | String "+"%char r' => (false, r')
          | _ => (false, r)
          end in
        let '(ds, rest) := take_digits r' in
        if is_empty ds then (None, s)
        else (Some (if neg then - digits_value ds 0 else digits_value ds 0)%Z,
              rest)
      else (None, s)
  | EmptyString => (None, s)
  end.

(** *** [json.loads] *)

Definition decode_error {A : Type} (msg : string) : result A :=
  Raise (mkExn JSONDecodeError msg).

Definition is_json_space (c : ascii) : bool :=
  let n := nat_of_ascii c in
  ((n =? 32) || (n =? 9) || (n =? 10) || (n =? 13))%nat.

Fixpoint skip_ws (s : string) : string :=
  match s with
  | String c r => if is_json_space c then skip_ws r else s
  | EmptyString => s
  end.

(** A number: an optional minus sign, an integer part without leading
    zero, an optional fraction and an optional exponent.  It is an [int]
    when it has neither fraction nor exponent, else a [float]. *)
Definition scan_number (s : string) : option (pyval * string) :=
  let '(neg, s1) :=
    match s with
    | String "-"%char r => (true, r)
    | _ => (false, s)
    end in
  let '(int_digits, s2) :=
    match s1 with
    | String "0"%char r => ("0", r)
    | _ => take_digits s1
    end in
  if is_empty int_digits then None
  else
    let '(fraction, s3) := take_fraction true s2 in
    let '(exponent, s4) := take_exponent s3 in
    match fraction, exponent with
    | None, None =>
        let n := digits_value int_digits 0 in
        Some (PyInt (if neg then - n else n), s4)
    | _, _ =>
        let fraction_digits := match fraction with Some d => d | None => "" end in
        let e := match exponent with Some e => e | None => 0%Z end in
        Some (PyFloat
                (decimal_to_float neg
                   (digits_value (int_digits ++ fraction_digits) 0)
                   (e - Z.of_nat (String.length fraction_digits))),
              s4)
    end.

Definition hex_value (c : ascii) : option Z :=
  let n := nat_of_ascii c in
  if (48 <=? n)%nat && (n <=? 57)%nat then Some (Z.of_nat n - 48)%Z
  else if (65 <=? n)%nat && (n <=? 70)%nat then Some (Z.of_nat n - 55)%Z
  else if (97 <=? n)%nat && (n <=? 102)%nat then Some (Z.of_nat n - 87)%Z
  else None.

Definition byte (z : Z) : ascii := ascii_of_nat (Z.to_nat z).

(** The UTF-8 encoding of a code point. *)
Definition utf8 (cp : Z) : string :=
  if (cp <? 128)%Z then String (byte cp) EmptyString
  else if (cp <? 2048)%Z then
    String (byte (192 + cp / 64))
      (String (byte (128 + cp mod 64)) EmptyString)
  else if (cp <? 65536)%Z then
    String (byte (224 + cp / 4096))
      (String (byte (128 + (cp / 64) mod 64))
         (String (byte (128 + cp mod 64)) EmptyString))
  else
    String (byte (240 + cp / 262144))
      (String (byte (128 + (cp / 4096) mod 64))
         (String (byte (128 + (cp / 64) mod 64))
            (String (byte (128 + cp mod 64)) EmptyString))).

(** The items of a string literal: a byte of the text, or the code unit
    of a [\uXXXX] escape. *)
Inductive item : Type :=
| Byte (c : ascii)
| Unit (u : Z).

Definition simple_escape (c : ascii) : option ascii :=
  match nat_of_ascii c with
  | 34 => Some "034"%char
  | 92 => Some "092"%char
  | 47 => Some "/"%char
  | 98 => Some "008"%char
  | 102 => Some "012"%char
  | 110 => Some "010"%char
  | 114 => Some "013"%char
  | 116 => Some "009"%char
  | _ => None
  end.

(** The literal after its opening quote, up to the closing quote. *)
Fixpoint scan_items (s : string) : result (list item * string) :=
  match s with
  | EmptyString => decode_error "Unterminated string starting at"
  | String c r =>
      if Ascii.eqb c "034"%char then Ok ([], r)
      else if Ascii.eqb c "092"%char then
        match r with
        | String "u"%char (String h1 (String h2 (String h3 (String h4 r')))) =>
            match hex_value h1, hex_value h2, hex_value h3, hex_value h4 with
            | Some a, Some b, Some c', Some d =>
                match scan_items r' with
                | Ok (items, rest) =>
                    Ok (Unit (((a * 16 + b) * 16 + c') * 16 + d)%Z :: items,
                        rest)
                | Raise e => Raise e
                end
            | _, _, _, _ => decode_error "Invalid \uXXXX escape"
            end
        | String e r' =>
            match simple_escape e with
            | Some x =>
                match scan_items r' with
                | Ok (items, rest) => Ok (Byte x :: items, rest)
                | Raise e => Raise e
                end
            | None => decode_error "Invalid \escape"
            end
        | EmptyString => decode_error "Unterminated string starting at"
        end
      else if (nat_of_ascii c <? 32)%nat
      then decode_error "Invalid control character at"
      else
        match scan_items r with
        | Ok (items, rest) => Ok (Byte c :: items, rest)
        | Raise e => Raise e
        end
  end.

(** The text of the items: a high surrogate followed by a low one is one
    code point. *)
Fixpoint items_text (items : list item) : string :=
  match items with
  | [] => EmptyString
  | Byte c :: rest => String c (items_text rest)
  | Unit hi :: rest =>
      match rest with
      | Unit lo :: rest' =>
          if ((55296 <=? hi) && (hi <=? 56319)
              && (56320 <=? lo) && (lo <=? 57343))%Z
          then utf8 (65536 + (hi - 55296) * 1024 + (lo - 56320))
               ++ items_text rest'
          else utf8 hi ++ items_text rest
      | _ => utf8 hi ++ items_text rest
      end
  end.

Definition scan_string (s : string) : result (string * string) :=
  match scan_items s with
  | Ok (items, rest) => Ok (items_text items, rest)
  | Raise e => Raise e
  end.

(** [d[k] = v]: a key keeps the place of its first insertion. *)
Fixpoint dict_set (k : string) (v : pyval) (d : dict) : dict :=
  match d with
  | [] => [(k, v)]
  | (k', v') :: d' =>
      if String.eqb k k' then (k, v) :: d' else (k', v') :: dict_set k v d'
  end.

(** One value at the head of [s], and the rest of [s].  Each call takes
    one unit of [fuel]; twice the length of the text suffices. *)
Fixpoint scan_value (fuel : nat) (s : string) {struct fuel}
    : result (pyval * string) :=
  match fuel with
  | O => decode_error "Expecting value"
  | S fuel' =>
      match s with
      | String c r =>
          if Ascii.eqb c "034"%char then
            match scan_string r with
            | Ok (str, rest) => Ok (PyStr str, rest)
            | Raise e => Raise e
            end
          else if Ascii.eqb c "{"%char then
            match skip_ws r with
            | String "}"%char rest => Ok (PyDict [], rest)
            | r' => scan_members fuel' r' []
            end
          else if Ascii.eqb c "["%char then
            match skip_ws r with
            | String "]"%char rest => Ok (PyList [], rest)
            | r' => scan_elements fuel' r' []
            end
          else if String.prefix "null" s then Ok (PyNone, drop_bytes 4 s)
          else if String.prefix "true" s then Ok (PyBool true, drop_bytes 4 s)
          else if String.prefix "false" s then Ok (PyBool false, drop_bytes 5 s)
          else if String.prefix "NaN" s then Ok (PyFloat nan, drop_bytes 3 s)
          else if String.prefix "Infinity" s
               then Ok (PyFloat infinity, drop_bytes 8 s)
          else if String.prefix "-Infinity" s
               then Ok (PyFloat neg_infinity, drop_bytes 9 s)
          else
            match scan_number s with
            | Some r => Ok r
            | None => decode_error "Expecting value"
            end
      | EmptyString => decode_error "Expecting value"
      end
  end

with scan_elements (fuel : nat) (s : string) (acc : list pyval)
    {struct fuel} : result (pyval * string) :=
  match fuel with
  | O => decode_error "Expecting value"
  | S fuel' =>
      match scan_value fuel' s with
      | Raise e => Raise e
      | Ok (v, rest) =>
          match skip_ws rest with
          | String ","%char rest' =>
              scan_elements fuel' (skip_ws rest') (acc ++ [v])%list
          | String "]"%char rest' => Ok (PyList (acc ++ [v])%list, rest')
          | _ => decode_error "Expecting ',' delimiter"
          end
      end
  end

with scan_members (fuel : nat) (s : string) (acc : dict)
    {struct fuel} : result (pyval * string) :=
  match fuel with
  | O => decode_error "Expecting value"
  | S fuel' =>
      match s with
      | String "034"%char r =>
          match scan_string r with
          | Raise e => Raise e
          | Ok (key, rest) =>
              match skip_ws rest with
              | String ":"%char rest' =>
                  match scan_value fuel' (skip_ws rest') with
                  | Raise e => Raise e
                  | Ok (v, rest'') =>
                      match skip_ws rest'' with
                      | String ","%char r' =>
                          scan_members fuel' (skip_ws r') (dict_set key v acc)
                      | String "}"%char r' =>
                          Ok (PyDict (dict_set key v acc), r')
                      | _ => decode_error "Expecting ',' delimiter"
                      end
                  end
              | _ => decode_error "Expecting ':' delimiter"
              end
          end
      | _ => decode_error
               "Expecting property name enclosed in double quotes"
      end
  end.

Definition json_loads (s : string) : result pyval :=
  match scan_value (2 * String.length s + 4) (skip_ws s) with
  | Raise e => Raise e
  | Ok (v, rest) =>
      if is_empty (skip_ws rest) then Ok v else decode_error "Extra data"
  end.

(** *** [float(s)] for a [str] *)

Definition lower (c : ascii) : ascii :=
  let n := nat_of_ascii c in
  if (65 <=? n)%nat && (n <=? 90)%nat then ascii_of_nat (n + 32) else c.

Fixpoint lowercase (s : string) : string :=
  match s with
  | EmptyString => EmptyString
  | String c r => String (lower c) (lowercase r)
  end.

(** An underscore between two digits is dropped. *)
Fixpoint drop_underscores (after_digit : bool) (s : string) : string :=
  match s with
  | EmptyString => EmptyString
  | String c r =>
      if Ascii.eqb c "_"%char && after_digit
         && match r with String d _ => is_digit d | EmptyString => false end
      then drop_underscores false r
      else String c (drop_underscores (is_digit c) r)
  end.

(** An unsigned numeral [ddd(.ddd)?(e[+-]ddd)?] or [.ddd(e[+-]ddd)?]
    that is all of [s]. *)
Definition scan_decimal (neg : bool) (s : string) : option float :=
  let '(int_digits, s1) := take_digits s in
  let '(fraction, s2) := take_fraction false s1 in
  let fraction_digits := match fraction with Some d => d | None => "" end in
  if is_empty int_digits && is_empty fraction_digits then None
  else
    let '(exponent, s3) := take_exponent s2 in
    if is_empty s3
    then Some (decimal_to_float neg
                 (digits_value (int_digits ++ fraction_digits) 0)
                 (match exponent with Some e => e | None => 0%Z end
                  - Z.of_nat (String.length fraction_digits)))
    else None.

Definition float_of_str (s : string) : result float :=
  let text := lowercase (drop_underscores false (strip s)) in
  let '(neg, body) :=
    match text with
    | String "-"%char r => (true, r)
    | String "+"%char r => (false, r)
    | _ => (false, text)
    end in
  if String.eqb body "inf" || String.eqb body "infinity"
  then Ok (if neg then neg_infinity else infinity)
  else if String.eqb body "nan" then Ok nan
  else
    match scan_decimal neg body with
    | Some f => Ok f
    | None => Raise (mkExn ValueError
                       ("could not convert string to float: '" ++ s ++ "'"))
    end.

(** *** [format(x, '.nf')] *)

Fixpoint zeros (n : nat) : string :=
  match n with
  | O => EmptyString
  | S n' => String "0"%char (zeros n')
  end.

(** [x * 10 ^ d] rounded to an integer, ties to even, for [x = m * 2 ^ e]. *)
Definition scaled (m e : Z) (d : nat) : Z :=
  let num := (m * 10 ^ Z.of_nat d)%Z in
  if (0 <=? e)%Z then (num * 2 ^ e)%Z
  else
    let den := (2 ^ (- e))%Z in
    let q := (num / den)%Z in
    let r := (num mod den)%Z in
    match (2 * r ?= den)%Z with
    | Lt => q
    | Gt => (q + 1)%Z
    | Eq => if Z.even q then q else (q + 1)%Z
    end.

Definition fixed_digits (n : Z) (d : nat) : string :=
  let whole := str_int (n / 10 ^ Z.of_nat d) in
  match d with
  | O => whole
  | S _ =>
      let fraction := str_int (n mod 10 ^ Z.of_nat d) in
      whole ++ "." ++ zeros (d - String.length fraction) ++ fraction
  end.

Definition format_fixed (d : nat) (x : float) : string :=
  match Prim2SF x with
  | S754_nan => "nan"
  | S754_infinity s => if s then "-inf" else "inf"
  | S754_zero s => (if s then "-" else "") ++ fixed_digits 0 d
  | S754_finite s m e =>
      (if s then "-" else "") ++ fixed_digits (scaled (Zpos m) e d) d
  end.

(** A clock that reads [0.0], [1.0], [2.0], ... *)
Definition time_time (n : nat) : float := nearest_float (Z.of_nat n).

(** No example formats an object other than a string: a constant stands
    for [repr]. *)
Definition py_repr (v : pyval) : string := "<" ++ type_name v ++ ">".

End Ref.

(** The reference implementation of the library. *)
#[export] Instance reference_lib : PyLib :=
  Build_PyLib Ref.json_loads Ref.float_of_str Ref.py_repr Ref.format_fixed
    Ref.time_time.

(* ================================================================= *)
(** * Specification vocabulary *)

(** ** The estimator in the specification's words

    The prior score of a dimension, the deltas over the dimensions scored
    on both sides, their mean, and the clamp. *)
Definition prior_score (d : CriticDimension) (prior : list CriticScore)
    : option float :=
  option_map score (find (fun p => dimension_eqb (dimension p) d) prior).

Definition deltas (current prior : list CriticScore) : list float :=
  flat_map
    (fun c =>
       match prior_score (dimension c) prior with
       | Some p => [(score c - p)%float]
       | None => []
       end)
    current.

Definition mean (l : list float) : float :=
  (py_sum l / float_of_len (List.length l))%float.

Definition clamp (x lo hi : float) : float := py_max lo (py_min hi x).

(** ** The entries of a payload *)

(** The dimension a label names, if any. *)
Definition known_dimension (label : pyval) : option CriticDimension :=
  match label with
  | PyStr s => find (fun d => String.eqb (value d) s) all_dimensions
  | _ => None
  end.

(** The score the specification gives for an entry with a known label. *)
Definition normalized (entry : dict) (d : CriticDimension) (f : float)
    : CriticScore :=
  mkCriticScore d f
    (get_default "reasoning" (PyStr "") entry)
    (get_default "suggestions" (PyList []) entry).

Definition has_known_label (x : pyval) : bool :=
  match x with
  | PyDict entry =>
      match lookup "dimension" entry with
      | Some label => is_some (known_dimension label)
      | None => false
      end
  | _ => false
  end.

Section Entries.

Context {lib : PyLib}.

(** The entries the specification speaks of: an object whose label is a
    known dimension and whose score [float] accepts gives one score; an
    object whose label names no dimension gives none. *)
Inductive entry_ok : pyval -> list CriticScore -> Prop :=
| entry_known (entry : dict) (d : CriticDimension) (v : pyval) (f : float) :
    lookup "dimension" entry = Some (PyStr (value d)) ->
    lookup "score" entry = Some v ->
    py_float v = Ok f ->
    entry_ok (PyDict entry) [normalized entry d f]
| entry_unknown (entry : dict) (label : pyval) :
    lookup "dimension" entry = Some label ->
    known_dimension label = None ->
    entry_ok (PyDict entry) [].

Inductive entries_ok : list pyval -> list CriticScore -> Prop :=
| entries_nil : entries_ok [] []
| entries_cons (x : pyval) (xs : list pyval) (r rs : list CriticScore) :
    entry_ok x r -> entries_ok xs rs -> entries_ok (x :: xs) (r ++ rs)%list.

End Entries.

(** ** Results and the calls they come from *)

(** [out] is a degraded result for the exception [e]. *)
Definition degraded (e : exn) (out : CriticOutput) : Prop :=
  overall_score out = 5%float
  /\ satisfaction_score out = 5%float
  /\ dimension_scores out = []
  /\ summary_critique out = PyStr ("批判过程出错:" ++ exn_msg e)
  /\ improvement_suggestions out = PyList [PyStr "建议重新进行批判分析"]
  /\ lookup "error" (metadata out) = Some (PyBool true).

(** [out] is a result of the call [args]: it names the call's content and
    evaluator, and either it carries no error flag and its satisfaction is
    the estimator's, or it carries the flag and its satisfaction is 5.0. *)
Definition made_for (args : critique_args) (out : CriticOutput) : Prop :=
  let '(actor_output, critic_agent, task, previous_critiques) := args in
  target_output_id out = target_id actor_output
  /\ critic_agent_id out = Agent.agent_id critic_agent
  /\ ((lookup "error" (metadata out) = None
       /\ satisfaction_score out
          = _calculate_satisfaction_score previous_critiques
              (dimension_scores out))
      \/ (lookup "error" (metadata out) = Some (PyBool true)
          /\ satisfaction_score out = 5%float)).

(** A coroutine of the call [args]. *)
Definition belongs_to (args : critique_args) (co : coroutine) : Prop :=
  match co with
  | Awaiting _ args' _ => args' = args
  | Returned (Ok out) => made_for args out
  | Returned (Raise _) => False
  end.

(** The call [batch_critique] makes for a pair. *)
Definition batch_call (task : Task.t) (p : ActorOutput.t * Agent.t)
    : critique_args :=
  (fst p, snd p, task, None).

(** A pair is a self-pair when the evaluator produced the content. *)
Definition self_pair (p : ActorOutput.t * Agent.t) : bool :=
  String.eqb (ActorOutput.agent_id (fst p)) (Agent.agent_id (snd p)).

Fixpoint has_char (c : ascii) (s : string) : bool :=
  match s with
  | EmptyString => false
  | String x r => Ascii.eqb x c || has_char c r
  end.

(** Calls awaited one after the other. *)
Fixpoint run_sequence {lib : PyLib} (w : World) (calls : list critique_args)
    : World * list CriticOutput :=
  match calls with
  | [] => (w, [])
  | (actor_output, critic_agent, task, previous_critiques) :: rest =>
      let '(w, out) :=
        critique_output w actor_output critic_agent task previous_critiques in
      let '(w, outs) := run_sequence w rest in
      (w, out :: outs)
  end.

(** The world in which the [try] block of a call runs, and the start time
    the call has read. *)
Definition entered {lib : PyLib} (w : World) : World :=
  increment_iteration (snd (time_now w)).

Definition started {lib : PyLib} (w : World) : float := fst (time_now w).

(** A coroutine that is suspended, or has returned a result recorded at
    iteration [k]. *)
Definition records_at (k : Z) (co : coroutine) : Prop :=
  match co with
  | Awaiting _ _ _ => True
  | Returned (Ok out) => iteration out = k
  | Returned (Raise _) => False
  end.

Definition is_awaiting (co : coroutine) : Prop :=
  match co with
  | Awaiting _ _ _ => True
  | Returned _ => False
  end.

(** A coroutine that is suspended, or has returned a result without the
    error flag. *)
Definition unflagged (co : coroutine) : Prop :=
  match co with
  | Awaiting _ _ _ => True
  | Returned (Ok out) => lookup "error" (metadata out) = None
  | Returned (Raise _) => False
  end.

(* ================================================================= *)
(** * Concrete inputs *)

(** Two contents, their producers as evaluators, a third evaluator, and a
    task. *)
Definition writer_output : ActorOutput.t :=
  ActorOutput.mk "writer" 1 "初稿:一个三阶段的实施方案" 1.5%float
    [("agent_name", PyStr "Writer")].

Definition editor_output : ActorOutput.t :=
  ActorOutput.mk "editor" 1 "修订稿:补充了风险评估" 2%float
    [("agent_name", PyStr "Editor")].

Definition writer_agent : Agent.t :=
  Agent.mk "writer" "Writer" "作者" "你是一名作者.".

Definition reviewer : Agent.t :=
  Agent.mk "reviewer" "Reviewer" "评审" "你是一名评审.".

Definition demo_task : Task.t :=
  Task.mk "task-1" "撰写实施方案" "工程" ["完整"; "可行"] [].

(** A new criticizer, and the world with its clock at the first reading. *)
Definition fresh (naga_conversation : option Conversation) : World :=
  mkWorld (GameCriticizer_init naga_conversation None) 0.

(** A collaborator that always raises. *)
Definition failing_conversation : Conversation :=
  fun _ _ => mkCall false (Raises (mkExn OtherException "connection refused")).

(** A collaborator that suspends its caller and then answers. *)
Definition slow_conversation : Conversation :=
  fun _ _ =>
    mkCall true
      (Returns (jq "{'dimension_scores': [], 'overall_score': 8.0, 'summary_critique': 'ok'}")).

(** A collaborator whose payload has a null summary. *)
Definition null_summary_conversation : Conversation :=
  fun _ _ =>
    mkCall false
      (Returns (jq "{'dimension_scores': [], 'overall_score': 8.0, 'summary_critique': null}")).

(** An evaluation whose summary is [None], as the orchestrator builds from
    the payload above. *)
Definition null_summary_critique : CriticOutput :=
  {| target_output_id := "writer_1"; critic_agent_id := "reviewer";
     overall_score := 8%float; satisfaction_score := 7%float;
     dimension_scores := [];
     summary_critique := PyNone; improvement_suggestions := PyList [];
     critique_time := 1%float; iteration := 1%Z; metadata := [] |}.

(** The last round scored logic 6.0 and quality 8.0; this round scores
    quality 2.0 and relevance 9.0. *)
Definition last_round : CriticOutput :=
  {| target_output_id := "writer_1"; critic_agent_id := "reviewer";
     overall_score := 7%float; satisfaction_score := 7%float;
     dimension_scores :=
       [ mkCriticScore LOGIC 6%float (PyStr "") (PyList []);
         mkCriticScore QUALITY 8%float (PyStr "") (PyList []) ];
     summary_critique := PyStr ""; improvement_suggestions := PyList [];
     critique_time := 0%float; iteration := 1%Z; metadata := [] |}.

Definition this_round : list CriticScore :=
  [ mkCriticScore QUALITY 2%float (PyStr "") (PyList []);
    mkCriticScore RELEVANCE 9%float (PyStr "") (PyList []) ].

(** Raw evaluator answers. *)
Definition truncated_answer : string :=
  jq "评审意见如下 {'dimension_scores': [{'dimension': '创新性', 'score': 8".

Definition mixed_answer : string :=
  "```json" ++ nl ++
  jq "{'dimension_scores': [{'dimension': '创新性', 'score': 8.5, 'reasoning': '新颖'}, {'dimension': '趣味性', 'score': 3}, {'dimension': '质量', 'score': 7}], 'overall_score': 8}"
  ++ nl ++ "```".

Definition mixed_innovation : dict :=
  [ ("dimension", PyStr "创新性"); ("score", PyFloat 8.5%float);
    ("reasoning", PyStr "新颖") ].

Definition mixed_unknown : dict :=
  [ ("dimension", PyStr "趣味性"); ("score", PyInt 3) ].

Definition mixed_quality : dict :=
  [ ("dimension", PyStr "质量"); ("score", PyInt 7) ].

Definition mixed_payload : dict :=
  [ ("dimension_scores",
      PyList [PyDict mixed_innovation; PyDict mixed_unknown;
              PyDict mixed_quality]);
    ("overall_score", PyInt 8) ].

Definition null_overall_answer : string :=
  jq "{'dimension_scores': [{'dimension': '逻辑性', 'score': 9}], 'overall_score': null}".

Definition null_overall_payload : dict :=
  [ ("dimension_scores",
      PyList [PyDict [("dimension", PyStr "逻辑性"); ("score", PyInt 9)]]);
    ("overall_score", PyNone) ].

Definition text_overall_answer : string :=
  jq "{'dimension_scores': [{'dimension': '创新性', 'score': 9.0}], 'overall_score': 'high', 'summary_critique': '很好'}".

Definition text_overall_payload : dict :=
  [ ("dimension_scores",
      PyList [PyDict [("dimension", PyStr "创新性"); ("score", PyFloat 9%float)]]);
    ("overall_score", PyStr "high");
    ("summary_critique", PyStr "很好") ].

Definition bare_answer : string :=
  jq "{'dimension_scores': [{'dimension': '质量', 'score': 6}]}".

Definition bare_payload : dict :=
  [ ("dimension_scores",
      PyList [PyDict [("dimension", PyStr "质量"); ("score", PyInt 6)]]) ].

(* ================================================================= *)
(** * Further vocabulary *)

(** A result without the error flag. *)
Definition unflagged_out (out : CriticOutput) : Prop :=
  lookup "error" (metadata out) = None.

(** The results a list of coroutines has returned so far that count as
    successful, in task order. *)
Definition recorded_of (r : result CriticOutput) : list CriticOutput :=
  match r with
  | Ok out => if is_successful out then [out] else []
  | Raise _ => []
  end.

Definition recorded (cos : list coroutine) : list CriticOutput :=
  flat_map
    (fun co =>
       match co with
       | Returned r => recorded_of r
       | Awaiting _ _ _ => []
       end)
    cos.

(** The objects a slice [v[:n]] accepts. *)
Definition sliceable (v : pyval) : bool :=
  match v with
  | PyStr _ | PyList _ => true
  | _ => false
  end.

(** [x] is a NaN: it differs from itself. *)
Definition is_nan_float (x : float) : Prop := PrimFloat.eqb x x = false.

(** [s] occurs in [t] as a contiguous piece. *)
Definition piece_of (s t : string) : Prop :=
  exists before after, t = before ++ s ++ after.

(** A coroutine that is suspended, or has returned a result recorded at an
    iteration from [lo] to [hi]. *)
Definition records_within (lo hi : Z) (co : coroutine) : Prop :=
  match co with
  | Awaiting _ _ _ => True
  | Returned (Ok out) => (lo <= iteration out <= hi)%Z
  | Returned (Raise _) => False
  end.

(** The criticizers a program can reach through the methods of the class:
    a new one, and what a call, a batch, calls gathered by the program
    itself, or [clear_history] make of one. *)
Inductive reachable {lib : PyLib} : World -> Prop :=
| reach_init (naga_conversation imported : option Conversation) (n : nat) :
    reachable (mkWorld (GameCriticizer_init naga_conversation imported) n)
| reach_call (w : World) (actor_output : ActorOutput.t)
    (critic_agent : Agent.t) (task : Task.t)
    (previous_critiques : option (list CriticOutput)) :
    reachable w ->
    reachable (fst (critique_output w actor_output critic_agent task
                      previous_critiques))
| reach_batch (order : list nat) (w : World)
    (actor_outputs : list ActorOutput.t) (critic_agents : list Agent.t)
    (task : Task.t) :
    reachable w ->
    reachable (fst (batch_critique order w actor_outputs critic_agents task))
| reach_gather (order : list nat) (w : World) (tasks : list critique_args) :
    reachable w -> reachable (fst (gather order w tasks))
| reach_clear (w : World) :
    reachable w -> reachable (mkWorld (clear_history (self w)) (ticks w)).

(** The collaborator of [g], if there is one, never suspends its caller. *)
Definition never_suspends (g : GameCriticizer) : Prop :=
  match naga_conversation g with
  | None => True
  | Some conversation =>
      forall (prompt : string) (t : float),
        suspends (conversation prompt t) = false
  end.

(** The previous evaluations as a list: [None] counts as the empty list,
    as [if previous_critiques] reads it. *)
Definition previous_list (previous_critiques : option (list CriticOutput))
    : list CriticOutput :=
  match previous_critiques with
  | Some l => l
  | None => []
  end.

(** The history holds successful results only, each recorded at an
    iteration from 1 to the counter, and no more of them than the counter
    says. *)
Definition ledger_ok (g : GameCriticizer) : Prop :=
  Forall (fun out =>
            is_successful out = true
            /\ (1 <= iteration out <= current_iteration g)%Z)
         (critique_history g)
  /\ (Z.of_nat (List.length (critique_history g)) <= current_iteration g)%Z.

(** A score [float] rejects with a [TypeError]: it is neither a number, a
    text nor a truth value. *)
Definition unconvertible (v : pyval) : bool :=
  match v with
  | PyNone | PyList _ | PyDict _ => true
  | _ => false
  end.

(** An entry whose reading raises an exception the loop over the entries
    does not catch: it is not an object, or it is an object with a known
    label whose score [float] rejects with a [TypeError]. *)
Definition fatal_entry (x : pyval) : bool :=
  match x with
  | PyDict entry =>
      match lookup "dimension" entry, lookup "score" entry with
      | Some label, Some v => is_some (known_dimension label) && unconvertible v
      | _, _ => false
      end
  | _ => true
  end.

(** A criticizer that evaluates by simulation: it has no collaborator, or
    every call of its collaborator raises. *)
Definition simulated (g : GameCriticizer) : Prop :=
  match naga_conversation g with
  | None => True
  | Some conversation =>
      forall (prompt : string) (t : float),
        exists e, outcome (conversation prompt t) = Raises e
  end.

(* ================================================================= *)
(** * Further concrete inputs *)

(** A criticizer after two calls, the second of which failed: the first
    answer had a null summary, and the second call was given the first
    result as previous evaluation. *)
Definition after_failed_call : World :=
  let w0 := fresh (Some null_summary_conversation) in
  let first := critique_output w0 writer_output reviewer demo_task None in
  fst (critique_output (fst first) writer_output reviewer demo_task
         (Some [snd first])).


(** An answer with two entries, the second with a null score. *)
Definition null_score_answer : string :=
  jq "{'dimension_scores': [{'dimension': '创新性', 'score': 9.0}, {'dimension': '逻辑性', 'score': null}], 'overall_score': 9.5, 'summary_critique': '很好'}".

Definition null_score_entry : dict :=
  [ ("dimension", PyStr "逻辑性"); ("score", PyNone) ].

Definition null_score_payload : dict :=
  [ ("dimension_scores",
      PyList [ PyDict [("dimension", PyStr "创新性"); ("score", PyFloat 9%float)];
               PyDict null_score_entry ]);
    ("overall_score", PyFloat 9.5%float);
    ("summary_critique", PyStr "很好") ].

(** A round whose only score is the one [float] gives for the text "nan". *)
Definition nan_entry : dict :=
  [ ("dimension", PyStr "质量"); ("score", PyStr "nan") ].

Definition nan_round : list CriticScore :=
  [ mkCriticScore QUALITY nan (PyStr "") (PyList []) ].

(** A second content of the same producer and iteration. *)
Definition writer_revision : ActorOutput.t :=
  ActorOutput.mk "writer" 1 "初稿(修订):补充了时间线" 3%float
    [("agent_name", PyStr "Writer")].

(* ================================================================= *)
(** * Properties *)

(** ** Tactics and basic facts *)

(** Two floats that a comparison tells apart are different. *)
Ltac float_neq :=
  let H := fresh in
  intro H;
  apply (f_equal (fun x => PrimFloat.Leibniz.eqb x 5%float)) in H;
  vm_compute in H; discriminate H.

Lemma last_opt_snoc {A : Type} (l : list A) (x : A) :
  last_opt (l ++ [x])%list = Some x.
Proof. unfold last_opt. rewrite rev_unit. reflexivity. Qed.

Lemma dimension_eqb_eq (a b : CriticDimension) :
  dimension_eqb a b = true <-> a = b.
Proof.
  unfold dimension_eqb. destruct (CriticDimension_eq_dec a b); split;
    intros; try assumption; try reflexivity; try discriminate; contradiction.
Qed.

Lemma dimension_eqb_refl (a : CriticDimension) : dimension_eqb a a = true.
Proof. apply dimension_eqb_eq. reflexivity. Qed.

(** The value of a member names that member and no other. *)
Lemma find_value (d : CriticDimension) :
  find (fun d' => String.eqb (value d') (value d)) all_dimensions = Some d.
Proof. destruct d; reflexivity. Qed.

Lemma CriticDimension_of_value (d : CriticDimension) :
  CriticDimension_of (PyStr (value d)) = Ok d.
Proof. unfold CriticDimension_of. rewrite find_value. reflexivity. Qed.

Lemma CriticDimension_of_error (v : pyval) (e : exn) :
  CriticDimension_of v = Raise e -> exn_cls e = ValueError.
Proof.
  unfold CriticDimension_of. destruct v; intros H; try (inversion H; reflexivity).
  destruct (find _ all_dimensions); inversion H; reflexivity.
Qed.

Lemma CriticDimension_of_inv (v : pyval) (d : CriticDimension) :
  CriticDimension_of v = Ok d -> v = PyStr (value d).
Proof.
  unfold CriticDimension_of. destruct v; try discriminate.
  destruct (find _ all_dimensions) as [d'|] eqn:F; try discriminate.
  intros H. inversion H; subst d'.
  apply find_some in F. destruct F as [_ F].
  apply String.eqb_eq in F. rewrite F. reflexivity.
Qed.

(* ================================================================= *)
(** ** The satisfaction estimator (C2) *)

Lemma improvement_of_prior (c : CriticScore) (prior : list CriticScore) :
  improvement_of c prior =
  match prior_score (dimension c) prior with
  | Some p => [(score c - p)%float]
  | None => []
  end.
Proof.
  unfold prior_score. induction prior as [|p prior IH]; simpl.
  - reflexivity.
  - destruct (dimension_eqb (dimension p) (dimension c)); simpl.
    + reflexivity.
    + exact IH.
Qed.

(** The two nested loops collect the specification's deltas. *)
Lemma improvements_of_deltas (current prior : list CriticScore) :
  improvements_of current prior = deltas current prior.
Proof.
  unfold deltas. induction current as [|c current IH]; simpl.
  - reflexivity.
  - rewrite improvement_of_prior, IH. reflexivity.
Qed.

(** C2. The estimator returns 7.0 when there is no prior evaluation (absent
    or empty list) or no current score; otherwise, with the last prior
    evaluation, it returns 7.0 when no dimension is scored on both sides
    and [clamp (7.0 + mean of the deltas) 0.0 10.0] when some is; a single
    matching dimension with prior 8.0 and current 2.0 gives 1.0. *)
Theorem satisfaction_score_spec :
  forall (previous : option (list CriticOutput)) (current : list CriticScore),
    (previous = None \/ previous = Some [] \/ current = [] ->
     _calculate_satisfaction_score previous current = 7%float)
    /\ (forall (earlier : list CriticOutput) (last : CriticOutput),
          previous = Some (earlier ++ [last])%list -> current <> [] ->
          let ds := deltas current (dimension_scores last) in
          (ds = [] ->
           _calculate_satisfaction_score previous current = 7%float)
          /\ (ds <> [] ->
              _calculate_satisfaction_score previous current
              = clamp (7 + mean ds)%float 0%float 10%float))
    /\ (forall (earlier : list CriticOutput) (last : CriticOutput)
               (d : CriticDimension) (r1 s1 r2 s2 : pyval),
          previous = Some (earlier ++ [last])%list ->
          dimension_scores last = [mkCriticScore d 8%float r1 s1] ->
          current = [mkCriticScore d 2%float r2 s2] ->
          _calculate_satisfaction_score previous current = 1%float).
Proof.
  intros previous current.
  assert (General :
    forall earlier last, previous = Some (earlier ++ [last])%list ->
      current <> [] ->
      _calculate_satisfaction_score previous current =
      match deltas current (dimension_scores last) with
      | [] => 7%float
      | ds => clamp (7 + mean ds)%float 0%float 10%float
      end).
  { intros earlier last Hp Hc. subst previous.
    unfold _calculate_satisfaction_score.
    destruct current as [|c cs]; [contradiction Hc; reflexivity|].
    destruct (earlier ++ [last])%list as [|x xs] eqn:E.
    - destruct earlier; discriminate E.
    - rewrite <- E, last_opt_snoc, improvements_of_deltas.
      destruct (deltas (c :: cs) (dimension_scores last)); reflexivity. }
  split; [|split].
  - intros [H | [H | H]]; subst.
    + reflexivity.
    + reflexivity.
    + destruct previous as [[|p ps]|]; reflexivity.
  - intros earlier last Hp Hc ds. subst ds.
    rewrite (General earlier last Hp Hc).
    split; intros H.
    + rewrite H. reflexivity.
    + destruct (deltas current (dimension_scores last)).
      * contradiction H; reflexivity.
      * reflexivity.
  - intros earlier last d r1 s1 r2 s2 Hp Hl Hc.
    rewrite (General earlier last Hp) by (rewrite Hc; discriminate).
    rewrite Hl, Hc. unfold deltas, prior_score. simpl.
    rewrite dimension_eqb_refl. reflexivity.
Qed.


(* ================================================================= *)
(** ** The score normalizer (C3, C6, C8) *)

(** The default result, field by field. *)
Lemma default_result_shape :
  let '(scores, overall, narrative, advice) := _get_default_critique_result in
  map dimension scores = all_dimensions
  /\ (forall d : CriticDimension,
        count_occ CriticDimension_eq_dec (map dimension scores) d = 1)
  /\ Forall (fun s =>
               score s = 7%float
               /\ reasoning s = PyStr ("默认" ++ value (dimension s) ++ "评分")
               /\ suggestions s
                  = PyList [PyStr ("改进" ++ value (dimension s) ++ "相关方面")])
            scores
  /\ overall = 7%float
  /\ narrative = PyStr "批判分析过程出现问题,使用默认评分"
  /\ advice = PyList [PyStr "建议重新进行详细分析"; PyStr "优化内容质量";
                      PyStr "加强专业性"].
Proof.
  unfold _get_default_critique_result.
  split; [reflexivity|].
  split; [intros d; destruct d; reflexivity|].
  split; [|repeat split].
  unfold all_dimensions. repeat constructor.
Qed.

Section Normalizer.

Context {lib : PyLib}.

(** Any exception of the [try] block ends in the default result. *)
Lemma parse_try_raise (raw : string) (a : ActorOutput.t) (t : Task.t)
    (e : exn) :
  parse_try raw = Raise e ->
  _parse_critique_result raw a t = _get_default_critique_result.
Proof.
  intros H. unfold _parse_critique_result. rewrite H. reflexivity.
Qed.

Lemma parse_try_ok (raw : string) (a : ActorOutput.t) (t : Task.t)
    (r : list CriticScore * float * pyval * pyval) :
  parse_try raw = Ok r -> _parse_critique_result raw a t = r.
Proof.
  intros H. unfold _parse_critique_result. rewrite H. reflexivity.
Qed.

(** C3. When the extraction-then-parse chain fails on a raw text, that is
    when [json.loads] raises on the extracted text, the normalizer
    returns the default result (it is a total function: it never raises).
    The default result has exactly one score for each of the six
    dimensions, each 7.0 with the generic reasoning and suggestion, the
    overall score 7.0 and the fixed narrative. *)
Theorem parse_failure_gives_default :
  forall (raw : string) (a : ActorOutput.t) (t : Task.t) (e : exn),
    json_loads (extract_json_str raw) = Raise e ->
    _parse_critique_result raw a t = _get_default_critique_result
    /\ let '(scores, overall, narrative, advice) :=
         _parse_critique_result raw a t in
       map dimension scores = all_dimensions
       /\ (forall d : CriticDimension,
             count_occ CriticDimension_eq_dec (map dimension scores) d = 1)
       /\ Forall (fun s =>
                    score s = 7%float
                    /\ reasoning s
                       = PyStr ("默认" ++ value (dimension s) ++ "评分")
                    /\ suggestions s
                       = PyList [PyStr ("改进" ++ value (dimension s)
                                        ++ "相关方面")])
                 scores
       /\ overall = 7%float
       /\ narrative = PyStr "批判分析过程出现问题,使用默认评分"
       /\ advice = PyList [PyStr "建议重新进行详细分析"; PyStr "优化内容质量";
                           PyStr "加强专业性"].
Proof.
  intros raw a t e H.
  assert (D : _parse_critique_result raw a t = _get_default_critique_result).
  { apply parse_try_raise with (e := e).
    unfold parse_try. rewrite H. reflexivity. }
  split; [exact D|]. rewrite D. exact default_result_shape.
Qed.

(* --------------------------------------------------------------- *)
(** *** Dimension entries *)

Lemma known_dimension_none (label : pyval) :
  known_dimension label = None ->
  exists e, CriticDimension_of label = Raise e /\ exn_cls e = ValueError.
Proof.
  unfold known_dimension, CriticDimension_of.
  destruct label; intros H; try (eexists; split; reflexivity).
  rewrite H. eexists; split; reflexivity.
Qed.

Lemma known_dimension_value (d : CriticDimension) :
  known_dimension (PyStr (value d)) = Some d.
Proof. exact (find_value d). Qed.

Lemma entries_ok_length (items : list pyval) (scores : list CriticScore) :
  entries_ok items scores ->
  List.length scores = List.length (filter has_known_label items).
Proof.
  induction 1 as [|x xs r rs Hx Hxs IH]; [reflexivity|].
  rewrite length_app. simpl filter.
  destruct Hx as [entry d v f Hd Hs Hf | entry label Hd Hk]; simpl.
  - rewrite Hd, known_dimension_value. simpl. rewrite IH. reflexivity.
  - rewrite Hd, Hk. simpl. exact IH.
Qed.

Lemma parse_score_known (entry : dict) (d : CriticDimension) (v : pyval)
    (f : float) :
  lookup "dimension" entry = Some (PyStr (value d)) ->
  lookup "score" entry = Some v ->
  py_float v = Ok f ->
  parse_score (PyDict entry) = Ok (normalized entry d f).
Proof.
  intros Hd Hs Hf. unfold parse_score, py_getitem, py_get, bind.
  rewrite Hd, CriticDimension_of_value, Hs, Hf. reflexivity.
Qed.

Lemma parse_score_unknown (entry : dict) (label : pyval) :
  lookup "dimension" entry = Some label ->
  known_dimension label = None ->
  exists e, parse_score (PyDict entry) = Raise e
            /\ is_ValueError_or_KeyError e = true.
Proof.
  intros Hd Hk. destruct (known_dimension_none _ Hk) as [e [He Hc]].
  exists e. unfold parse_score, py_getitem, bind.
  rewrite Hd, He. split; [reflexivity|].
  unfold is_ValueError_or_KeyError. rewrite Hc. reflexivity.
Qed.

(** The loop keeps the entries with a known label, in order. *)
Lemma parse_scores_ok (items : list pyval) (scores : list CriticScore) :
  entries_ok items scores -> parse_scores items = Ok scores.
Proof.
  induction 1 as [|x xs r rs Hx Hxs IH]; [reflexivity|].
  simpl. destruct Hx as [entry d v f Hd Hs Hf | entry label Hd Hk].
  - rewrite (parse_score_known _ _ Hd Hs Hf), IH. reflexivity.
  - destruct (parse_score_unknown _ Hd Hk) as [e [He Hc]].
    rewrite He, Hc. exact IH.
Qed.

(** What the top-level fields of a parsed object become. *)
Lemma parse_data_dict (d : dict) (scores : list CriticScore) :
  parse_dimension_scores (PyDict d) = Ok scores ->
  parse_data (PyDict d) =
  (overall <- py_float (get_default "overall_score" (PyFloat 7%float) d) ;;
   Ok (scores, overall,
       get_default "summary_critique" (PyStr "批判解析失败") d,
       get_default "improvement_suggestions" (PyList []) d)).
Proof.
  intros H. unfold parse_data. rewrite H. reflexivity.
Qed.

Lemma parse_dimension_scores_list (d : dict) (items : list pyval) :
  lookup "dimension_scores" d = Some (PyList items) ->
  parse_dimension_scores (PyDict d) = parse_scores items.
Proof.
  intros H. unfold parse_dimension_scores, py_in, py_getitem, bind.
  rewrite H. reflexivity.
Qed.

(** C6 (amended). For a well-formed JSON object whose [dimension_scores]
    array holds entries that each either carry a known dimension label
    and a score [float] accepts, or carry a label that names no
    dimension, and whose top-level [overall_score] is absent or accepted
    by [float], the normalizer returns exactly the entries with a known
    label, in order: the score is the result of [float], the reasoning
    defaults to the empty string and the suggestions to the empty list;
    the entries with an unknown label are dropped without error. *)
Theorem normalizer_keeps_known_entries :
  forall (raw : string) (a : ActorOutput.t) (t : Task.t) (d : dict)
         (items : list pyval) (scores : list CriticScore) (overall : float),
    json_loads (extract_json_str raw) = Ok (PyDict d) ->
    lookup "dimension_scores" d = Some (PyList items) ->
    entries_ok items scores ->
    py_float (get_default "overall_score" (PyFloat 7%float) d) = Ok overall ->
    _parse_critique_result raw a t
    = (scores, overall,
       get_default "summary_critique" (PyStr "批判解析失败") d,
       get_default "improvement_suggestions" (PyList []) d)
    /\ List.length scores = List.length (filter has_known_label items).
Proof.
  intros raw a t d items scores overall Hj Hl He Ho.
  split; [|exact (entries_ok_length He)].
  apply parse_try_ok.
  unfold parse_try. rewrite Hj. unfold bind at 1.
  rewrite parse_data_dict with (scores := scores).
  - rewrite Ho. reflexivity.
  - rewrite (parse_dimension_scores_list _ Hl). exact (parse_scores_ok He).
Qed.

(** C8 (amended). For a parsed JSON object whose dimension entries are
    read without a fatal error: when [overall_score] is absent the
    overall score is 7.0, and when [float] accepts it the overall score
    is its value; in both cases the narrative is [summary_critique] or
    the placeholder, the suggestions are [improvement_suggestions] or the
    empty list, and the dimension entries are kept.  When [overall_score]
    is present and [float] rejects it, the whole result is the default
    result: overall score 7.0, six default entries. *)
Theorem top_level_defaults :
  forall (raw : string) (a : ActorOutput.t) (t : Task.t) (d : dict)
         (scores : list CriticScore),
    json_loads (extract_json_str raw) = Ok (PyDict d) ->
    parse_dimension_scores (PyDict d) = Ok scores ->
    (lookup "overall_score" d = None ->
     _parse_critique_result raw a t
     = (scores, 7%float,
        get_default "summary_critique" (PyStr "批判解析失败") d,
        get_default "improvement_suggestions" (PyList []) d))
    /\ (forall (v : pyval) (f : float),
          lookup "overall_score" d = Some v -> py_float v = Ok f ->
          _parse_critique_result raw a t
          = (scores, f,
             get_default "summary_critique" (PyStr "批判解析失败") d,
             get_default "improvement_suggestions" (PyList []) d))
    /\ (forall (v : pyval) (e : exn),
          lookup "overall_score" d = Some v -> py_float v = Raise e ->
          _parse_critique_result raw a t = _get_default_critique_result)
    /\ (lookup "summary_critique" d = None ->
        get_default "summary_critique" (PyStr "批判解析失败") d
        = PyStr "批判解析失败")
    /\ (lookup "improvement_suggestions" d = None ->
        get_default "improvement_suggestions" (PyList []) d = PyList []).
Proof.
  intros raw a t d scores Hj Hs.
  assert (T : parse_try raw =
              (overall <- py_float (get_default "overall_score"
                                      (PyFloat 7%float) d) ;;
               Ok (scores, overall,
                   get_default "summary_critique" (PyStr "批判解析失败") d,
                   get_default "improvement_suggestions" (PyList []) d))).
  { unfold parse_try. rewrite Hj. unfold bind at 1.
    exact (parse_data_dict _ Hs). }
  repeat split.
  - intros Ho. apply parse_try_ok. rewrite T.
    unfold get_default at 1. rewrite Ho. reflexivity.
  - intros v f Ho Hf. apply parse_try_ok. rewrite T.
    unfold get_default at 1. rewrite Ho, Hf. reflexivity.
  - intros v e Ho Hf. apply parse_try_raise with (e := e). rewrite T.
    unfold get_default at 1. rewrite Ho, Hf. reflexivity.
  - intros H. unfold get_default. rewrite H. reflexivity.
  - intros H. unfold get_default. rewrite H. reflexivity.
Qed.

End Normalizer.

(* ================================================================= *)
(** ** The evaluation orchestrator (C1, C4, C5) *)

Section Orchestrator.

Context {lib : PyLib}.

(** Without previous evaluations the prompt is always built. *)
Lemma build_prompt_without_history (a : ActorOutput.t) (c : Agent.t)
    (t : Task.t) :
  exists p, _build_critique_prompt a c t None = Ok p.
Proof. eexists. reflexivity. Qed.

(** The result of the success path. *)
Lemma critique_finish_spec (w : World) (t0 : float) (a : ActorOutput.t)
    (c : Agent.t) (t : Task.t) (prev : option (list CriticOutput))
    (text : string) :
  exists out,
    critique_finish w t0 a c t prev text
    = (append_history (snd (time_now w)) out, out)
    /\ target_output_id out = target_id a
    /\ critic_agent_id out = Agent.agent_id c
    /\ satisfaction_score out
       = _calculate_satisfaction_score prev (dimension_scores out)
    /\ iteration out = current_iteration (self w)
    /\ lookup "error" (metadata out) = None
    /\ (dimension_scores out, overall_score out, summary_critique out,
        improvement_suggestions out)
       = _parse_critique_result text a t.
Proof.
  unfold critique_finish.
  destruct (_parse_critique_result text a t) as [[[ds ov] sm] sg].
  eexists. split; [reflexivity|]. repeat split.
Qed.

(** The result of the failure path. *)
Lemma critique_except_spec (w : World) (t0 : float) (a : ActorOutput.t)
    (c : Agent.t) (e : exn) :
  exists out,
    critique_except w t0 a c e = (snd (time_now w), out)
    /\ target_output_id out = target_id a
    /\ critic_agent_id out = Agent.agent_id c
    /\ iteration out = current_iteration (self w)
    /\ degraded e out.
Proof.
  unfold critique_except. eexists. split; [reflexivity|].
  unfold degraded. repeat split.
Qed.

Lemma critique_output_ok (w : World) (a : ActorOutput.t) (c : Agent.t)
    (t : Task.t) (prev : option (list CriticOutput)) (p : string) :
  _build_critique_prompt a c t prev = Ok p ->
  critique_output w a c t prev
  = critique_finish (entered w) (started w) a c t prev
      (_call_llm_for_critique (self (entered w)) p c).
Proof.
  intros H. unfold critique_output, critique_try, entered, started, time_now.
  cbv beta iota zeta. rewrite H. reflexivity.
Qed.

Lemma critique_output_raise (w : World) (a : ActorOutput.t) (c : Agent.t)
    (t : Task.t) (prev : option (list CriticOutput)) (e : exn) :
  _build_critique_prompt a c t prev = Raise e ->
  critique_output w a c t prev = critique_except (entered w) (started w) a c e.
Proof.
  intros H. unfold critique_output, critique_try, entered, started, time_now.
  cbv beta iota zeta. rewrite H. reflexivity.
Qed.

(** The [try] block raises exactly when the prompt assembly does. *)
Lemma critique_try_raise (w : World) (t0 : float) (a : ActorOutput.t)
    (c : Agent.t) (t : Task.t) (prev : option (list CriticOutput)) (e : exn) :
  critique_try w t0 a c t prev = Raise e
  <-> _build_critique_prompt a c t prev = Raise e.
Proof.
  unfold critique_try.
  destruct (_build_critique_prompt a c t prev) as [p|e']; unfold bind; split;
    intros H; try discriminate H; inversion H; reflexivity.
Qed.

(** An exception of the collaborator is replaced by the simulated payload. *)
Lemma collaborator_exception_absorbed (g : GameCriticizer)
    (conversation : Conversation) (prompt : string) (c : Agent.t) (e : exn) :
  naga_conversation g = Some conversation ->
  outcome (conversation prompt temperature) = Raises e ->
  _call_llm_for_critique g prompt c = _generate_mock_critique c.
Proof.
  intros Hc Ho. unfold _call_llm_for_critique. rewrite Hc, Ho. reflexivity.
Qed.

(** C1 (amended). [critique_output] returns a value for every input and
    every behaviour of the collaborator: it never raises.  Its handler is
    reached exactly when the prompt assembly raises, and the result is then
    degraded: overall score and satisfaction 5.0, no dimension score, the
    narrative made of a fixed prefix and the error message, one generic
    suggestion, and [error = True] in the metadata.  An exception of the
    collaborator call does not reach the handler: the call returns the
    simulated evaluator's payload instead. *)
Theorem critique_output_never_raises :
  forall (w : World) (a : ActorOutput.t) (c : Agent.t) (t : Task.t)
         (prev : option (list CriticOutput)),
    (exists w' out, critique_output w a c t prev = (w', out))
    /\ (forall e : exn,
          _build_critique_prompt a c t prev = Raise e ->
          degraded e (snd (critique_output w a c t prev)))
    /\ (forall (w0 : World) (t0 : float) (e : exn),
          critique_try w0 t0 a c t prev = Raise e
          <-> _build_critique_prompt a c t prev = Raise e)
    /\ (forall (conversation : Conversation) (prompt : string) (e : exn),
          naga_conversation (self w) = Some conversation ->
          outcome (conversation prompt temperature) = Raises e ->
          _call_llm_for_critique (self w) prompt c
          = _generate_mock_critique c).
Proof.
  intros w a c t prev. split; [|split; [|split]].
  - destruct (critique_output w a c t prev) as [w' out]. exists w', out.
    reflexivity.
  - intros e H. rewrite (critique_output_raise w _ _ _ _ H).
    destruct (critique_except_spec (entered w) (started w) a c e)
      as [out [E [_ [_ [_ D]]]]].
    rewrite E. exact D.
  - intros w0 t0 e. apply critique_try_raise.
  - intros conversation prompt e. apply collaborator_exception_absorbed.
Qed.

(** *** The history and the counter *)

Lemma entered_iteration (w : World) :
  current_iteration (self (entered w)) = (current_iteration (self w) + 1)%Z.
Proof. reflexivity. Qed.

Lemma entered_history (w : World) :
  critique_history (self (entered w)) = critique_history (self w).
Proof. reflexivity. Qed.

Lemma entered_conversation (w : World) :
  naga_conversation (self (entered w)) = naga_conversation (self w).
Proof. reflexivity. Qed.

(** A call that raises inside its [try] block leaves the history as it
    was. *)
Lemma failed_call_leaves_history (w : World) (a : ActorOutput.t) (c : Agent.t)
    (t : Task.t) (prev : option (list CriticOutput)) (e : exn) :
  _build_critique_prompt a c t prev = Raise e ->
  critique_history (self (fst (critique_output w a c t prev)))
  = critique_history (self w).
Proof.
  intros H. rewrite (critique_output_raise w _ _ _ _ H).
  destruct (critique_except_spec (entered w) (started w) a c e) as [out [E _]].
  rewrite E. reflexivity.
Qed.

(** A call that does not raise appends its result. *)
Lemma successful_call_appends (w : World) (a : ActorOutput.t) (c : Agent.t)
    (t : Task.t) (prev : option (list CriticOutput)) (p : string) :
  _build_critique_prompt a c t prev = Ok p ->
  critique_history (self (fst (critique_output w a c t prev)))
  = (critique_history (self w) ++ [snd (critique_output w a c t prev)])%list.
Proof.
  intros H. rewrite (critique_output_ok w _ _ _ _ H).
  destruct (critique_finish_spec (entered w) (started w) a c t prev
              (_call_llm_for_critique (self (entered w)) p c))
    as [out [E _]].
  rewrite E. reflexivity.
Qed.

(** Awaited alone, a call increments the counter by one and records the
    value it produced, on the success and on the failure path. *)
Lemma critique_output_iteration (w : World) (a : ActorOutput.t) (c : Agent.t)
    (t : Task.t) (prev : option (list CriticOutput)) :
  iteration (snd (critique_output w a c t prev))
  = (current_iteration (self w) + 1)%Z
  /\ current_iteration (self (fst (critique_output w a c t prev)))
     = (current_iteration (self w) + 1)%Z.
Proof.
  destruct (_build_critique_prompt a c t prev) as [p|e] eqn:H.
  - rewrite (critique_output_ok w _ _ _ _ H).
    destruct (critique_finish_spec (entered w) (started w) a c t prev
                (_call_llm_for_critique (self (entered w)) p c))
      as [out [E [_ [_ [_ [I _]]]]]].
    rewrite E. split; [exact I | reflexivity].
  - rewrite (critique_output_raise w _ _ _ _ H).
    destruct (critique_except_spec (entered w) (started w) a c e)
      as [out [E [_ [_ [I _]]]]].
    rewrite E. split; [exact I | reflexivity].
Qed.

(** [n] calls awaited one after the other record the [n] next counter
    values, in order. *)
Lemma sequential_iterations (calls : list critique_args) (w : World) :
  map iteration (snd (run_sequence w calls))
  = map (fun k => (current_iteration (self w) + Z.of_nat k)%Z)
        (seq 1 (List.length calls))
  /\ current_iteration (self (fst (run_sequence w calls)))
     = (current_iteration (self w) + Z.of_nat (List.length calls))%Z.
Proof.
  revert w. induction calls as [|[[[a c] t] prev] calls IH]; intros w.
  - simpl. split; [reflexivity | lia].
  - cbn [run_sequence].
    destruct (critique_output_iteration w a c t prev) as [I C].
    destruct (critique_output w a c t prev) as [w1 out]. cbn [fst snd] in I, C.
    destruct (IH w1) as [IH1 IH2].
    destruct (run_sequence w1 calls) as [w2 outs]. cbn [fst snd] in *.
    split.
    + cbn [map List.length seq]. rewrite I, IH1, C. f_equal.
      rewrite <- (seq_shift (List.length calls) 1), map_map.
      apply map_ext. intros k. lia.
    + rewrite IH2, C. cbn [List.length]. lia.
Qed.

(** The two steps of the coroutine, run one after the other, are the call
    awaited alone. *)
Lemma start_then_resume (w : World) (a : ActorOutput.t) (c : Agent.t)
    (t : Task.t) (prev : option (list CriticOutput)) :
  critique_resume (fst (critique_start w (a, c, t, prev)))
                  (snd (critique_start w (a, c, t, prev)))
  = (fst (critique_output w a c t prev),
     Ok (snd (critique_output w a c t prev))).
Proof.
  unfold critique_start, critique_output, critique_try, _call_llm_for_critique,
    time_now.
  cbv beta iota zeta.
  destruct (_build_critique_prompt a c t prev) as [p|e]; unfold bind.
  - destruct (naga_conversation _) as [conversation|].
    + destruct (suspends (conversation p temperature)).
      * cbn [fst snd critique_resume].
        destruct (critique_finish _ _ a c t prev _). reflexivity.
      * destruct (critique_finish _ _ a c t prev _). reflexivity.
    + destruct (critique_finish _ _ a c t prev _). reflexivity.
  - destruct (critique_except _ _ a c e). reflexivity.
Qed.

(** After [clear_history] the next call records iteration 1 and is the
    only entry of the history. *)
Lemma call_after_clear (w : World) (a : ActorOutput.t) (c : Agent.t)
    (t : Task.t) (p : string) :
  _build_critique_prompt a c t None = Ok p ->
  let w0 := mkWorld (clear_history (self w)) (ticks w) in
  iteration (snd (critique_output w0 a c t None)) = 1%Z
  /\ critique_history (self (fst (critique_output w0 a c t None)))
     = [snd (critique_output w0 a c t None)].
Proof.
  intros H w0. split.
  - exact (proj1 (critique_output_iteration w0 a c t None)).
  - exact (successful_call_appends w0 a c t None H).
Qed.

End Orchestrator.

(* ================================================================= *)
(** ** The batch runner (C9, C10) *)

(** *** The target identifier names its content's producer *)

Lemma string_of_uint_no_underscore (d : Decimal.uint) :
  has_char "_" (NilEmpty.string_of_uint d) = false.
Proof. induction d; simpl; auto. Qed.

Lemma str_int_no_underscore (z : Z) : has_char "_" (str_int z) = false.
Proof.
  unfold str_int, NilZero.string_of_int, NilZero.string_of_uint.
  destruct (Z.to_int z) as [d|d]; destruct d; simpl;
    try reflexivity; apply string_of_uint_no_underscore.
Qed.

Lemma has_char_after (c : ascii) (s r : string) :
  has_char c (s ++ String c r) = true.
Proof.
  induction s as [|x s IH]; simpl.
  - rewrite Ascii.eqb_refl. reflexivity.
  - rewrite IH. apply orb_true_r.
Qed.

Lemma separator_splits (a1 a2 d1 d2 : string) :
  has_char "_" d1 = false -> has_char "_" d2 = false ->
  a1 ++ "_" ++ d1 = a2 ++ "_" ++ d2 -> a1 = a2.
Proof.
  intros H1 H2. revert a2.
  induction a1 as [|x a1 IH]; intros [|y a2] E; simpl in E.
  - reflexivity.
  - inversion E as [[Hy Hd]]. rewrite Hd in H1.
    change (a2 ++ String "_" d2) with (a2 ++ String "_"%char d2) in H1.
    rewrite has_char_after in H1. discriminate H1.
  - inversion E as [[Hx Hd]]. rewrite <- Hd in H2.
    rewrite has_char_after in H2. discriminate H2.
  - inversion E as [[Hx Hd]]. f_equal. apply IH. exact Hd.
Qed.

Lemma target_id_producer (a a' : ActorOutput.t) :
  target_id a = target_id a' ->
  ActorOutput.agent_id a = ActorOutput.agent_id a'.
Proof.
  unfold target_id. apply separator_splits; apply str_int_no_underscore.
Qed.

(** *** The pairs *)

Lemma critique_pairs_filter (actor_outputs : list ActorOutput.t)
    (critic_agents : list Agent.t) :
  critique_pairs actor_outputs critic_agents
  = filter (fun p => negb (self_pair p)) (list_prod actor_outputs critic_agents).
Proof.
  unfold critique_pairs.
  induction actor_outputs as [|a actor_outputs IH]; [reflexivity|].
  cbn [flat_map list_prod]. rewrite filter_app, IH. f_equal.
  clear IH. induction critic_agents as [|c critic_agents IH]; [reflexivity|].
  cbn [flat_map map filter]. unfold self_pair at 1. cbn [fst snd].
  destruct (String.eqb (ActorOutput.agent_id a) (Agent.agent_id c));
    cbn [negb app]; rewrite IH; reflexivity.
Qed.

Lemma critique_pairs_in (actor_outputs : list ActorOutput.t)
    (critic_agents : list Agent.t) (a : ActorOutput.t) (c : Agent.t) :
  In (a, c) (critique_pairs actor_outputs critic_agents)
  <-> In a actor_outputs /\ In c critic_agents
      /\ ActorOutput.agent_id a <> Agent.agent_id c.
Proof.
  rewrite critique_pairs_filter, filter_In, in_prod_iff.
  unfold self_pair. cbn [fst snd]. rewrite negb_true_iff.
  split.
  - intros [[Ha Hc] Hn]. repeat split; try assumption.
    apply String.eqb_neq. exact Hn.
  - intros [Ha [Hc Hn]]. repeat split; try assumption.
    apply String.eqb_neq. exact Hn.
Qed.

Lemma valid_critiques_in (rs : list (result CriticOutput)) (out : CriticOutput) :
  In out (valid_critiques rs) <-> In (Ok out) rs.
Proof.
  induction rs as [|[o|e] rs IH]; cbn [valid_critiques In].
  - tauto.
  - rewrite IH. split; intros [H|H]; auto.
    + left. f_equal. exact H.
    + left. inversion H. reflexivity.
  - rewrite IH. split; [auto|]. intros [H|H]; [discriminate H | exact H].
Qed.

Section Batch.

Context {lib : PyLib}.

Lemma finish_made_for (w : World) (t0 : float) (a : ActorOutput.t)
    (c : Agent.t) (t : Task.t) (prev : option (list CriticOutput))
    (text : string) :
  made_for (a, c, t, prev) (snd (critique_finish w t0 a c t prev text)).
Proof.
  destruct (critique_finish_spec w t0 a c t prev text)
    as [out [E [T [C [S [_ [M _]]]]]]].
  rewrite E. cbn [snd made_for]. repeat split; try assumption.
  left. split; assumption.
Qed.

Lemma except_made_for (w : World) (t0 : float) (a : ActorOutput.t)
    (c : Agent.t) (t : Task.t) (prev : option (list CriticOutput)) (e : exn) :
  made_for (a, c, t, prev) (snd (critique_except w t0 a c e)).
Proof.
  destruct (critique_except_spec w t0 a c e) as [out [E [T [C [_ D]]]]].
  rewrite E. cbn [snd made_for]. repeat split; try assumption.
  right. destruct D as [_ [S [_ [_ [_ M]]]]]. split; assumption.
Qed.

(** The first step of a call gives a coroutine of that call. *)
Lemma start_belongs (w : World) (args : critique_args) :
  belongs_to args (snd (critique_start w args)).
Proof.
  destruct args as [[[a c] t] prev]. unfold critique_start, time_now.
  cbv beta iota zeta.
  destruct (_build_critique_prompt a c t prev) as [p|e].
  - destruct (naga_conversation _) as [conversation|].
    + destruct (suspends (conversation p temperature)).
      * reflexivity.
      * match goal with
        | |- context [critique_finish ?w' ?t0 a c t prev ?text] =>
            pose proof (finish_made_for w' t0 a c t prev text) as M;
            destruct (critique_finish w' t0 a c t prev text)
        end.
        exact M.
    + match goal with
      | |- context [critique_finish ?w' ?t0 a c t prev ?text] =>
          pose proof (finish_made_for w' t0 a c t prev text) as M;
          destruct (critique_finish w' t0 a c t prev text)
      end.
      exact M.
  - match goal with
    | |- context [critique_except ?w' ?t0 a c e] =>
        pose proof (except_made_for w' t0 a c t prev e) as M;
        destruct (critique_except w' t0 a c e)
    end.
    exact M.
Qed.

(** Resumed, a coroutine of a call gives a result of that call. *)
Lemma resume_made (w : World) (args : critique_args) (co : coroutine) :
  belongs_to args co ->
  exists out, snd (critique_resume w co) = Ok out /\ made_for args out.
Proof.
  destruct co as [t0 [[[a c] t] prev] answer | [out|e]];
    cbn [belongs_to]; intros H.
  - subst args. unfold critique_resume.
    pose proof (finish_made_for w t0 a c t prev (llm_answer c answer)) as M.
    destruct (critique_finish w t0 a c t prev (llm_answer c answer))
      as [w' out].
    exists out. split; [reflexivity | exact M].
  - exists out. split; [reflexivity | exact H].
  - contradiction.
Qed.

Lemma start_all_belongs (tasks : list critique_args) (w : World) :
  Forall2 belongs_to tasks (snd (start_all w tasks)).
Proof.
  revert w. induction tasks as [|args tasks IH]; intros w; cbn [start_all].
  - constructor.
  - pose proof (start_belongs w args) as H.
    destruct (critique_start w args) as [w1 co].
    specialize (IH w1). destruct (start_all w1 tasks) as [w2 cos].
    constructor; assumption.
Qed.

Lemma resume_at_belongs (i : nat) (tasks : list critique_args)
    (cos : list coroutine) (w : World) :
  Forall2 belongs_to tasks cos ->
  Forall2 belongs_to tasks (snd (resume_at i w cos)).
Proof.
  intros H. revert i w.
  induction H as [|args co tasks cos Hco Hrest IH]; intros i w;
    cbn [resume_at].
  - constructor.
  - destruct i as [|i].
    + destruct (@resume_made w args co Hco) as [out [E M]].
      destruct (critique_resume w co) as [w1 r]. cbn [snd] in *. subst r.
      constructor; [exact M | exact Hrest].
    + specialize (IH i w). destruct (resume_at i w cos) as [w1 cos'].
      constructor; assumption.
Qed.

Lemma resume_in_order_belongs (order : list nat) (tasks : list critique_args)
    (cos : list coroutine) (w : World) :
  Forall2 belongs_to tasks cos ->
  Forall2 belongs_to tasks (snd (resume_in_order order w cos)).
Proof.
  revert cos w. induction order as [|i order IH]; intros cos w H;
    cbn [resume_in_order].
  - exact H.
  - pose proof (@resume_at_belongs i tasks cos w H) as H1.
    destruct (resume_at i w cos) as [w1 cos1]. apply IH. exact H1.
Qed.

Lemma join_all_made (tasks : list critique_args) (cos : list coroutine)
    (w : World) :
  Forall2 belongs_to tasks cos ->
  Forall2 (fun args r => exists out, r = Ok out /\ made_for args out)
          tasks (snd (join_all w cos)).
Proof.
  intros H. revert w.
  induction H as [|args co tasks cos Hco Hrest IH]; intros w; cbn [join_all].
  - constructor.
  - destruct (@resume_made w args co Hco) as [out [E M]].
    destruct (critique_resume w co) as [w1 r]. cbn [snd] in E. subst r.
    specialize (IH w1). destruct (join_all w1 cos) as [w2 rs].
    constructor; [exists out; split; [reflexivity | exact M] | exact IH].
Qed.

(** Whatever the arrival order, [gather] returns one result per call, in
    call order, and none is an exception. *)
Lemma gather_made (order : list nat) (w : World) (tasks : list critique_args) :
  Forall2 (fun args r => exists out, r = Ok out /\ made_for args out)
          tasks (snd (gather order w tasks)).
Proof.
  unfold gather.
  pose proof (start_all_belongs tasks w) as H.
  destruct (start_all w tasks) as [w1 cos].
  pose proof (@resume_in_order_belongs order tasks cos w1 H) as H1.
  destruct (resume_in_order order w1 cos) as [w2 cos2].
  apply join_all_made. exact H1.
Qed.

Lemma valid_critiques_made (tasks : list critique_args)
    (rs : list (result CriticOutput)) :
  Forall2 (fun args r => exists out, r = Ok out /\ made_for args out) tasks rs ->
  Forall2 made_for tasks (valid_critiques rs).
Proof.
  induction 1 as [|args r tasks rs [out [E M]] Hrest IH];
    cbn [valid_critiques].
  - constructor.
  - subst r. constructor; assumption.
Qed.

Lemma batch_critique_results (order : list nat) (w : World)
    (actor_outputs : list ActorOutput.t) (critic_agents : list Agent.t)
    (task : Task.t) :
  snd (batch_critique order w actor_outputs critic_agents task)
  = valid_critiques
      (snd (gather order w
              (map (batch_call task)
                   (critique_pairs actor_outputs critic_agents)))).
Proof.
  unfold batch_critique.
  change (fun p : ActorOutput.t * Agent.t => (fst p, snd p, task, None))
    with (batch_call task).
  destruct (gather order w _) as [w1 rs]. reflexivity.
Qed.

Lemma batch_critique_made (order : list nat) (w : World)
    (actor_outputs : list ActorOutput.t) (critic_agents : list Agent.t)
    (task : Task.t) :
  Forall2 (fun p out => made_for (batch_call task p) out)
          (critique_pairs actor_outputs critic_agents)
          (snd (batch_critique order w actor_outputs critic_agents task)).
Proof.
  rewrite batch_critique_results.
  pose proof (valid_critiques_made
                (gather_made order w
                   (map (batch_call task)
                        (critique_pairs actor_outputs critic_agents)))) as H.
  remember (valid_critiques _) as outs eqn:E. clear E.
  remember (critique_pairs actor_outputs critic_agents) as pairs eqn:E.
  clear E. revert outs H.
  induction pairs as [|p pairs IH]; intros outs H; cbn [map] in H;
    inversion H; subst; constructor; auto.
Qed.

Lemma Forall2_in_right {A B : Type} (R : A -> B -> Prop) (l : list A)
    (l' : list B) (y : B) :
  Forall2 R l l' -> In y l' -> exists x, In x l /\ R x y.
Proof.
  induction 1 as [|a b l l' Hab Hrest IH]; cbn [In]; intros H.
  - contradiction.
  - destruct H as [H|H].
    + subst b. exists a. split; [left; reflexivity | exact Hab].
    + destruct (IH H) as [x [Hx Rx]]. exists x. split; [right|]; assumption.
Qed.

(** *** The batch never takes the failure path

    Without previous evaluations the prompt assembly cannot raise, so no
    call of a batch reaches the handler. *)

Lemma start_unflagged (w : World) (a : ActorOutput.t) (c : Agent.t)
    (t : Task.t) :
  unflagged (snd (critique_start w (a, c, t, None))).
Proof.
  destruct (build_prompt_without_history a c t) as [p Hp].
  unfold critique_start, time_now. cbv beta iota zeta. rewrite Hp.
  destruct (naga_conversation _) as [conversation|];
    [destruct (suspends (conversation p temperature)); [exact I|]|];
    match goal with
    | |- context [critique_finish ?w' ?t0 a c t None ?text] =>
        destruct (critique_finish_spec w' t0 a c t None text)
          as [out [E [_ [_ [_ [_ [M _]]]]]]];
        rewrite E; exact M
    end.
Qed.

Lemma resume_unflagged (w : World) (co : coroutine) :
  unflagged co ->
  exists out,
    snd (critique_resume w co) = Ok out /\ lookup "error" (metadata out) = None.
Proof.
  destruct co as [t0 [[[a c] t] prev] answer | [out|e]];
    cbn [unflagged critique_resume]; intros H.
  - destruct (critique_finish_spec w t0 a c t prev (llm_answer c answer))
      as [out [E [_ [_ [_ [_ [M _]]]]]]].
    rewrite E. exists out. split; [reflexivity | exact M].
  - exists out. split; [reflexivity | exact H].
  - contradiction.
Qed.

Lemma start_all_unflagged (tasks : list critique_args) (w : World) :
  Forall (fun args : critique_args => snd args = None) tasks ->
  Forall unflagged (snd (start_all w tasks)).
Proof.
  intros H. revert w.
  induction H as [|[[[a c] t] prev] tasks Hp Hrest IH]; intros w;
    cbn [start_all].
  - constructor.
  - cbn [snd] in Hp. subst prev.
    pose proof (start_unflagged w a c t) as H.
    destruct (critique_start w (a, c, t, None)) as [w1 co].
    specialize (IH w1). destruct (start_all w1 tasks) as [w2 cos].
    constructor; assumption.
Qed.

Lemma resume_at_unflagged (i : nat) (cos : list coroutine) (w : World) :
  Forall unflagged cos -> Forall unflagged (snd (resume_at i w cos)).
Proof.
  intros H. revert i w.
  induction H as [|co cos Hco Hrest IH]; intros i w; cbn [resume_at].
  - constructor.
  - destruct i as [|i].
    + destruct (resume_unflagged w co Hco) as [out [E M]].
      destruct (critique_resume w co) as [w1 r]. cbn [snd] in *. subst r.
      constructor; [exact M | exact Hrest].
    + specialize (IH i w). destruct (resume_at i w cos) as [w1 cos'].
      constructor; assumption.
Qed.

Lemma resume_in_order_unflagged (order : list nat) (cos : list coroutine)
    (w : World) :
  Forall unflagged cos -> Forall unflagged (snd (resume_in_order order w cos)).
Proof.
  revert cos w. induction order as [|i order IH]; intros cos w H;
    cbn [resume_in_order].
  - exact H.
  - pose proof (resume_at_unflagged i w H) as H1.
    destruct (resume_at i w cos) as [w1 cos1]. apply IH. exact H1.
Qed.

Lemma join_all_unflagged (cos : list coroutine) (w : World) :
  Forall unflagged cos ->
  Forall (fun out => lookup "error" (metadata out) = None)
         (valid_critiques (snd (join_all w cos))).
Proof.
  intros H. revert w.
  induction H as [|co cos Hco Hrest IH]; intros w; cbn [join_all].
  - constructor.
  - destruct (resume_unflagged w co Hco) as [out [E M]].
    destruct (critique_resume w co) as [w1 r]. cbn [snd] in E. subst r.
    specialize (IH w1). destruct (join_all w1 cos) as [w2 rs].
    cbn [snd valid_critiques] in *. constructor; assumption.
Qed.

(** Every result of a batch is a regular one: no error flag, and
    satisfaction 7.0. *)
Lemma batch_results_never_degraded (order : list nat) (w : World)
    (actor_outputs : list ActorOutput.t) (critic_agents : list Agent.t)
    (task : Task.t) :
  Forall (fun out =>
            lookup "error" (metadata out) = None
            /\ satisfaction_score out = 7%float)
         (snd (batch_critique order w actor_outputs critic_agents task)).
Proof.
  assert (U : Forall (fun out => lookup "error" (metadata out) = None)
                (snd (batch_critique order w actor_outputs critic_agents
                        task))).
  { rewrite batch_critique_results. unfold gather.
    assert (N : Forall (fun args : critique_args => snd args = None)
                  (map (batch_call task)
                       (critique_pairs actor_outputs critic_agents))).
    { apply Forall_forall. intros args H. apply in_map_iff in H.
      destruct H as [p [E _]]. subst args. reflexivity. }
    pose proof (start_all_unflagged w N) as H.
    destruct (start_all w _) as [w1 cos]. cbn [snd] in H.
    pose proof (resume_in_order_unflagged order w1 H) as H1.
    destruct (resume_in_order order w1 cos) as [w2 cos2]. cbn [snd] in H1.
    apply join_all_unflagged. exact H1. }
  rewrite Forall_forall in *. intros out Hin. split; [exact (U out Hin)|].
  destruct (@Forall2_in_right _ _ _ _ _ out
              (batch_critique_made order w actor_outputs critic_agents task)
              Hin) as [[a c] [_ M]].
  unfold batch_call, made_for in M. cbn [fst snd] in M.
  destruct M as [_ [_ [[_ S] | [E _]]]]; [exact S|].
  rewrite (U out Hin) in E. discriminate E.
Qed.

(** C9. [batch_critique] evaluates exactly the cross product of the
    contents and the evaluators without the self-pairs, contents
    outermost: it returns one result per such pair, in order, which names
    the pair's content and evaluator.  For a content and an evaluator with
    the same agent id, the pair is not evaluated and no returned result
    pairs that content with that evaluator.  The returned list is the list
    of gathered results without those that are exceptions. *)
Theorem batch_critique_excludes_self_pairs :
  forall (order : list nat) (w : World) (actor_outputs : list ActorOutput.t)
         (critic_agents : list Agent.t) (task : Task.t),
    let pairs := critique_pairs actor_outputs critic_agents in
    let results :=
      snd (batch_critique order w actor_outputs critic_agents task) in
    pairs = filter (fun p => negb (self_pair p))
                   (list_prod actor_outputs critic_agents)
    /\ Forall2 (fun p out =>
                  target_output_id out = target_id (fst p)
                  /\ critic_agent_id out = Agent.agent_id (snd p))
               pairs results
    /\ (forall (a : ActorOutput.t) (c : Agent.t),
          In a actor_outputs -> In c critic_agents ->
          ActorOutput.agent_id a = Agent.agent_id c ->
          ~ In (a, c) pairs
          /\ forall out : CriticOutput,
               In out results ->
               ~ (target_output_id out = target_id a
                  /\ critic_agent_id out = Agent.agent_id c))
    /\ results
       = valid_critiques (snd (gather order w (map (batch_call task) pairs)))
    /\ (forall (rs : list (result CriticOutput)) (out : CriticOutput),
          In out (valid_critiques rs) <-> In (Ok out) rs).
Proof.
  intros order w actor_outputs critic_agents task pairs results.
  assert (M : Forall2 (fun p out =>
                         target_output_id out = target_id (fst p)
                         /\ critic_agent_id out = Agent.agent_id (snd p))
                      pairs results).
  { pose proof (batch_critique_made order w actor_outputs critic_agents task)
      as H.
    fold pairs in H. fold results in H. clearbody pairs results.
    induction H as [|p out ps outs [T [C _]] Hrest IH]; constructor; auto. }
  split; [apply critique_pairs_filter|].
  split; [exact M|].
  split; [|split; [apply batch_critique_results | apply valid_critiques_in]].
  intros a c Ha Hc Hid. split.
  - unfold pairs. rewrite critique_pairs_in. intros [_ [_ Hn]]. contradiction.
  - intros out Hin [T C].
    destruct (@Forall2_in_right _ _ _ _ _ out M Hin) as [[a' c'] [Hp [T' C']]].
    cbn [fst snd] in T', C'.
    unfold pairs in Hp. rewrite critique_pairs_in in Hp.
    destruct Hp as [_ [_ Hn]]. apply Hn.
    rewrite T in T'. apply target_id_producer in T'.
    rewrite <- T', Hid, <- C, C'. reflexivity.
Qed.

(** C10. [batch_critique] gives no previous evaluation to any of its
    calls; every result it returns either carries no error flag and has
    satisfaction exactly 7.0, or is a degraded result, with the flag and
    satisfaction 5.0. *)
Theorem batch_critique_satisfaction :
  forall (order : list nat) (w : World) (actor_outputs : list ActorOutput.t)
         (critic_agents : list Agent.t) (task : Task.t),
    Forall (fun args : critique_args => snd args = None)
           (map (batch_call task) (critique_pairs actor_outputs critic_agents))
    /\ Forall (fun out =>
                 (lookup "error" (metadata out) = None
                  /\ satisfaction_score out = 7%float)
                 \/ (lookup "error" (metadata out) = Some (PyBool true)
                     /\ satisfaction_score out = 5%float))
              (snd (batch_critique order w actor_outputs critic_agents task)).
Proof.
  intros order w actor_outputs critic_agents task. split.
  - apply Forall_forall. intros args H. apply in_map_iff in H.
    destruct H as [p [E _]]. subst args. reflexivity.
  - apply Forall_forall. intros out Hin.
    destruct (@Forall2_in_right _ _ _ _ _ out
                (batch_critique_made order w actor_outputs critic_agents task)
                Hin) as [[a c] [_ M]].
    unfold batch_call, made_for in M. cbn [fst snd] in M.
    destruct M as [_ [_ [[E S] | [E S]]]].
    + left. split; [exact E | exact S].
    + right. split; assumption.
Qed.

End Batch.

(* ================================================================= *)
(** ** The history ledger (C7) *)

(** C7 (amended). On an empty history [get_critique_statistics] returns,
    without raising, the mapping with exactly these five entries: the
    total count 0, the average overall score 0, the average satisfaction
    score 0, the current iteration counter and the collaborator
    availability flag. *)
Theorem statistics_of_empty_history :
  forall self : GameCriticizer,
    critique_history self = [] ->
    get_critique_statistics self
    = [ ("total_critiques", PyInt 0);
        ("average_overall_score", PyInt 0);
        ("average_satisfaction_score", PyInt 0);
        ("current_iteration", PyInt (current_iteration self));
        ("api_available", PyBool (is_some (naga_conversation self))) ].
Proof.
  intros self H. unfold get_critique_statistics. rewrite H. reflexivity.
Qed.

(* ================================================================= *)
(** ** Concurrent calls (C5) *)

Section Concurrency.

Context {lib : PyLib}.

Variable conversation : Conversation.

(** The collaborator suspends every caller. *)
Hypothesis always_suspends :
  forall (prompt : string) (t : float), suspends (conversation prompt t) = true.

(** The first step of a call without history: the counter is incremented
    and the coroutine waits for its answer. *)
Lemma start_suspends (w : World) (a : ActorOutput.t) (c : Agent.t)
    (t : Task.t) :
  naga_conversation (self w) = Some conversation ->
  exists answer,
    critique_start w (a, c, t, None)
    = (entered w, Awaiting (started w) (a, c, t, None) answer).
Proof.
  intros Hc. destruct (build_prompt_without_history a c t) as [p Hp].
  exists (outcome (conversation p temperature)).
  unfold critique_start, entered, started, time_now. cbv beta iota zeta.
  rewrite Hp.
  cbn [naga_conversation self increment_iteration fst snd].
  rewrite Hc, always_suspends. reflexivity.
Qed.

Lemma start_all_suspends (tasks : list critique_args) (w : World) :
  naga_conversation (self w) = Some conversation ->
  Forall (fun args : critique_args => snd args = None) tasks ->
  Forall is_awaiting (snd (start_all w tasks))
  /\ List.length (snd (start_all w tasks)) = List.length tasks
  /\ current_iteration (self (fst (start_all w tasks)))
     = (current_iteration (self w) + Z.of_nat (List.length tasks))%Z.
Proof.
  intros Hc H. revert w Hc.
  induction H as [|[[[a c] t] prev] tasks Hp Hrest IH]; intros w Hc;
    cbn [start_all].
  - repeat split; [constructor | cbn [fst List.length]; lia].
  - cbn [snd] in Hp. subst prev.
    destruct (start_suspends w a c t Hc) as [answer E]. rewrite E.
    destruct (IH (entered w) Hc) as [A [L C]].
    destruct (start_all (entered w) tasks) as [w1 cos]. cbn [fst snd] in *.
    repeat split.
    + constructor; [exact I | exact A].
    + cbn [List.length]. rewrite L. reflexivity.
    + rewrite C, entered_iteration. cbn [List.length]. lia.
Qed.

(** Resumed, a coroutine records the counter as it is then, and leaves it
    unchanged. *)
Lemma resume_records (w : World) (co : coroutine) :
  records_at (current_iteration (self w)) co ->
  exists out,
    snd (critique_resume w co) = Ok out
    /\ iteration out = current_iteration (self w)
    /\ current_iteration (self (fst (critique_resume w co)))
       = current_iteration (self w).
Proof.
  destruct co as [t0 [[[a c] t] prev] answer | [out|e]];
    cbn [records_at critique_resume]; intros H.
  - destruct (critique_finish_spec w t0 a c t prev (llm_answer c answer))
      as [out [E [_ [_ [_ [I _]]]]]].
    rewrite E. exists out. repeat split. exact I.
  - exists out. repeat split. exact H.
  - contradiction.
Qed.

Lemma resume_at_records (k : Z) (i : nat) (cos : list coroutine) (w : World) :
  current_iteration (self w) = k ->
  Forall (records_at k) cos ->
  Forall (records_at k) (snd (resume_at i w cos))
  /\ current_iteration (self (fst (resume_at i w cos))) = k.
Proof.
  intros Hk H. revert i w Hk.
  induction H as [|co cos Hco Hrest IH]; intros i w Hk; cbn [resume_at].
  - split; [constructor | exact Hk].
  - destruct i as [|i].
    + rewrite <- Hk in Hco.
      destruct (resume_records w co Hco) as [out [E [I C]]].
      destruct (critique_resume w co) as [w1 r]. cbn [fst snd] in *. subst r.
      split; [|rewrite C; exact Hk].
      constructor; [cbn [records_at]; rewrite I; exact Hk | exact Hrest].
    + destruct (IH i w Hk) as [F C].
      destruct (resume_at i w cos) as [w1 cos']. cbn [fst snd] in *.
      split; [constructor; assumption | exact C].
Qed.

Lemma resume_in_order_records (k : Z) (order : list nat)
    (cos : list coroutine) (w : World) :
  current_iteration (self w) = k ->
  Forall (records_at k) cos ->
  Forall (records_at k) (snd (resume_in_order order w cos))
  /\ current_iteration (self (fst (resume_in_order order w cos))) = k.
Proof.
  revert cos w. induction order as [|i order IH]; intros cos w Hk H;
    cbn [resume_in_order].
  - split; assumption.
  - destruct (resume_at_records i w Hk H) as [F C].
    destruct (resume_at i w cos) as [w1 cos1]. cbn [fst snd] in *.
    apply IH; assumption.
Qed.

Lemma join_all_records (k : Z) (cos : list coroutine) (w : World) :
  current_iteration (self w) = k ->
  Forall (records_at k) cos ->
  Forall (fun r => exists out, r = Ok out /\ iteration out = k)
         (snd (join_all w cos))
  /\ List.length (snd (join_all w cos)) = List.length cos.
Proof.
  intros Hk H. revert w Hk.
  induction H as [|co cos Hco Hrest IH]; intros w Hk; cbn [join_all].
  - split; [constructor | reflexivity].
  - rewrite <- Hk in Hco.
    destruct (resume_records w co Hco) as [out [E [I C]]].
    destruct (critique_resume w co) as [w1 r]. cbn [fst snd] in *. subst r.
    rewrite Hk in C. destruct (IH w1 C) as [F L].
    destruct (join_all w1 cos) as [w2 rs]. cbn [fst snd] in *.
    split.
    + constructor; [exists out; split; [reflexivity | rewrite I; exact Hk]
                   | exact F].
    + cbn [List.length]. rewrite L. reflexivity.
Qed.

Lemma resume_at_length (i : nat) (cos : list coroutine) (w : World) :
  List.length (snd (resume_at i w cos)) = List.length cos.
Proof.
  revert i w. induction cos as [|co cos IH]; intros i w; cbn [resume_at].
  - reflexivity.
  - destruct i as [|i].
    + destruct (critique_resume w co) as [w1 r]. reflexivity.
    + specialize (IH i w). destruct (resume_at i w cos) as [w1 cos'].
      cbn [snd List.length] in *. rewrite IH. reflexivity.
Qed.

Lemma resume_in_order_length (order : list nat) (cos : list coroutine)
    (w : World) :
  List.length (snd (resume_in_order order w cos)) = List.length cos.
Proof.
  revert cos w. induction order as [|i order IH]; intros cos w;
    cbn [resume_in_order].
  - reflexivity.
  - pose proof (resume_at_length i cos w) as L.
    destruct (resume_at i w cos) as [w1 cos1]. cbn [snd] in L.
    rewrite IH. exact L.
Qed.

Lemma awaiting_records (k : Z) (cos : list coroutine) :
  Forall is_awaiting cos -> Forall (records_at k) cos.
Proof.
  induction 1 as [|co cos Hco Hrest IH]; constructor; [|exact IH].
  destruct co; [exact I | contradiction].
Qed.

(** When the collaborator suspends its callers, the [n] calls of a
    [gather] all record the same iteration, the counter after the last
    increment, whatever the order in which the answers arrive. *)
Lemma gather_records_last_iteration (order : list nat) (w : World)
    (tasks : list critique_args) :
  naga_conversation (self w) = Some conversation ->
  Forall (fun args : critique_args => snd args = None) tasks ->
  Forall (fun r =>
            exists out,
              r = Ok out
              /\ iteration out
                 = (current_iteration (self w)
                    + Z.of_nat (List.length tasks))%Z)
         (snd (gather order w tasks))
  /\ List.length (snd (gather order w tasks)) = List.length tasks.
Proof.
  intros Hc Hn. unfold gather.
  destruct (start_all_suspends w Hc Hn) as [A [L C]].
  destruct (start_all w tasks) as [w1 cos]. cbn [fst snd] in *.
  destruct (@resume_in_order_records _ order cos w1 C
              (awaiting_records _ A)) as [F C2].
  pose proof (resume_in_order_length order cos w1) as Len.
  destruct (resume_in_order order w1 cos) as [w2 cos2]. cbn [fst snd] in *.
  assert (L2 : List.length cos2 = List.length tasks).
  { rewrite <- L. exact Len. }
  destruct (join_all_records w2 C2 F) as [R LR].
  split; [exact R | rewrite LR; exact L2].
Qed.

End Concurrency.

(* ================================================================= *)
(** * Further properties of the code *)

Lemma filter_all {A : Type} (f : A -> bool) (l : list A) :
  Forall (fun x => f x = true) l -> filter f l = l.
Proof.
  induction 1 as [|x l Hx Hl IH]; cbn [filter].
  - reflexivity.
  - rewrite Hx, IH. reflexivity.
Qed.

Lemma unflagged_is_successful (out : CriticOutput) :
  unflagged_out out -> is_successful out = true.
Proof.
  unfold unflagged_out, is_successful, get_default. intros H. rewrite H.
  reflexivity.
Qed.

Lemma degraded_not_successful (e : exn) (out : CriticOutput) :
  degraded e out -> is_successful out = false.
Proof.
  intros [_ [_ [_ [_ [_ H]]]]]. unfold is_successful, get_default.
  rewrite H. reflexivity.
Qed.

(** ** One call *)

Section OneCall.

Context {lib : PyLib}.

(** What the rest of the [try] block does to the criticizer. *)
Lemma finish_effect (w : World) (t0 : float) (a : ActorOutput.t)
    (c : Agent.t) (t : Task.t) (prev : option (list CriticOutput))
    (text : string) :
  let w' := fst (critique_finish w t0 a c t prev text) in
  let out := snd (critique_finish w t0 a c t prev text) in
  critique_history (self w') = (critique_history (self w) ++ [out])%list
  /\ current_iteration (self w') = current_iteration (self w)
  /\ naga_conversation (self w') = naga_conversation (self w)
  /\ unflagged_out out
  /\ iteration out = current_iteration (self w).
Proof.
  destruct (critique_finish_spec w t0 a c t prev text)
    as [o [E [_ [_ [_ [I [M _]]]]]]].
  rewrite E. cbn [fst snd]. repeat split; assumption.
Qed.

(** What the [except] block does to the criticizer. *)
Lemma except_effect (w : World) (t0 : float) (a : ActorOutput.t)
    (c : Agent.t) (e : exn) :
  let w' := fst (critique_except w t0 a c e) in
  let out := snd (critique_except w t0 a c e) in
  critique_history (self w') = critique_history (self w)
  /\ current_iteration (self w') = current_iteration (self w)
  /\ naga_conversation (self w') = naga_conversation (self w)
  /\ is_successful out = false
  /\ iteration out = current_iteration (self w).
Proof.
  destruct (critique_except_spec w t0 a c e) as [o [E [_ [_ [I D]]]]].
  rewrite E. cbn [fst snd]. repeat split; try assumption.
  exact (degraded_not_successful D).
Qed.

(** A call either runs its [try] block to the end, or its prompt build
    raises. *)
Lemma critique_output_cases (w : World) (a : ActorOutput.t) (c : Agent.t)
    (t : Task.t) (prev : option (list CriticOutput)) :
  let w' := fst (critique_output w a c t prev) in
  let out := snd (critique_output w a c t prev) in
  naga_conversation (self w') = naga_conversation (self w)
  /\ ((exists p, _build_critique_prompt a c t prev = Ok p
                 /\ unflagged_out out
                 /\ critique_history (self w')
                    = (critique_history (self w) ++ [out])%list)
      \/ (exists e, _build_critique_prompt a c t prev = Raise e
                    /\ degraded e out
                    /\ critique_history (self w') = critique_history (self w))).
Proof.
  intros w' out. subst w' out.
  destruct (_build_critique_prompt a c t prev) as [p|e] eqn:B.
  - rewrite (critique_output_ok w _ _ _ _ B).
    destruct (finish_effect (entered w) (started w) a c t prev
                (_call_llm_for_critique (self (entered w)) p c))
      as [H [_ [N [U _]]]].
    split.
    + rewrite N. apply entered_conversation.
    + left. exists p. split; [reflexivity|]. split; [exact U|].
      rewrite H, entered_history. reflexivity.
  - rewrite (critique_output_raise w _ _ _ _ B).
    destruct (critique_except_spec (entered w) (started w) a c e)
      as [o [E [_ [_ [_ D]]]]].
    rewrite E. unfold time_now. cbn [fst snd self]. split.
    + apply entered_conversation.
    + right. exists e. split; [reflexivity|]. split; [exact D|].
      apply entered_history.
Qed.

(** X1. A call whose prompt build does not raise appends its result to the
    history: the history grows by exactly that one entry, which is then
    the latest evaluation, and the result carries no error flag. *)
Theorem successful_critique_is_recorded :
  forall (w : World) (a : ActorOutput.t) (c : Agent.t) (t : Task.t)
         (prev : option (list CriticOutput)) (p : string),
    _build_critique_prompt a c t prev = Ok p ->
    let w' := fst (critique_output w a c t prev) in
    let out := snd (critique_output w a c t prev) in
    critique_history (self w') = (critique_history (self w) ++ [out])%list
    /\ get_latest_critique (self w') = Some out
    /\ List.length (critique_history (self w'))
       = S (List.length (critique_history (self w)))
    /\ unflagged_out out.
Proof.
  intros w a c t prev p H w' out.
  destruct (critique_output_cases w a c t prev) as [_ [[p' [_ [U A]]]|[e [B _]]]];
    [|congruence].
  fold w' in A. fold out in A, U.
  split; [exact A|]. split; [|split].
  - unfold get_latest_critique. rewrite A. apply last_opt_snoc.
  - rewrite A, length_app. cbn [List.length]. lia.
  - exact U.
Qed.

(** X2. [clear_history] empties the history, resets the counter and keeps
    the collaborator: there is no latest evaluation, the statistics are
    those of an empty history with counter 0, and the next call (without
    previous evaluations) records iteration 1 and is the only entry of the
    history. *)
Theorem clear_history_restarts :
  forall (w : World) (a : ActorOutput.t) (c : Agent.t) (t : Task.t),
    let w0 := mkWorld (clear_history (self w)) (ticks w) in
    get_latest_critique (self w0) = None
    /\ naga_conversation (self w0) = naga_conversation (self w)
    /\ get_critique_statistics (self w0)
       = [ ("total_critiques", PyInt 0);
           ("average_overall_score", PyInt 0);
           ("average_satisfaction_score", PyInt 0);
           ("current_iteration", PyInt 0);
           ("api_available", PyBool (is_some (naga_conversation (self w)))) ]
    /\ iteration (snd (critique_output w0 a c t None)) = 1%Z
    /\ critique_history (self (fst (critique_output w0 a c t None)))
       = [snd (critique_output w0 a c t None)].
Proof.
  intros w a c t w0.
  destruct (build_prompt_without_history a c t) as [p Hp].
  repeat split.
  - exact (proj1 (critique_output_iteration w0 a c t None)).
  - exact (successful_call_appends w0 a c t None Hp).
Qed.

Lemma run_sequence_ledger (calls : list critique_args) (w : World) :
  critique_history (self (fst (run_sequence w calls)))
  = (critique_history (self w)
     ++ filter is_successful (snd (run_sequence w calls)))%list
  /\ naga_conversation (self (fst (run_sequence w calls)))
     = naga_conversation (self w).
Proof.
  revert w.
  induction calls as [|[[[a c] t] prev] calls IH]; intros w;
    cbn [run_sequence].
  - cbn [fst snd filter]. rewrite app_nil_r. split; reflexivity.
  - destruct (critique_output_cases w a c t prev) as [N S].
    destruct (critique_output w a c t prev) as [w1 out]. cbn [fst snd] in *.
    specialize (IH w1).
    destruct (run_sequence w1 calls) as [w2 outs]. cbn [fst snd] in *.
    destruct IH as [H N2]. split; [|congruence].
    cbn [filter].
    destruct S as [[p [_ [U A]]]|[e [_ [D A]]]].
    + rewrite (unflagged_is_successful U), H, A, <- app_assoc. reflexivity.
    + rewrite (degraded_not_successful D), H, A. reflexivity.
Qed.

(** X3. Calls awaited one after the other: the k-th result records the
    counter plus k, failed calls included; the counter ends advanced by
    the number of calls; the history ends as the old history followed by
    the results without the error flag, in call order; the collaborator is
    kept. *)
Theorem sequential_calls_effect :
  forall (calls : list critique_args) (w : World),
    let w' := fst (run_sequence w calls) in
    let outs := snd (run_sequence w calls) in
    map iteration outs
    = map (fun k => (current_iteration (self w) + Z.of_nat k)%Z)
          (seq 1 (List.length calls))
    /\ current_iteration (self w')
       = (current_iteration (self w) + Z.of_nat (List.length calls))%Z
    /\ critique_history (self w')
       = (critique_history (self w) ++ filter is_successful outs)%list
    /\ naga_conversation (self w') = naga_conversation (self w).
Proof.
  intros calls w. cbv zeta.
  destruct (sequential_iterations calls w) as [I C].
  destruct (run_sequence_ledger calls w) as [H N].
  repeat split; assumption.
Qed.

End OneCall.

(** ** Gathered calls *)

Section Gathering.

Context {lib : PyLib}.

Lemma critique_start_unfold (w : World) (a : ActorOutput.t) (c : Agent.t)
    (t : Task.t) (prev : option (list CriticOutput)) :
  critique_start w (a, c, t, prev) =
  match _build_critique_prompt a c t prev with
  | Raise e =>
      (fst (critique_except (entered w) (started w) a c e),
       Returned (Ok (snd (critique_except (entered w) (started w) a c e))))
  | Ok p =>
      match naga_conversation (self w) with
      | None =>
          (fst (critique_finish (entered w) (started w) a c t prev
                  (_generate_mock_critique c)),
           Returned (Ok (snd (critique_finish (entered w) (started w) a c t
                                prev (_generate_mock_critique c)))))
      | Some conversation =>
          if suspends (conversation p temperature)
          then (entered w,
                Awaiting (started w) (a, c, t, prev)
                         (outcome (conversation p temperature)))
          else
            (fst (critique_finish (entered w) (started w) a c t prev
                    (llm_answer c (outcome (conversation p temperature)))),
             Returned
               (Ok (snd (critique_finish (entered w) (started w) a c t prev
                           (llm_answer c
                              (outcome (conversation p temperature)))))))
      end
  end.
Proof.
  unfold critique_start, entered, started, time_now. cbv beta iota zeta.
  cbn [fst snd self naga_conversation increment_iteration].
  destruct (_build_critique_prompt a c t prev) as [p|e].
  - destruct (naga_conversation (self w)) as [conversation|].
    + destruct (suspends (conversation p temperature)); [reflexivity|].
      destruct (critique_finish _ _ a c t prev _). reflexivity.
    + destruct (critique_finish _ _ a c t prev _). reflexivity.
  - destruct (critique_except _ _ a c e). reflexivity.
Qed.

(** The first step of a call: the counter is incremented; the history
    grows by the result if the call has already finished without the error
    flag; a result already there records the new counter. *)
Lemma start_effect (w : World) (args : critique_args) :
  let w' := fst (critique_start w args) in
  let co := snd (critique_start w args) in
  critique_history (self w')
  = (critique_history (self w) ++ recorded [co])%list
  /\ current_iteration (self w') = (current_iteration (self w) + 1)%Z
  /\ naga_conversation (self w') = naga_conversation (self w)
  /\ records_within (current_iteration (self w) + 1)
                    (current_iteration (self w) + 1) co.
Proof.
  destruct args as [[[a c] t] prev]. cbv zeta.
  rewrite critique_start_unfold.
  assert (F : forall text,
             let w' := fst (critique_finish (entered w) (started w) a c t prev
                              text) in
             let out := snd (critique_finish (entered w) (started w) a c t prev
                               text) in
             critique_history (self w')
             = (critique_history (self w) ++ recorded [Returned (Ok out)])%list
             /\ current_iteration (self w') = (current_iteration (self w) + 1)%Z
             /\ naga_conversation (self w') = naga_conversation (self w)
             /\ records_within (current_iteration (self w) + 1)
                               (current_iteration (self w) + 1)
                               (Returned (Ok out))).
  { intros text.
    destruct (finish_effect (entered w) (started w) a c t prev text)
      as [H [C [N [U I]]]].
    cbv zeta. cbn [recorded flat_map recorded_of records_within].
    rewrite (unflagged_is_successful U), H, C, N, I.
    rewrite entered_history, entered_iteration, entered_conversation.
    repeat split; lia. }
  destruct (_build_critique_prompt a c t prev) as [p|e].
  - destruct (naga_conversation (self w)) as [conversation|] eqn:Hc.
    + destruct (suspends (conversation p temperature)).
      * cbn [fst snd recorded flat_map app records_within].
        rewrite app_nil_r, entered_history, entered_iteration,
          entered_conversation.
        repeat split. exact Hc.
      * apply F.
    + apply F.
  - destruct (except_effect (entered w) (started w) a c e)
      as [H [C [N [U I]]]].
    cbn [fst snd recorded flat_map recorded_of records_within].
    rewrite U, H, C, N, I. cbn [app].
    rewrite app_nil_r, entered_history, entered_iteration,
      entered_conversation.
    repeat split; lia.
Qed.

Lemma records_within_weaken (lo hi lo' hi' : Z) (co : coroutine) :
  (lo' <= lo)%Z -> (hi <= hi')%Z ->
  records_within lo hi co -> records_within lo' hi' co.
Proof.
  intros L H. destruct co as [t0 args answer|[out|e]]; cbn; [trivial|lia|trivial].
Qed.

Lemma recorded_cons (co : coroutine) (cos : list coroutine) :
  recorded (co :: cos) = (recorded [co] ++ recorded cos)%list.
Proof. cbn [recorded flat_map]. rewrite app_nil_r. reflexivity. Qed.

Lemma start_all_effect (tasks : list critique_args) (w : World) :
  let w' := fst (start_all w tasks) in
  let cos := snd (start_all w tasks) in
  critique_history (self w')
  = (critique_history (self w) ++ recorded cos)%list
  /\ current_iteration (self w')
     = (current_iteration (self w) + Z.of_nat (List.length tasks))%Z
  /\ naga_conversation (self w') = naga_conversation (self w)
  /\ Forall (records_within (current_iteration (self w) + 1)
                            (current_iteration (self w)
                             + Z.of_nat (List.length tasks)))
            cos
  /\ List.length cos = List.length tasks.
Proof.
  cbv zeta. revert w.
  induction tasks as [|args tasks IH]; intros w; cbn [start_all].
  - cbn [fst snd recorded flat_map List.length]. rewrite app_nil_r.
    repeat split; [lia | constructor].
  - destruct (start_effect w args) as [H [C [N R]]].
    destruct (critique_start w args) as [w1 co]. cbn [fst snd] in *.
    destruct (IH w1) as [H' [C' [N' [R' L']]]].
    destruct (start_all w1 tasks) as [w2 cos]. cbn [fst snd] in *.
    rewrite recorded_cons, H', H, C', C, N', N, <- app_assoc.
    cbn [List.length]. repeat split; try lia.
    constructor.
    + revert R. apply records_within_weaken; lia.
    + revert R'. apply Forall_impl. intros co'.
      rewrite C. apply records_within_weaken; lia.
Qed.

(** Resumed, a coroutine appends its result to the history; the result
    records the counter as it is then. *)
Lemma resume_effect (w : World) (co : coroutine) :
  let w' := fst (critique_resume w co) in
  let r := snd (critique_resume w co) in
  exists new,
    critique_history (self w') = (critique_history (self w) ++ new)%list
    /\ recorded [Returned r] = (recorded [co] ++ new)%list
    /\ current_iteration (self w') = current_iteration (self w)
    /\ naga_conversation (self w') = naga_conversation (self w)
    /\ (forall lo : Z,
          (lo <= current_iteration (self w))%Z ->
          records_within lo (current_iteration (self w)) co ->
          records_within lo (current_iteration (self w)) (Returned r)).
Proof.
  destruct co as [t0 [[[a c] t] prev] answer|r]; cbn [critique_resume].
  - destruct (finish_effect w t0 a c t prev (llm_answer c answer))
      as [H [C [N [U I]]]].
    destruct (critique_finish w t0 a c t prev (llm_answer c answer))
      as [w1 out].
    cbn [fst snd] in *. exists [out].
    cbn [recorded flat_map recorded_of app records_within].
    rewrite (unflagged_is_successful U), I.
    repeat split; try assumption; lia.
  - cbn [fst snd]. exists []. rewrite !app_nil_r.
    repeat split. intros lo _ R. exact R.
Qed.

Lemma resume_at_effect (i : nat) (cos : list coroutine) (w : World) :
  let w' := fst (resume_at i w cos) in
  let cos' := snd (resume_at i w cos) in
  exists new,
    critique_history (self w') = (critique_history (self w) ++ new)%list
    /\ Permutation (recorded cos') (recorded cos ++ new)
    /\ current_iteration (self w') = current_iteration (self w)
    /\ naga_conversation (self w') = naga_conversation (self w)
    /\ (forall lo : Z,
          (lo <= current_iteration (self w))%Z ->
          Forall (records_within lo (current_iteration (self w))) cos ->
          Forall (records_within lo (current_iteration (self w))) cos').
Proof.
  cbv zeta. revert i w.
  induction cos as [|co cos IH]; intros i w; cbn [resume_at].
  - exists []. cbn [fst snd]. rewrite !app_nil_r.
    repeat split; [apply Permutation_refl | trivial].
  - destruct i as [|i].
    + destruct (resume_effect w co) as [new [H [R [C [N W]]]]].
      destruct (critique_resume w co) as [w1 r]. cbn [fst snd] in *.
      exists new. repeat split; try assumption.
      * rewrite (recorded_cons (Returned r)), (recorded_cons co), R.
        rewrite <- !app_assoc. apply Permutation_app_head.
        apply Permutation_app_comm.
      * intros lo Hlo F. inversion F as [|? ? F1 F2]; subst.
        constructor; [apply W; assumption | exact F2].
    + destruct (IH i w) as [new [H [P [C [N W]]]]].
      destruct (resume_at i w cos) as [w1 cos']. cbn [fst snd] in *.
      exists new. repeat split; try assumption.
      * rewrite (recorded_cons co cos'), (recorded_cons co cos).
        rewrite <- app_assoc. apply Permutation_app_head. exact P.
      * intros lo Hlo F. inversion F as [|? ? F1 F2]; subst.
        constructor; [exact F1 | apply W; assumption].
Qed.

Lemma resume_in_order_effect (order : list nat) (cos : list coroutine)
    (w : World) :
  let w' := fst (resume_in_order order w cos) in
  let cos' := snd (resume_in_order order w cos) in
  exists new,
    critique_history (self w') = (critique_history (self w) ++ new)%list
    /\ Permutation (recorded cos') (recorded cos ++ new)
    /\ current_iteration (self w') = current_iteration (self w)
    /\ naga_conversation (self w') = naga_conversation (self w)
    /\ (forall lo : Z,
          (lo <= current_iteration (self w))%Z ->
          Forall (records_within lo (current_iteration (self w))) cos ->
          Forall (records_within lo (current_iteration (self w))) cos').
Proof.
  cbv zeta. revert cos w.
  induction order as [|i order IH]; intros cos w; cbn [resume_in_order].
  - exists []. cbn [fst snd]. rewrite !app_nil_r.
    repeat split; [apply Permutation_refl | trivial].
  - destruct (resume_at_effect i cos w) as [new [H [P [C [N W]]]]].
    destruct (resume_at i w cos) as [w1 cos1]. cbn [fst snd] in *.
    destruct (IH cos1 w1) as [new' [H' [P' [C' [N' W']]]]].
    exists (new ++ new')%list. rewrite H', H, C', C, N', N, app_assoc.
    repeat split.
    + rewrite P'. rewrite P. rewrite <- !app_assoc. apply Permutation_refl.
    + intros lo Hlo F. rewrite <- C. apply W'; rewrite C; auto.
Qed.

Lemma join_all_effect (cos : list coroutine) (w : World) :
  let w' := fst (join_all w cos) in
  let rs := snd (join_all w cos) in
  exists new,
    critique_history (self w') = (critique_history (self w) ++ new)%list
    /\ Permutation (filter is_successful (valid_critiques rs))
                   (recorded cos ++ new)
    /\ current_iteration (self w') = current_iteration (self w)
    /\ naga_conversation (self w') = naga_conversation (self w)
    /\ List.length rs = List.length cos
    /\ (forall lo : Z,
          (lo <= current_iteration (self w))%Z ->
          Forall (records_within lo (current_iteration (self w))) cos ->
          Forall (fun r => records_within lo (current_iteration (self w))
                             (Returned r)) rs).
Proof.
  cbv zeta. revert w.
  induction cos as [|co cos IH]; intros w; cbn [join_all].
  - exists []. cbn [fst snd valid_critiques filter recorded flat_map app].
    rewrite app_nil_r. repeat split; [apply Permutation_refl | constructor].
  - destruct (resume_effect w co) as [new [H [R [C [N W]]]]].
    destruct (critique_resume w co) as [w1 r]. cbn [fst snd] in *.
    destruct (IH w1) as [new' [H' [P' [C' [N' [L' W']]]]]].
    destruct (join_all w1 cos) as [w2 rs]. cbn [fst snd] in *.
    exists (new ++ new')%list. rewrite H', H, C', C, N', N, app_assoc.
    cbn [List.length]. rewrite L'. repeat split.
    + assert (E : filter is_successful (valid_critiques (r :: rs))
                  = (recorded [Returned r]
                     ++ filter is_successful (valid_critiques rs))%list).
      { destruct r as [out|e];
          cbn [valid_critiques filter recorded flat_map recorded_of app].
        - destruct (is_successful out); reflexivity.
        - reflexivity. }
      rewrite E, R, (recorded_cons co cos), P'.
      rewrite <- !app_assoc. apply Permutation_app_head.
      rewrite !app_assoc. apply Permutation_app_tail.
      apply Permutation_app_comm.
    + intros lo Hlo F. inversion F as [|? ? F1 F2]; subst.
      constructor; [apply W; assumption|].
      rewrite <- C. apply W'; rewrite C; assumption.
Qed.

Lemma resume_in_order_nil (order : list nat) (w : World) :
  resume_in_order order w [] = (w, []).
Proof.
  induction order as [|i order IH]; cbn [resume_in_order resume_at];
    [reflexivity | exact IH].
Qed.

(** What [gather] does to the criticizer, whatever the order in which the
    answers arrive. *)
Lemma gather_effect (order : list nat) (w : World)
    (tasks : list critique_args) :
  let w' := fst (gather order w tasks) in
  let rs := snd (gather order w tasks) in
  exists new,
    critique_history (self w') = (critique_history (self w) ++ new)%list
    /\ Permutation new (filter is_successful (valid_critiques rs))
    /\ current_iteration (self w')
       = (current_iteration (self w) + Z.of_nat (List.length tasks))%Z
    /\ naga_conversation (self w') = naga_conversation (self w)
    /\ List.length rs = List.length tasks
    /\ Forall (fun r => records_within
                          (current_iteration (self w) + 1)
                          (current_iteration (self w)
                           + Z.of_nat (List.length tasks))
                          (Returned r)) rs.
Proof.
  cbv zeta. unfold gather.
  destruct tasks as [|args0 tasks0].
  { cbn [start_all]. rewrite resume_in_order_nil. cbn [join_all fst snd].
    exists []. cbn [valid_critiques filter List.length].
    rewrite app_nil_r. repeat split; try lia; constructor. }
  remember (args0 :: tasks0) as tasks eqn:Et.
  assert (Hn : (1 <= Z.of_nat (List.length tasks))%Z)
    by (rewrite Et; cbn [List.length]; lia).
  clear Et args0 tasks0.
  destruct (start_all_effect tasks w) as [H0 [C0 [N0 [W0 L0]]]].
  destruct (start_all w tasks) as [w0 cos0]. cbn [fst snd] in *.
  destruct (resume_in_order_effect order cos0 w0) as [n1 [H1 [P1 [C1 [N1 W1]]]]].
  pose proof (resume_in_order_length order cos0 w0) as L1.
  destruct (resume_in_order order w0 cos0) as [w1 cos1]. cbn [fst snd] in *.
  destruct (join_all_effect cos1 w1) as [n2 [H2 [P2 [C2 [N2 [L2 W2]]]]]].
  destruct (join_all w1 cos1) as [w2 rs]. cbn [fst snd] in *.
  exists (recorded cos0 ++ n1 ++ n2)%list.
  rewrite H2, H1, H0, C2, C1, C0, N2, N1, N0, L2, L1, L0, <- !app_assoc.
  repeat split.
  - rewrite P2, P1, <- !app_assoc. apply Permutation_refl.
  - rewrite <- C0, <- C1. apply W2.
    + rewrite C1, C0. lia.
    + rewrite C1. apply W1; [lia|]. rewrite C0. exact W0.
Qed.

(** X4. A batch, whatever the order in which the answers arrive: one
    result per evaluated pair; the history ends as the old history
    followed by the results of the batch in some order (the order of
    completion); the counter ends advanced by the number of pairs, and
    every result records an iteration above the old counter and not above
    the new one; the collaborator is kept.  A batch without pairs leaves
    history and counter as they were. *)
Theorem batch_critique_effect :
  forall (order : list nat) (w : World) (actor_outputs : list ActorOutput.t)
         (critic_agents : list Agent.t) (task : Task.t),
    let pairs := critique_pairs actor_outputs critic_agents in
    let w' := fst (batch_critique order w actor_outputs critic_agents task) in
    let results :=
      snd (batch_critique order w actor_outputs critic_agents task) in
    List.length results = List.length pairs
    /\ (exists new,
          critique_history (self w') = (critique_history (self w) ++ new)%list
          /\ Permutation new results)
    /\ current_iteration (self w')
       = (current_iteration (self w) + Z.of_nat (List.length pairs))%Z
    /\ Forall (fun out =>
                 (current_iteration (self w) < iteration out
                  <= current_iteration (self w')))%Z
              results
    /\ naga_conversation (self w') = naga_conversation (self w).
Proof.
  intros order w actor_outputs critic_agents task pairs w' results.
  pose proof (batch_critique_made order w actor_outputs critic_agents task)
    as M.
  pose proof (batch_results_never_degraded order w actor_outputs critic_agents
                task) as U.
  fold pairs in M. fold results in M, U.
  assert (S : filter is_successful results = results).
  { apply filter_all. revert U. apply Forall_impl. intros out [E _].
    apply unflagged_is_successful. exact E. }
  subst w' results. unfold batch_critique in *.
  destruct (gather_effect order w (map (batch_call task) pairs))
    as [new [H [P [C [N [L W]]]]]].
  change (map (fun p : ActorOutput.t * Agent.t => (fst p, snd p, task, None))
              (critique_pairs actor_outputs critic_agents))
    with (map (batch_call task) pairs) in *.
  destruct (gather order w (map (batch_call task) pairs)) as [w1 rs].
  cbn [fst snd] in *. rewrite length_map in *.
  split; [symmetry; exact (Forall2_length M)|].
  split; [exists new; split; [exact H | rewrite <- S; exact P]|].
  split; [exact C|]. split; [|exact N].
  rewrite C. clear - W. induction W as [|r rs R W IH]; cbn [valid_critiques].
  - constructor.
  - destruct r as [out|e]; [|exact IH].
    constructor; [cbn in R; lia | exact IH].
Qed.

End Gathering.

(** ** The ledger *)

Lemma valid_critiques_length (rs : list (result CriticOutput)) :
  List.length (valid_critiques rs) <= List.length rs.
Proof.
  induction rs as [|[out|e] rs IH]; cbn [valid_critiques List.length]; lia.
Qed.

Lemma ledger_ok_grows (g g' : GameCriticizer) (new : list CriticOutput) :
  ledger_ok g ->
  critique_history g' = (critique_history g ++ new)%list ->
  (current_iteration g <= current_iteration g')%Z ->
  (Z.of_nat (List.length new)
   <= current_iteration g' - current_iteration g)%Z ->
  Forall (fun out =>
            is_successful out = true
            /\ (current_iteration g < iteration out
                <= current_iteration g')%Z) new ->
  ledger_ok g'.
Proof.
  intros [F L] H C N W. unfold ledger_ok. rewrite H. split.
  - apply Forall_app. split.
    + revert F. apply Forall_impl. intros out [S B]. split; [exact S | lia].
    + revert W. apply Forall_impl. intros out [S B].
      split; [exact S|].
      assert (0 <= current_iteration g)%Z by lia. lia.
  - rewrite length_app, Nat2Z.inj_add. lia.
Qed.

Section Ledger.

Context {lib : PyLib}.

Lemma call_keeps_ledger (w : World) (a : ActorOutput.t) (c : Agent.t)
    (t : Task.t) (prev : option (list CriticOutput)) :
  ledger_ok (self w) ->
  ledger_ok (self (fst (critique_output w a c t prev))).
Proof.
  intros K.
  destruct (critique_output_iteration w a c t prev) as [I C].
  destruct (critique_output_cases w a c t prev)
    as [_ [[p [_ [U A]]]|[e [_ [_ A]]]]].
  - apply (@ledger_ok_grows (self w) _ _ K A); rewrite C; cbn [List.length];
      try lia.
    constructor; [|constructor].
    split; [exact (unflagged_is_successful U) | lia].
  - apply (@ledger_ok_grows (self w) _ [] K); rewrite ?app_nil_r, ?C;
      cbn [List.length]; try lia; [exact A | constructor].
Qed.

Lemma gather_keeps_ledger (order : list nat) (w : World)
    (tasks : list critique_args) :
  ledger_ok (self w) -> ledger_ok (self (fst (gather order w tasks))).
Proof.
  intros K.
  destruct (gather_effect order w tasks) as [new [H [P [C [_ [L W]]]]]].
  apply (@ledger_ok_grows (self w) _ _ K H); rewrite C; try lia.
  - rewrite (Permutation_length P).
    pose proof (filter_length_le is_successful
                  (valid_critiques (snd (gather order w tasks)))).
    pose proof (valid_critiques_length (snd (gather order w tasks))). lia.
  - apply Forall_forall. intros out Hin.
    apply (Permutation_in _ P) in Hin. apply filter_In in Hin.
    destruct Hin as [Hin S]. split; [exact S|].
    apply valid_critiques_in in Hin.
    rewrite Forall_forall in W. specialize (W _ Hin). cbn in W. lia.
Qed.

Lemma reachable_ledger_ok (w : World) : reachable w -> ledger_ok (self w).
Proof.
  induction 1 as [conv imported n|w a c t prev R IH
                  |order w outs critics task R IH|order w tasks R IH|w R IH].
  - split; [constructor | cbn; lia].
  - apply call_keeps_ledger. exact IH.
  - unfold batch_critique.
    pose proof (@gather_keeps_ledger order w
                  (map (fun p : ActorOutput.t * Agent.t =>
                          (fst p, snd p, task, None))
                       (critique_pairs outs critics)) IH) as K.
    destruct (gather order w _) as [w1 rs]. exact K.
  - apply gather_keeps_ledger. exact IH.
  - split; [constructor | cbn; lia].
Qed.

(** X5. Whatever calls (awaited alone or gathered), batches and resets a
    program has made on a new criticizer, its history holds successful
    results only (a failed call is never recorded), each recorded at an
    iteration from 1 to the counter, and no more entries than the counter
    says.  The statistics of a non-empty history therefore always report
    [failed_critiques] 0 and as many successful evaluations as entries. *)
Theorem ledger_never_holds_failures :
  forall w : World,
    reachable w ->
    let g := self w in
    let stats := get_critique_statistics g in
    Forall (fun out =>
              is_successful out = true
              /\ (1 <= iteration out <= current_iteration g)%Z)
           (critique_history g)
    /\ (Z.of_nat (List.length (critique_history g)) <= current_iteration g)%Z
    /\ (critique_history g <> [] ->
        lookup "failed_critiques" stats = Some (PyInt 0)
        /\ lookup "successful_critiques" stats
           = lookup "total_critiques" stats).
Proof.
  intros w R g stats. destruct (reachable_ledger_ok R) as [F L].
  fold g in F, L. split; [exact F|]. split; [exact L|].
  intros Hne. subst stats. unfold get_critique_statistics.
  assert (S : filter is_successful (critique_history g) = critique_history g).
  { apply filter_all. revert F. apply Forall_impl. intros out [S _]. exact S. }
  destruct (critique_history g) as [|x h] eqn:E; [congruence|].
  cbv zeta. rewrite S. cbn [lookup String.eqb Ascii.eqb Bool.eqb].
  rewrite Z.sub_diag. split; reflexivity.
Qed.

End Ledger.


(** ** Batches and suspension *)

Section Suspension.

Context {lib : PyLib}.

Lemma never_suspends_kept (g g' : GameCriticizer) :
  naga_conversation g' = naga_conversation g ->
  never_suspends g -> never_suspends g'.
Proof. unfold never_suspends. intros E. rewrite E. trivial. Qed.

(** With a collaborator that does not suspend, the first step of a call
    is the whole call. *)
Lemma start_without_suspension (w : World) (a : ActorOutput.t) (c : Agent.t)
    (t : Task.t) (prev : option (list CriticOutput)) :
  never_suspends (self w) ->
  critique_start w (a, c, t, prev)
  = (fst (critique_output w a c t prev),
     Returned (Ok (snd (critique_output w a c t prev)))).
Proof.
  intros Hn. pose proof (start_then_resume w a c t prev) as R.
  assert (D : exists r, snd (critique_start w (a, c, t, prev)) = Returned r).
  { rewrite critique_start_unfold. unfold never_suspends in Hn.
    destruct (_build_critique_prompt a c t prev) as [p|e];
      [|eexists; reflexivity].
    destruct (naga_conversation (self w)) as [conversation|];
      [|eexists; reflexivity].
    rewrite Hn. eexists; reflexivity. }
  destruct D as [r D].
  destruct (critique_start w (a, c, t, prev)) as [w1 co]. cbn [fst snd] in *.
  subst co. cbn [critique_resume] in R. inversion R. reflexivity.
Qed.

Lemma start_all_without_suspension (tasks : list critique_args) (w : World) :
  never_suspends (self w) ->
  start_all w tasks
  = (fst (run_sequence w tasks),
     map (fun out => Returned (Ok out)) (snd (run_sequence w tasks))).
Proof.
  revert w.
  induction tasks as [|[[[a c] t] prev] tasks IH]; intros w Hn;
    cbn [start_all run_sequence]; [reflexivity|].
  rewrite (start_without_suspension w a c t prev Hn).
  pose proof (proj1 (critique_output_cases w a c t prev)) as N.
  destruct (critique_output w a c t prev) as [w1 out]. cbn [fst snd] in *.
  rewrite (IH w1 (@never_suspends_kept (self w) (self w1) N Hn)).
  destruct (run_sequence w1 tasks) as [w2 outs]. reflexivity.
Qed.

Lemma resume_at_returned (outs : list CriticOutput) (i : nat) (w : World) :
  resume_at i w (map (fun out => Returned (Ok out)) outs)
  = (w, map (fun out => Returned (Ok out)) outs).
Proof.
  revert i.
  induction outs as [|out outs IH]; intros i; cbn [map resume_at];
    [reflexivity|].
  destruct i as [|i]; [reflexivity|]. rewrite IH. reflexivity.
Qed.

Lemma resume_in_order_returned (order : list nat) (outs : list CriticOutput)
    (w : World) :
  resume_in_order order w (map (fun out => Returned (Ok out)) outs)
  = (w, map (fun out => Returned (Ok out)) outs).
Proof.
  induction order as [|i order IH]; cbn [resume_in_order]; [reflexivity|].
  rewrite resume_at_returned. exact IH.
Qed.

Lemma join_all_returned (outs : list CriticOutput) (w : World) :
  join_all w (map (fun out => Returned (Ok out)) outs) = (w, map Ok outs).
Proof.
  induction outs as [|out outs IH]; cbn [map join_all critique_resume];
    [reflexivity|].
  rewrite IH. reflexivity.
Qed.

Lemma valid_critiques_ok (outs : list CriticOutput) :
  valid_critiques (map Ok outs) = outs.
Proof.
  induction outs as [|out outs IH]; cbn [map valid_critiques];
    [reflexivity | rewrite IH; reflexivity].
Qed.

(** X7. Without a collaborator (simulation mode), or with one that
    answers without suspending its caller, a batch is the sequence of its
    calls awaited one after the other in pair order: same results, same
    final criticizer.  The results are then numbered consecutively from
    the counter plus one, and the history ends as the old history followed
    by the results in pair order. *)
Theorem batch_without_suspension_is_sequential :
  forall (order : list nat) (w : World) (actor_outputs : list ActorOutput.t)
         (critic_agents : list Agent.t) (task : Task.t),
    never_suspends (self w) ->
    let calls :=
      map (batch_call task) (critique_pairs actor_outputs critic_agents) in
    let w' := fst (batch_critique order w actor_outputs critic_agents task) in
    let results :=
      snd (batch_critique order w actor_outputs critic_agents task) in
    batch_critique order w actor_outputs critic_agents task
    = run_sequence w calls
    /\ map iteration results
       = map (fun k => (current_iteration (self w) + Z.of_nat k)%Z)
             (seq 1 (List.length calls))
    /\ critique_history (self w')
       = (critique_history (self w) ++ results)%list.
Proof.
  intros order w actor_outputs critic_agents task Hn calls w' results.
  pose proof (batch_results_never_degraded order w actor_outputs critic_agents
                task) as U.
  fold results in U.
  assert (E : batch_critique order w actor_outputs critic_agents task
              = run_sequence w calls).
  { unfold batch_critique, gather.
    change (map (fun p : ActorOutput.t * Agent.t => (fst p, snd p, task, None))
                (critique_pairs actor_outputs critic_agents)) with calls.
    rewrite (start_all_without_suspension calls w Hn).
    rewrite resume_in_order_returned, join_all_returned, valid_critiques_ok.
    destruct (run_sequence w calls). reflexivity. }
  subst w' results. rewrite E in *. split; [reflexivity|].
  split; [exact (proj1 (sequential_iterations calls w))|].
  rewrite (proj1 (run_sequence_ledger calls w)). f_equal.
  apply filter_all. revert U. apply Forall_impl. intros out [M _].
  apply unflagged_is_successful. exact M.
Qed.

End Suspension.

Section Collapse.

Context {lib : PyLib}.

Variable conversation : Conversation.

Hypothesis suspends_every_caller :
  forall (prompt : string) (t : float), suspends (conversation prompt t) = true.

(** X8. With a collaborator that suspends every caller (any real network
    call), every result of a batch records the same iteration, the final
    value of the counter: the old counter plus the number of evaluated
    pairs, whatever the order in which the answers arrive.  No result
    records an iteration of its own. *)
Theorem suspended_batch_records_final_counter :
  forall (order : list nat) (w : World) (actor_outputs : list ActorOutput.t)
         (critic_agents : list Agent.t) (task : Task.t),
    naga_conversation (self w) = Some conversation ->
    let pairs := critique_pairs actor_outputs critic_agents in
    let w' := fst (batch_critique order w actor_outputs critic_agents task) in
    let results :=
      snd (batch_critique order w actor_outputs critic_agents task) in
    List.length results = List.length pairs
    /\ Forall (fun out => iteration out = current_iteration (self w')) results
    /\ current_iteration (self w')
       = (current_iteration (self w) + Z.of_nat (List.length pairs))%Z.
Proof.
  intros order w actor_outputs critic_agents task Hc pairs w' results.
  assert (C : current_iteration (self w')
              = (current_iteration (self w) + Z.of_nat (List.length pairs))%Z).
  { subst w'. unfold batch_critique.
    pose proof (gather_effect order w
                  (map (fun p : ActorOutput.t * Agent.t =>
                          (fst p, snd p, task, None)) pairs)) as G.
    cbv zeta in G. destruct G as [new [_ [_ [C _]]]].
    fold pairs. destruct (gather order w _) as [w1 rs]. cbn [fst snd] in *.
    rewrite C, length_map. reflexivity. }
  subst results. rewrite batch_critique_results. fold pairs.
  destruct (@gather_records_last_iteration lib conversation
              suspends_every_caller order w (map (batch_call task) pairs) Hc)
    as [F L].
  { apply Forall_forall. intros args Hin. apply in_map_iff in Hin.
    destruct Hin as [p [E _]]. subst args. reflexivity. }
  rewrite length_map in *. rewrite C.
  remember (snd (gather order w (map (batch_call task) pairs))) as rs eqn:Er.
  clear Er. split; [|split; [|reflexivity]].
  - rewrite <- L. clear L. induction F as [|r rs [out [E _]] F IH];
      [reflexivity|]. subst r. cbn [valid_critiques List.length].
    rewrite IH. reflexivity.
  - clear L. induction F as [|r rs [out [E I]] F IH]; [constructor|].
    subst r. cbn [valid_critiques]. constructor; assumption.
Qed.

End Collapse.

(** ** The normalizer *)

Section Parser.

Context {lib : PyLib}.

Lemma parse_score_inv (x : pyval) (s : CriticScore) :
  parse_score x = Ok s ->
  exists (entry : dict) (v : pyval),
    x = PyDict entry
    /\ lookup "dimension" entry = Some (PyStr (value (dimension s)))
    /\ lookup "score" entry = Some v
    /\ py_float v = Ok (score s)
    /\ reasoning s = get_default "reasoning" (PyStr "") entry
    /\ suggestions s = get_default "suggestions" (PyList []) entry.
Proof.
  unfold parse_score.
  destruct x as [| | | | |l|entry]; cbn [py_getitem bind]; try discriminate.
  destruct (lookup "dimension" entry) as [label|] eqn:L;
    cbn [bind]; [|discriminate].
  destruct (CriticDimension_of label) as [d|e] eqn:D; cbn [bind];
    [|discriminate].
  destruct (lookup "score" entry) as [v|] eqn:V; cbn [bind]; [|discriminate].
  destruct (py_float v) as [f|e] eqn:F; cbn [bind py_get]; [|discriminate].
  intros E. inversion E. subst s. cbn [dimension score reasoning suggestions].
  exists entry, v. rewrite (CriticDimension_of_inv _ D) in L.
  unfold get_default. repeat split; assumption.
Qed.

(** X9. Every score the loop over the entries yields comes from an entry:
    an object of the payload whose label is the value of the score's
    dimension, whose score [float] converts to the score's value, and
    whose reasoning and suggestions (or their defaults) are the score's.
    The loop yields no more scores than there are entries. *)
Theorem parsed_scores_come_from_entries :
  forall (items : list pyval) (scores : list CriticScore),
    parse_scores items = Ok scores ->
    List.length scores <= List.length items
    /\ Forall (fun s =>
                 exists (entry : dict) (v : pyval),
                   In (PyDict entry) items
                   /\ lookup "dimension" entry
                      = Some (PyStr (value (dimension s)))
                   /\ lookup "score" entry = Some v
                   /\ py_float v = Ok (score s)
                   /\ reasoning s = get_default "reasoning" (PyStr "") entry
                   /\ suggestions s
                      = get_default "suggestions" (PyList []) entry)
              scores.
Proof.
  induction items as [|x items IH]; intros scores; cbn [parse_scores].
  - intros E. inversion E. split; [cbn; lia | constructor].
  - destruct (parse_score x) as [s|e] eqn:P.
    + destruct (parse_scores items) as [rest|e]; cbn [bind]; [|discriminate].
      intros E. inversion E. subst scores.
      destruct (IH rest eq_refl) as [L F]. split; [cbn [List.length]; lia|].
      constructor.
      * destruct (parse_score_inv _ P) as [entry [v [X H]]]. subst x.
        exists entry, v. split; [left; reflexivity | exact H].
      * revert F. apply Forall_impl. intros s' [entry [v [Hin H]]].
        exists entry, v. split; [right; exact Hin | exact H].
    + destruct (is_ValueError_or_KeyError e); [|discriminate].
      intros E. destruct (IH scores E) as [L F].
      split; [cbn [List.length]; lia|].
      revert F. apply Forall_impl. intros s' [entry [v [Hin H]]].
      exists entry, v. split; [right; exact Hin | exact H].
Qed.

Lemma fatal_entry_raises (x : pyval) :
  fatal_entry x = true ->
  exists e, parse_score x = Raise e /\ is_ValueError_or_KeyError e = false.
Proof.
  unfold parse_score.
  destruct x as [|b|z|f|s|l|entry]; cbn [fatal_entry py_getitem bind];
    try (intros _; eexists; split; reflexivity).
  destruct (lookup "dimension" entry) as [label|]; [|discriminate].
  destruct (lookup "score" entry) as [v|]; [|discriminate].
  intros H. apply andb_prop in H. destruct H as [K U].
  destruct label as [| | | |s| |]; cbn [known_dimension is_some] in K;
    try discriminate.
  cbn [bind]. unfold CriticDimension_of.
  destruct (find (fun d => String.eqb (value d) s) all_dimensions) as [d|];
    [|discriminate].
  cbn [bind].
  destruct v; cbn [unconvertible] in U; try discriminate;
    cbn [py_float bind]; eexists; split; reflexivity.
Qed.

Lemma fatal_entry_stops_loop (items : list pyval) (x : pyval) :
  In x items -> fatal_entry x = true ->
  exists e, parse_scores items = Raise e.
Proof.
  intros Hin Hf. induction items as [|y items IH]; [contradiction|].
  cbn [parse_scores]. destruct Hin as [E|Hin].
  - subst y. destruct (fatal_entry_raises x Hf) as [e [P V]].
    rewrite P, V. exists e. reflexivity.
  - destruct (IH Hin) as [e' R]. rewrite R.
    destruct (parse_score y) as [s|e]; cbn [bind].
    + exists e'. reflexivity.
    + destruct (is_ValueError_or_KeyError e); eexists; reflexivity.
Qed.

(** X10. One entry of [dimension_scores] that is not an object (a text, a
    number, a list, null), or that has a known label with a score that is
    null, a list or an object, makes the whole result the default one: the
    [TypeError] it raises is not among the exceptions the loop skips, so
    the other entries, the overall score, the summary and the suggestions
    of the payload are all discarded. *)
Theorem fatal_entry_voids_payload :
  forall (raw : string) (a : ActorOutput.t) (t : Task.t) (d : dict)
         (items : list pyval) (x : pyval),
    json_loads (extract_json_str raw) = Ok (PyDict d) ->
    lookup "dimension_scores" d = Some (PyList items) ->
    In x items -> fatal_entry x = true ->
    _parse_critique_result raw a t = _get_default_critique_result.
Proof.
  intros raw a t d items x J L Hin Hf.
  destruct (fatal_entry_stops_loop items x Hin Hf) as [e R].
  apply parse_try_raise with (e := e).
  unfold parse_try. rewrite J. cbn [bind]. unfold parse_data.
  rewrite (parse_dimension_scores_list d L), R. reflexivity.
Qed.

Lemma parse_scores_of_to_dict (scores : list CriticScore) :
  parse_scores
    (map (fun s =>
            PyDict [ ("dimension", PyStr (value (dimension s)));
                     ("score", PyFloat (score s));
                     ("reasoning", reasoning s);
                     ("suggestions", suggestions s) ])
         scores)
  = Ok scores.
Proof.
  induction scores as [|s scores IH]; cbn [map parse_scores]; [reflexivity|].
  rewrite IH. unfold parse_score.
  cbn [py_getitem py_get lookup String.eqb Ascii.eqb Bool.eqb bind].
  rewrite CriticDimension_of_value. cbn [bind py_float].
  destruct s. reflexivity.
Qed.

(** X11. [to_dict] and the normalizer agree: the mapping [to_dict] gives
    for an evaluation is a payload the normalizer accepts, and what it
    reads from it are the evaluation's own dimension scores, overall
    score, summary and suggestions. *)
Theorem to_dict_round_trip :
  forall c : CriticOutput,
    parse_data (PyDict (to_dict c))
    = Ok (dimension_scores c, overall_score c, summary_critique c,
          improvement_suggestions c)
    /\ forall (raw : string) (a : ActorOutput.t) (t : Task.t),
         json_loads (extract_json_str raw) = Ok (PyDict (to_dict c)) ->
         _parse_critique_result raw a t
         = (dimension_scores c, overall_score c, summary_critique c,
            improvement_suggestions c).
Proof.
  intros c.
  assert (P : parse_data (PyDict (to_dict c))
              = Ok (dimension_scores c, overall_score c, summary_critique c,
                    improvement_suggestions c)).
  { rewrite parse_data_dict with (scores := dimension_scores c).
    - reflexivity.
    - rewrite parse_dimension_scores_list
        with (items := map (fun s =>
                              PyDict [ ("dimension", PyStr (value (dimension s)));
                                       ("score", PyFloat (score s));
                                       ("reasoning", reasoning s);
                                       ("suggestions", suggestions s) ])
                           (dimension_scores c)).
      + apply parse_scores_of_to_dict.
      + reflexivity. }
  split; [exact P|].
  intros raw a t J. apply parse_try_ok. unfold parse_try. rewrite J.
  exact P.
Qed.

End Parser.

(** ** The satisfaction estimator *)

Lemma ltb_leb (x y : float) :
  PrimFloat.ltb x y = true -> PrimFloat.leb x y = true.
Proof.
  rewrite ltb_spec, leb_spec. unfold SFltb, SFleb.
  destruct (SFcompare (Prim2SF x) (Prim2SF y)) as [[| |]|];
    trivial; discriminate.
Qed.

Lemma SFcompare_refl (f : spec_float) :
  f <> S754_nan -> SFcompare f f = Some Eq.
Proof.
  destruct f as [s|s| |s m e]; cbn [SFcompare]; intros H;
    try congruence; destruct s; try reflexivity;
    rewrite Z.compare_refl, Pos.compare_cont_refl; reflexivity.
Qed.

(** A NaN is below nothing. *)
Lemma nan_ltb (x y : float) : is_nan_float x -> PrimFloat.ltb x y = false.
Proof.
  unfold is_nan_float. rewrite eqb_spec, ltb_spec. unfold SFeqb, SFltb.
  intros H. destruct (Prim2SF x) as [s|s| |s m e] eqn:E;
    try reflexivity;
    rewrite SFcompare_refl in H by discriminate; discriminate.
Qed.

(** The clamp [max(0.0, min(10.0, x))] lands between 0 and 10, for every
    float [x]. *)
Lemma clamp_in_range (x : float) :
  PrimFloat.leb 0 (py_max 0 (py_min 10 x)) = true
  /\ PrimFloat.leb (py_max 0 (py_min 10 x)) 10 = true.
Proof.
  unfold py_min. destruct (PrimFloat.ltb x 10) eqn:A.
  - unfold py_max. destruct (PrimFloat.ltb 0 x) eqn:B.
    + split; apply ltb_leb; assumption.
    + split; reflexivity.
  - split; reflexivity.
Qed.

(** X12. The satisfaction score is always a number from 0 to 10, whatever
    the scores of the two rounds are (infinite and NaN scores included):
    it is never NaN and never out of range. *)
Theorem satisfaction_score_in_range :
  forall (previous : option (list CriticOutput)) (current : list CriticScore),
    PrimFloat.leb 0 (_calculate_satisfaction_score previous current) = true
    /\ PrimFloat.leb (_calculate_satisfaction_score previous current) 10
       = true.
Proof.
  intros previous current. unfold _calculate_satisfaction_score.
  destruct previous as [[|p previous]|]; try (split; reflexivity).
  destruct current as [|c current]; try (split; reflexivity).
  destruct (last_opt (p :: previous)) as [last|]; try (split; reflexivity).
  destruct (improvements_of (c :: current) (dimension_scores last))
    as [|i improvements]; try (split; reflexivity).
  cbv zeta. apply clamp_in_range.
Qed.

(** X13. When the average improvement is NaN, the satisfaction score is
    10.0, the best value: [min(10.0, nan)] is 10.0, since a comparison
    with a NaN is false. *)
Theorem nan_improvement_gives_full_satisfaction :
  forall (earlier : list CriticOutput) (last : CriticOutput)
         (current : list CriticScore),
    let improvements := improvements_of current (dimension_scores last) in
    improvements <> [] ->
    is_nan_float (7 + mean improvements) ->
    _calculate_satisfaction_score (Some (earlier ++ [last])%list) current
    = 10%float.
Proof.
  intros earlier last current improvements Hne Hnan.
  unfold _calculate_satisfaction_score.
  destruct (earlier ++ [last])%list as [|p previous] eqn:E;
    [destruct earlier; discriminate|].
  destruct current as [|c current]; [exfalso; apply Hne; reflexivity|].
  rewrite <- E, last_opt_snoc. fold improvements.
  destruct improvements as [|i rest] eqn:I; [congruence|].
  cbv zeta. unfold mean in Hnan. unfold py_min.
  rewrite (nan_ltb 10 Hnan). reflexivity.
Qed.

(** ** The prompt *)

Lemma last_two_length {A : Type} (l : list A) :
  List.length (last_two l) = Nat.min 2 (List.length l).
Proof. unfold last_two. rewrite length_skipn. lia. Qed.

Lemma last_two_idem {A : Type} (l : list A) : last_two (last_two l) = last_two l.
Proof.
  unfold last_two at 1. rewrite last_two_length.
  replace (Nat.min 2 (List.length l) - 2) with 0 by lia. reflexivity.
Qed.

Lemma last_two_app {A : Type} (l : list A) (x y : A) :
  last_two (l ++ [x; y])%list = [x; y].
Proof.
  unfold last_two. rewrite length_app. cbn [List.length].
  replace (List.length l + 2 - 2) with (List.length l) by lia.
  rewrite skipn_app, skipn_all, Nat.sub_diag. reflexivity.
Qed.

Section Prompt.

Context {lib : PyLib}.

Lemma build_prompt_last_two (a : ActorOutput.t) (c : Agent.t) (t : Task.t)
    (l l' : list CriticOutput) :
  l <> [] -> l' <> [] -> last_two l = last_two l' ->
  _build_critique_prompt a c t (Some l) = _build_critique_prompt a c t (Some l').
Proof.
  intros Hl Hl' E.
  destruct l as [|x l]; [congruence|]. destruct l' as [|x' l']; [congruence|].
  unfold _build_critique_prompt. cbv beta iota zeta. rewrite E. reflexivity.
Qed.

(** X14. The prompt reads the last two previous evaluations only: older
    ones change nothing in it, whatever they hold, and an empty list of
    previous evaluations gives the prompt of a call without any. *)
Theorem prompt_reads_last_two :
  forall (a : ActorOutput.t) (c : Agent.t) (t : Task.t)
         (previous : list CriticOutput),
    _build_critique_prompt a c t (Some previous)
    = _build_critique_prompt a c t (Some (last_two previous))
    /\ (forall (older : list CriticOutput) (p1 p2 : CriticOutput),
          _build_critique_prompt a c t (Some (older ++ [p1; p2])%list)
          = _build_critique_prompt a c t (Some [p1; p2]))
    /\ _build_critique_prompt a c t (Some [])
       = _build_critique_prompt a c t None.
Proof.
  intros a c t previous. split; [|split].
  - destruct previous as [|x l] eqn:E; [reflexivity|]. rewrite <- E.
    assert (Hne : previous <> []) by (rewrite E; discriminate).
    apply build_prompt_last_two.
    + exact Hne.
    + intros H. apply (f_equal (@List.length _)) in H.
      rewrite last_two_length, E in H. cbn [List.length] in H. lia.
    + symmetry. apply last_two_idem.
  - intros older p1 p2. apply build_prompt_last_two.
    + destruct older; discriminate.
    + discriminate.
    + rewrite last_two_app. reflexivity.
  - reflexivity.
Qed.

Lemma history_sections_cases (l : list CriticOutput) :
  if forallb (fun p => sliceable (summary_critique p)) l
  then exists sections, history_sections l = Ok sections
  else exists e, history_sections l = Raise e.
Proof.
  induction l as [|p l IH]; cbn [forallb history_sections].
  - eexists; reflexivity.
  - unfold history_sections_of.
    destruct (summary_critique p) as [|b|z|f|s|items|d];
      cbn [sliceable py_slice_to bind andb];
      try (eexists; reflexivity).
    + destruct (forallb _ l).
      * destruct IH as [sections IH]. rewrite IH. eexists; reflexivity.
      * destruct IH as [e IH]. rewrite IH. exists e. reflexivity.
    + destruct (forallb _ l).
      * destruct IH as [sections IH]. rewrite IH. eexists; reflexivity.
      * destruct IH as [e IH]. rewrite IH. exists e. reflexivity.
Qed.

Lemma build_prompt_cases (a : ActorOutput.t) (c : Agent.t) (t : Task.t)
    (prev : option (list CriticOutput)) :
  if forallb (fun p => sliceable (summary_critique p))
             (last_two (previous_list prev))
  then exists p, _build_critique_prompt a c t prev = Ok p
  else exists e, _build_critique_prompt a c t prev = Raise e.
Proof.
  destruct prev as [[|x l]|]; cbn [previous_list];
    try (eexists; reflexivity).
  pose proof (history_sections_cases (last_two (x :: l))) as H.
  unfold _build_critique_prompt. cbv beta iota zeta.
  destruct (forallb _ (last_two (x :: l))).
  - destruct H as [sections H]. rewrite H. eexists; reflexivity.
  - destruct H as [e H]. rewrite H. exists e. reflexivity.
Qed.

(** X15. A call fails exactly when the summary of one of the last two
    previous evaluations is neither a text nor a list (a null, a number,
    an object: the normalizer stores the payload's summary unchecked).
    Otherwise the call succeeds: its result has no error flag and is
    appended to the history.  When it fails, the result is the degraded
    one, and the history is left as it was. *)
Theorem critique_fails_on_unsliceable_summary_only :
  forall (w : World) (a : ActorOutput.t) (c : Agent.t) (t : Task.t)
         (prev : option (list CriticOutput)),
    let w' := fst (critique_output w a c t prev) in
    let out := snd (critique_output w a c t prev) in
    if forallb (fun p => sliceable (summary_critique p))
               (last_two (previous_list prev))
    then unflagged_out out
         /\ critique_history (self w')
            = (critique_history (self w) ++ [out])%list
    else exists e,
           degraded e out
           /\ critique_history (self w') = critique_history (self w).
Proof.
  intros w a c t prev w' out.
  pose proof (build_prompt_cases a c t prev) as B.
  destruct (critique_output_cases w a c t prev)
    as [_ [[p [Hp [U A]]]|[e [He [D A]]]]];
    destruct (forallb _ (last_two (previous_list prev))).
  - split; assumption.
  - destruct B as [e B]. congruence.
  - destruct B as [p B]. congruence.
  - exists e. split; assumption.
Qed.

End Prompt.

(** ** Identifiers *)

Lemma str_int_inj (z z' : Z) : str_int z = str_int z' -> z = z'.
Proof.
  unfold str_int. intros H. apply DecimalZ.to_int_inj.
  assert (R : forall n : Z,
             NilZero.int_of_string (NilZero.string_of_int (Z.to_int n))
             = Some (Z.to_int n)).
  { intros n. apply NilZero.isi; destruct n; cbn; intros E;
      inversion E as [E'];
      exact (DecimalPos.Unsigned.to_uint_nonnil _ E'). }
  apply (f_equal NilZero.int_of_string) in H. rewrite !R in H.
  inversion H. reflexivity.
Qed.

Lemma append_cancel (a d1 d2 : string) : a ++ d1 = a ++ d2 -> d1 = d2.
Proof.
  induction a as [|x a IH]; cbn [append]; intros E; [exact E|].
  inversion E. auto.
Qed.

(** X16. The target identifier of a result determines the content it was
    made for: two contents with the same [target_output_id] have the same
    producer and the same iteration number, even when the producers' ids
    contain underscores themselves. *)
Theorem target_id_injective :
  forall a a' : ActorOutput.t,
    target_id a = target_id a' ->
    ActorOutput.agent_id a = ActorOutput.agent_id a'
    /\ ActorOutput.iteration a = ActorOutput.iteration a'.
Proof.
  intros a a' H. pose proof (target_id_producer a a' H) as P.
  split; [exact P|]. unfold target_id in H. rewrite P in H.
  apply append_cancel in H. apply (append_cancel "_") in H.
  apply str_int_inj. exact H.
Qed.

(** ** The extraction of the JSON text *)

Lemma string_app_nil_r (s : string) : s ++ "" = s.
Proof. induction s as [|c s IH]; cbn [append]; [|rewrite IH]; reflexivity. Qed.

Lemma string_app_assoc (a b c : string) : (a ++ b) ++ c = a ++ b ++ c.
Proof. induction a as [|x a IH]; cbn [append]; [|rewrite IH]; reflexivity. Qed.

Lemma piece_of_suffix (s t before : string) : t = before ++ s -> piece_of s t.
Proof. intros E. exists before, "". rewrite string_app_nil_r. exact E. Qed.

Lemma piece_of_prefix (s t after : string) : t = s ++ after -> piece_of s t.
Proof. intros E. exists "", after. exact E. Qed.

Lemma piece_of_refl (s : string) : piece_of s s.
Proof. apply piece_of_prefix with (after := ""). symmetry. apply string_app_nil_r. Qed.

Lemma piece_of_trans (s t u : string) :
  piece_of s t -> piece_of t u -> piece_of s u.
Proof.
  intros [b1 [a1 E1]] [b2 [a2 E2]]. exists (b2 ++ b1), (a1 ++ a2).
  rewrite E2, E1, !string_app_assoc. reflexivity.
Qed.

Lemma piece_of_cons (c : ascii) (s t : string) :
  piece_of s t -> piece_of s (String c t).
Proof.
  intros [b [a E]]. exists (String c b), a. rewrite E. reflexivity.
Qed.

Lemma lstrip_suffix_upto (n : nat) (s : string) :
  String.length s <= n -> exists before, s = before ++ lstrip s.
Proof.
  revert s. induction n as [|n IH]; intros s H.
  - destruct s; [exists ""; reflexivity | cbn in H; lia].
  - destruct s as [|c1 r1]; [exists ""; reflexivity|].
    cbn [String.length] in H. cbn [lstrip].
    destruct (is_space1 c1).
    { destruct (IH r1 ltac:(lia)) as [b E]. exists (String c1 b).
      cbn [append]. rewrite <- E. reflexivity. }
    destruct r1 as [|c2 r2]; [exists ""; reflexivity|].
    cbn [String.length] in H.
    destruct (is_space2 c1 c2).
    { destruct (IH r2 ltac:(lia)) as [b E]. exists (String c1 (String c2 b)).
      cbn [append]. rewrite <- E. reflexivity. }
    destruct r2 as [|c3 r3]; [exists ""; reflexivity|].
    cbn [String.length] in H.
    destruct (is_space3 c1 c2 c3); [|exists ""; reflexivity].
    destruct (IH r3 ltac:(lia)) as [b E].
    exists (String c1 (String c2 (String c3 b))).
    cbn [append]. rewrite <- E. reflexivity.
Qed.

Lemma lstrip_piece (s : string) : piece_of (lstrip s) s.
Proof.
  destruct (lstrip_suffix_upto s (le_n _)) as [b E].
  exact (@piece_of_suffix _ _ _ E).
Qed.

Lemma rstrip_piece (s : string) : piece_of (rstrip s) s.
Proof.
  assert (H : exists after, s = rstrip s ++ after).
  { induction s as [|c s [a IH]]; [exists ""; reflexivity|].
    cbn [rstrip]. destruct (is_empty (lstrip (String c s))).
    - exists (String c s). reflexivity.
    - exists a. cbn [append]. rewrite <- IH. reflexivity. }
  destruct H as [a E]. exact (@piece_of_prefix _ _ _ E).
Qed.

Lemma strip_piece (s : string) : piece_of (strip s) s.
Proof.
  unfold strip. apply piece_of_trans with (t := lstrip s);
    [apply rstrip_piece | apply lstrip_piece].
Qed.

Lemma drop_bytes_piece (n : nat) (s : string) : piece_of (drop_bytes n s) s.
Proof.
  revert s. induction n as [|n IH]; intros s; cbn [drop_bytes].
  - destruct s; apply piece_of_refl.
  - destruct s as [|c s]; [apply piece_of_refl|].
    apply piece_of_cons. apply IH.
Qed.

Lemma cp_take_piece (n : nat) (s : string) : piece_of (cp_take n s) s.
Proof.
  assert (H : exists after, s = cp_take n s ++ after).
  { revert n. induction s as [|c s IH]; intros n; [exists ""; reflexivity|].
    cbn [cp_take]. destruct (is_continuation c).
    - destruct (IH n) as [a E]. exists a. cbn [append]. rewrite <- E.
      reflexivity.
    - destruct n as [|n]; [exists (String c s); reflexivity|].
      destruct (IH n) as [a E]. exists a. cbn [append]. rewrite <- E.
      reflexivity. }
  destruct H as [a E]. exact (@piece_of_prefix _ _ _ E).
Qed.

Lemma skip_continuation_piece (s : string) : piece_of (skip_continuation s) s.
Proof.
  induction s as [|c s IH]; [apply piece_of_refl|].
  cbn [skip_continuation]. destruct (is_continuation c).
  - apply piece_of_cons. exact IH.
  - apply piece_of_refl.
Qed.

Lemma cp_drop_piece (n : nat) (s : string) : piece_of (cp_drop n s) s.
Proof.
  revert s. induction n as [|n IH]; intros s; cbn [cp_drop].
  - apply piece_of_refl.
  - destruct s as [|c s]; [apply piece_of_refl|].
    apply piece_of_cons.
    apply piece_of_trans with (t := skip_continuation s);
      [apply IH | apply skip_continuation_piece].
Qed.

Lemma cp_slice_piece (start stop : Z) (s : string) :
  piece_of (cp_slice start stop s) s.
Proof.
  unfold cp_slice.
  apply piece_of_trans with (t := cp_drop (Z.to_nat start) s);
    [apply cp_take_piece | apply cp_drop_piece].
Qed.

(** The lazy body of the pattern: a prefix of the text that ends with a
    closing brace. *)
Lemma lazy_object_body_shape (s body : string) :
  lazy_object_body s = Some body ->
  (exists after, s = body ++ after) /\ (exists inner, body = inner ++ "}").
Proof.
  revert body. induction s as [|c s IH]; intros body; cbn [lazy_object_body];
    [discriminate|].
  destruct (Ascii.eqb c "}" && closes_block s) eqn:C.
  - intros E. inversion E. subst body.
    apply andb_prop in C. destruct C as [C _].
    apply Ascii.eqb_eq in C. subst c. split.
    + exists s. reflexivity.
    + exists "". reflexivity.
  - destruct (lazy_object_body s) as [b|]; cbn [option_map]; [|discriminate].
    intros E. inversion E. subst body.
    destruct (IH b eq_refl) as [[a Ea] [inner Ei]]. split.
    + exists a. cbn [append]. rewrite <- Ea. reflexivity.
    + exists (String c inner). cbn [append]. rewrite <- Ei. reflexivity.
Qed.

Lemma match_fenced_at_shape (s group : string) :
  match_fenced_at s = Some group ->
  piece_of group s /\ exists inner, group = "{" ++ inner ++ "}".
Proof.
  unfold match_fenced_at.
  destruct (String.prefix (fence ++ "json") s); [|discriminate].
  pose proof (@piece_of_trans _ _ _ (lstrip_piece (drop_bytes 7 s))
                (drop_bytes_piece 7 s)) as P.
  destruct (lstrip (drop_bytes 7 s)) as [|c r]; [discriminate|].
  destruct (Ascii.eqb c "{") eqn:C; [|discriminate].
  apply Ascii.eqb_eq in C. subst c.
  destruct (lazy_object_body r) as [b|] eqn:B; cbn [option_map];
    [|discriminate].
  intros E. inversion E. subst group.
  destruct (lazy_object_body_shape r B) as [[a Ea] [inner Ei]]. split.
  - apply piece_of_trans with (t := String "{" r); [|exact P].
    apply piece_of_prefix with (after := a). cbn [append]. rewrite <- Ea.
    reflexivity.
  - exists inner. cbn [append]. rewrite <- Ei. reflexivity.
Qed.

Lemma re_search_fenced_json_shape (s group : string) :
  re_search_fenced_json s = Some group ->
  piece_of group s /\ exists inner, group = "{" ++ inner ++ "}".
Proof.
  induction s as [|c s IH].
  - cbn [re_search_fenced_json].
    destruct (match_fenced_at "") as [g|] eqn:M; [|discriminate].
    intros E. inversion E. subst g. exact (match_fenced_at_shape _ M).
  - cbn [re_search_fenced_json].
    destruct (match_fenced_at (String c s)) as [g|] eqn:M.
    + intros E. inversion E. subst g. exact (match_fenced_at_shape _ M).
    + intros E. destruct (IH E) as [P I]. split; [|exact I].
      apply piece_of_cons. exact P.
Qed.

(** X17. The text handed to [json.loads] is always a contiguous piece of
    the collaborator's answer: the extraction only cuts, it never adds or
    rearranges text.  When the answer holds a fenced block, that text is
    the block's group, which begins with an opening and ends with a
    closing brace. *)
Theorem extracted_text_is_piece_of_answer :
  forall critique_result : string,
    piece_of (extract_json_str critique_result) critique_result
    /\ forall group : string,
         re_search_fenced_json critique_result = Some group ->
         extract_json_str critique_result = group
         /\ exists inner, group = "{" ++ inner ++ "}".
Proof.
  intros s. unfold extract_json_str. split.
  - destruct (re_search_fenced_json s) as [g|] eqn:R.
    + exact (proj1 (re_search_fenced_json_shape s R)).
    + cbv zeta. destruct (startswith "{" (strip s)); [apply strip_piece|].
      destruct (negb (str_find "{" (strip s) =? -1)%Z
                && (str_rfind "}" (strip s) + 1 >? str_find "{" (strip s))%Z);
        [|apply strip_piece].
      apply piece_of_trans with (t := strip s);
        [apply cp_slice_piece | apply strip_piece].
  - intros g R. rewrite R. split; [reflexivity|].
    exact (proj2 (re_search_fenced_json_shape s R)).
Qed.

(** ** Simulation *)

Section Simulation.

Context {lib : PyLib}.

Lemma simulated_answer (g : GameCriticizer) (prompt : string) (c : Agent.t) :
  simulated g -> _call_llm_for_critique g prompt c = _generate_mock_critique c.
Proof.
  unfold simulated, _call_llm_for_critique.
  destruct (naga_conversation g) as [conversation|]; [|reflexivity].
  intros H. destruct (H prompt temperature) as [e E]. rewrite E. reflexivity.
Qed.

(** X18. Without a collaborator, or with one whose every call raises, an
    evaluation does not depend on the content under review or on the task:
    what the result holds as dimension scores, overall score, summary and
    suggestions is what the normalizer reads from the simulated payload of
    the evaluator, so one evaluator gives any two contents the same scores
    and the same satisfaction.  A failing collaborator is not reported:
    the result carries no error flag. *)
Theorem simulated_evaluation_ignores_content :
  forall (w w' : World) (a a' : ActorOutput.t) (c : Agent.t) (t t' : Task.t),
    simulated (self w) -> simulated (self w') ->
    let out := snd (critique_output w a c t None) in
    let out' := snd (critique_output w' a' c t' None) in
    (dimension_scores out, overall_score out, summary_critique out,
     improvement_suggestions out)
    = _parse_critique_result (_generate_mock_critique c) a t
    /\ dimension_scores out' = dimension_scores out
    /\ overall_score out' = overall_score out
    /\ summary_critique out' = summary_critique out
    /\ improvement_suggestions out' = improvement_suggestions out
    /\ satisfaction_score out' = satisfaction_score out
    /\ unflagged_out out.
Proof.
  intros w w' a a' c t t' S S' out out'.
  assert (R : forall (w0 : World) (a0 : ActorOutput.t) (t0 : Task.t),
             simulated (self w0) ->
             let o := snd (critique_output w0 a0 c t0 None) in
             (dimension_scores o, overall_score o, summary_critique o,
              improvement_suggestions o)
             = _parse_critique_result (_generate_mock_critique c) a0 t0
             /\ satisfaction_score o = 7%float
             /\ unflagged_out o).
  { intros w0 a0 t0 S0. cbv zeta.
    destruct (build_prompt_without_history a0 c t0) as [p Hp].
    rewrite (critique_output_ok w0 _ _ _ _ Hp).
    rewrite simulated_answer
      by (unfold simulated; rewrite entered_conversation; exact S0).
    destruct (critique_finish_spec (entered w0) (started w0) a0 c t0 None
                (_generate_mock_critique c))
      as [o [E [_ [_ [Sat [_ [M P]]]]]]].
    rewrite E. cbn [snd]. repeat split; assumption. }
  destruct (R w a t S) as [P [Sat U]].
  destruct (R w' a' t' S') as [P' [Sat' _]].
  fold out in P, Sat, U. fold out' in P', Sat'.
  split; [exact P|].
  change (_parse_critique_result (_generate_mock_critique c) a' t')
    with (_parse_critique_result (_generate_mock_critique c) a t) in P'.
  rewrite <- P in P'. inversion P'.
  repeat split; try reflexivity; [congruence | exact U].
Qed.

End Simulation.

(** ** What the prompt holds *)

Lemma piece_in_join (x s sep : string) (l : list string) :
  piece_of x s -> In s l -> piece_of x (join sep l).
Proof.
  intros P. unfold join. induction l as [|y l IH]; [contradiction|].
  intros [E|Hin].
  - subst y. cbn [concat]. destruct l as [|z l]; [exact P|].
    apply (@piece_of_trans _ s _ P).
    apply (@piece_of_prefix _ _ (sep ++ concat sep (z :: l))). reflexivity.
  - destruct l as [|z l]; [contradiction|].
    cbn [concat].
    apply (@piece_of_trans _ (concat sep (z :: l)) _ (IH Hin)).
    apply (@piece_of_suffix _ _ (y ++ sep)).
    rewrite string_app_assoc. reflexivity.
Qed.

Section PromptContents.

Context {lib : PyLib}.

(** X19. A prompt that is built holds, verbatim and whole, the content
    under review, the evaluator's system prompt and role, and the task's
    description and domain: nothing of them is escaped or cut, whatever
    the previous evaluations are. *)
Theorem prompt_embeds_inputs :
  forall (a : ActorOutput.t) (c : Agent.t) (t : Task.t)
         (prev : option (list CriticOutput)),
    match _build_critique_prompt a c t prev with
    | Ok prompt =>
        piece_of (ActorOutput.content a) prompt
        /\ piece_of (Agent.system_prompt c) prompt
        /\ piece_of (Agent.role c) prompt
        /\ piece_of (Task.description t) prompt
        /\ piece_of (Task.domain t) prompt
    | Raise _ => True
    end.
Proof.
  intros a c t prev. unfold _build_critique_prompt. cbv zeta.
  match goal with
  | |- context [bind ?h _] => destruct h as [history|e]
  end; cbn [bind]; [|exact I].
  repeat split.
  - apply piece_in_join
      with (s := "**内容**:" ++ nl ++ "```" ++ nl ++ ActorOutput.content a
                 ++ nl ++ "```" ++ nl).
    + exists ("**内容**:" ++ nl ++ "```" ++ nl), (nl ++ "```" ++ nl).
      reflexivity.
    + rewrite !in_app_iff. cbn [In]. tauto.
  - apply piece_in_join
      with (s := "# 批判专家身份" ++ nl ++ Agent.system_prompt c ++ nl).
    + exists ("# 批判专家身份" ++ nl), nl. reflexivity.
    + rewrite !in_app_iff. cbn [In]. tauto.
  - apply piece_in_join
      with (s := "3. **专业性**:运用" ++ Agent.role c
                 ++ "的专业知识进行分析" ++ nl).
    + exists "3. **专业性**:运用", ("的专业知识进行分析" ++ nl). reflexivity.
    + rewrite !in_app_iff. cbn [In]. tauto.
  - apply piece_in_join
      with (s := "- 任务描述:" ++ Task.description t ++ nl).
    + exists "- 任务描述:", nl. reflexivity.
    + rewrite !in_app_iff. cbn [In]. tauto.
  - apply piece_in_join with (s := "- 任务领域:" ++ Task.domain t ++ nl).
    + exists "- 任务领域:", nl. reflexivity.
    + rewrite !in_app_iff. cbn [In]. tauto.
Qed.

End PromptContents.

(* ================================================================= *)
(** * Runs on concrete inputs

    The library is the reference implementation. *)

(** C2 at a concrete input: only quality is scored in both rounds, so the
    result is [clamp (7.0 + (2.0 - 8.0))]. *)
Lemma satisfaction_score_spec_witness :
  deltas this_round (dimension_scores last_round) <> []
  /\ _calculate_satisfaction_score (Some [last_round]) this_round = 1%float.
Proof.
  assert (Hne : deltas this_round (dimension_scores last_round) <> [])
    by (vm_compute; discriminate).
  split; [exact Hne|].
  destruct (satisfaction_score_spec (Some [last_round]) this_round)
    as [_ [H _]].
  destruct (H [] last_round eq_refl ltac:(discriminate)) as [_ H'].
  rewrite (H' Hne). vm_compute. reflexivity.
Defined.

(** C3 at a concrete input: an answer cut in the middle of its JSON. *)
Lemma parse_failure_gives_default_witness :
  json_loads (extract_json_str truncated_answer)
  = Raise (mkExn JSONDecodeError "Expecting value")
  /\ _parse_critique_result truncated_answer writer_output demo_task
     = _get_default_critique_result.
Proof.
  assert (H : json_loads (extract_json_str truncated_answer)
              = Raise (mkExn JSONDecodeError "Expecting value"))
    by (vm_compute; reflexivity).
  split; [exact H|].
  exact (proj1 (parse_failure_gives_default truncated_answer writer_output
                  demo_task H)).
Defined.

(** C6 as stated fails: a well-formed JSON object with one entry, whose
    label is a known dimension and whose score is a number, and with a
    null [overall_score]; the normalizer returns the six default scores,
    not that one entry. *)
Lemma known_entry_lost_on_null_overall :
  json_loads (extract_json_str null_overall_answer)
  = Ok (PyDict null_overall_payload)
  /\ parse_dimension_scores (PyDict null_overall_payload)
     = Ok [mkCriticScore LOGIC 9%float (PyStr "") (PyList [])]
  /\ _parse_critique_result null_overall_answer writer_output demo_task
     = _get_default_critique_result
  /\ List.length
       (fst (fst (fst (_parse_critique_result null_overall_answer
                         writer_output demo_task))))
     = 6.
Proof. vm_compute. repeat split. Qed.

(** C6 (amended) at a concrete input: three entries in a fenced block, the
    second with a label that names no dimension. *)
Lemma normalizer_keeps_known_entries_witness :
  json_loads (extract_json_str mixed_answer) = Ok (PyDict mixed_payload)
  /\ _parse_critique_result mixed_answer writer_output demo_task
     = ( [ mkCriticScore INNOVATION 8.5%float (PyStr "新颖") (PyList []);
           mkCriticScore QUALITY 7%float (PyStr "") (PyList []) ],
         8%float, PyStr "批判解析失败", PyList [] ).
Proof.
  assert (J : json_loads (extract_json_str mixed_answer)
              = Ok (PyDict mixed_payload)) by (vm_compute; reflexivity).
  split; [exact J|].
  assert (E : entries_ok
                [PyDict mixed_innovation; PyDict mixed_unknown;
                 PyDict mixed_quality]
                ([normalized mixed_innovation INNOVATION 8.5%float]
                 ++ [] ++ [normalized mixed_quality QUALITY 7%float] ++ [])).
  { constructor.
    - apply entry_known with (v := PyFloat 8.5%float); reflexivity.
    - constructor.
      + apply entry_unknown with (label := PyStr "趣味性"); reflexivity.
      + constructor.
        * apply entry_known with (v := PyInt 7); vm_compute; reflexivity.
        * constructor. }
  exact (proj1 (normalizer_keeps_known_entries mixed_answer writer_output
                  demo_task J eq_refl E
                  (overall := 8%float) ltac:(vm_compute; reflexivity))).
Defined.

(** C8 as stated fails: a parsed JSON object whose [overall_score] is not
    a number; its dimension entry is read, but the result is the default
    result, where the entry is replaced by the six default scores and the
    summary by the default narrative. *)
Lemma unparsable_overall_discards_entries :
  json_loads (extract_json_str text_overall_answer)
  = Ok (PyDict text_overall_payload)
  /\ parse_dimension_scores (PyDict text_overall_payload)
     = Ok [mkCriticScore INNOVATION 9%float (PyStr "") (PyList [])]
  /\ py_float (PyStr "high")
     = Raise (mkExn ValueError "could not convert string to float: 'high'")
  /\ _parse_critique_result text_overall_answer writer_output demo_task
     = _get_default_critique_result
  /\ map dimension
       (fst (fst (fst (_parse_critique_result text_overall_answer
                         writer_output demo_task))))
     = all_dimensions
  /\ snd (fst (_parse_critique_result text_overall_answer writer_output
                 demo_task))
     = PyStr "批判分析过程出现问题,使用默认评分".
Proof. vm_compute. repeat split. Qed.

(** C8 (amended) at a concrete input: an object with its dimension entries
    only. *)
Lemma top_level_defaults_witness :
  json_loads (extract_json_str bare_answer) = Ok (PyDict bare_payload)
  /\ lookup "overall_score" bare_payload = None
  /\ _parse_critique_result bare_answer writer_output demo_task
     = ( [mkCriticScore QUALITY 6%float (PyStr "") (PyList [])],
         7%float, PyStr "批判解析失败", PyList [] ).
Proof.
  assert (J : json_loads (extract_json_str bare_answer)
              = Ok (PyDict bare_payload)) by (vm_compute; reflexivity).
  assert (S : parse_dimension_scores (PyDict bare_payload)
              = Ok [mkCriticScore QUALITY 6%float (PyStr "") (PyList [])])
    by (vm_compute; reflexivity).
  split; [exact J|]. split; [reflexivity|].
  exact (proj1 (top_level_defaults bare_answer writer_output demo_task J S)
           eq_refl).
Defined.

(** C7 as stated fails: on an empty history the mapping has neither the
    successful and failed counts nor the average elapsed time. *)
Lemma empty_statistics_lack_counts :
  let statistics := get_critique_statistics (GameCriticizer_init None None) in
  lookup "total_critiques" statistics = Some (PyInt 0)
  /\ lookup "successful_critiques" statistics = None
  /\ lookup "failed_critiques" statistics = None
  /\ lookup "average_critique_time" statistics = None.
Proof. vm_compute. repeat split. Qed.

(** C7 (amended) at a new criticizer. *)
Lemma statistics_of_empty_history_witness :
  critique_history (GameCriticizer_init None None) = []
  /\ get_critique_statistics (GameCriticizer_init None None)
     = [ ("total_critiques", PyInt 0);
         ("average_overall_score", PyInt 0);
         ("average_satisfaction_score", PyInt 0);
         ("current_iteration", PyInt 0);
         ("api_available", PyBool false) ].
Proof.
  split; [reflexivity|].
  exact (statistics_of_empty_history (GameCriticizer_init None None) eq_refl).
Defined.

(** C1 as stated fails: the collaborator raises, and the result is not
    degraded: it is the simulated evaluator's, with overall score 7.3, six
    dimension scores and no error flag. *)
Lemma collaborator_exception_not_degraded :
  let out :=
    snd (critique_output (fresh (Some failing_conversation)) writer_output
           reviewer demo_task None) in
  (forall prompt : string,
     outcome (failing_conversation prompt temperature)
     = Raises (mkExn OtherException "connection refused"))
  /\ overall_score out = 0x1.d333333333333p+2%float
  /\ overall_score out <> 5%float
  /\ satisfaction_score out = 7%float
  /\ map dimension (dimension_scores out) = all_dimensions
  /\ lookup "error" (metadata out) = None.
Proof.
  cbv zeta. split; [reflexivity|].
  assert (O : overall_score
                (snd (critique_output (fresh (Some failing_conversation))
                        writer_output reviewer demo_task None))
              = 0x1.d333333333333p+2%float) by (vm_compute; reflexivity).
  split; [exact O|]. split; [rewrite O; float_neq|].
  vm_compute. repeat split.
Qed.

(** C1 (amended) at a concrete input: the previous evaluation has a null
    summary, which the prompt assembly cannot slice. *)
Lemma critique_output_never_raises_witness :
  _build_critique_prompt writer_output reviewer demo_task
    (Some [null_summary_critique])
  = Raise (mkExn TypeError "'NoneType' object is not subscriptable")
  /\ degraded (mkExn TypeError "'NoneType' object is not subscriptable")
       (snd (critique_output (fresh None) writer_output reviewer demo_task
               (Some [null_summary_critique]))).
Proof.
  assert (H : _build_critique_prompt writer_output reviewer demo_task
                (Some [null_summary_critique])
              = Raise (mkExn TypeError "'NoneType' object is not subscriptable"))
    by (vm_compute; reflexivity).
  split; [exact H|].
  destruct (critique_output_never_raises (fresh None) writer_output reviewer
              demo_task (Some [null_summary_critique])) as [_ [D _]].
  exact (D _ H).
Defined.

(** C9 at a concrete input: the writer is among the evaluators of its own
    content. *)
Lemma batch_critique_excludes_self_pairs_witness :
  In writer_output [writer_output; editor_output]
  /\ In writer_agent [writer_agent; reviewer]
  /\ ActorOutput.agent_id writer_output = Agent.agent_id writer_agent
  /\ ~ In (writer_output, writer_agent)
         (critique_pairs [writer_output; editor_output]
            [writer_agent; reviewer])
  /\ forall out : CriticOutput,
       In out (snd (batch_critique [] (fresh None)
                      [writer_output; editor_output] [writer_agent; reviewer]
                      demo_task)) ->
       ~ (target_output_id out = target_id writer_output
          /\ critic_agent_id out = Agent.agent_id writer_agent).
Proof.
  assert (Ha : In writer_output [writer_output; editor_output])
    by (left; reflexivity).
  assert (Hc : In writer_agent [writer_agent; reviewer])
    by (left; reflexivity).
  split; [exact Ha|]. split; [exact Hc|]. split; [reflexivity|].
  destruct (batch_critique_excludes_self_pairs [] (fresh None)
              [writer_output; editor_output] [writer_agent; reviewer]
              demo_task) as [_ [_ [H _]]].
  exact (H writer_output writer_agent Ha Hc eq_refl).
Defined.

(** The batch of the two contents and the two evaluators: three pairs are
    evaluated, in this order, each with satisfaction 7.0. *)
Example batch_of_two_by_two :
  map (fun out => (target_output_id out, critic_agent_id out,
                   satisfaction_score out))
      (snd (batch_critique [] (fresh None) [writer_output; editor_output]
              [writer_agent; reviewer] demo_task))
  = [ ("writer_1", "reviewer", 7%float);
      ("editor_1", "writer", 7%float);
      ("editor_1", "reviewer", 7%float) ].
Proof. vm_compute. reflexivity. Qed.

(** C4 on the failure path.  A first call, whose collaborator answers with
    a null summary, is recorded.  A second call is given the first result
    as previous evaluation: its prompt assembly raises, it returns a
    degraded result, and the history still holds the first result only;
    the statistics count no failed evaluation. *)
Theorem failed_critique_is_not_recorded :
  let w0 := fresh (Some null_summary_conversation) in
  let first := snd (critique_output w0 writer_output reviewer demo_task None) in
  let w1 := fst (critique_output w0 writer_output reviewer demo_task None) in
  let second :=
    snd (critique_output w1 writer_output reviewer demo_task (Some [first])) in
  let w2 :=
    fst (critique_output w1 writer_output reviewer demo_task (Some [first])) in
  summary_critique first = PyNone
  /\ critique_history (self w1) = [first]
  /\ lookup "error" (metadata second) = Some (PyBool true)
  /\ iteration second = 2%Z
  /\ critique_history (self w2) = [first]
  /\ get_latest_critique (self w2) = Some first
  /\ lookup "failed_critiques" (get_critique_statistics (self w2))
     = Some (PyInt 0).
Proof. vm_compute. repeat split. Qed.

(** C5 under concurrent invocation.  Two calls run by [gather] on a new
    criticizer whose collaborator suspends its callers: both results
    record iteration 2, whatever the order of the answers, and no result
    records iteration 1. *)
Theorem concurrent_calls_record_same_iteration :
  forall order : list nat,
    map iteration
      (snd (batch_critique order (fresh (Some slow_conversation))
              [writer_output; editor_output] [reviewer] demo_task))
    = [2%Z; 2%Z].
Proof.
  intros order. rewrite batch_critique_results.
  destruct (@gather_records_last_iteration reference_lib slow_conversation
              (fun _ _ => eq_refl) order (fresh (Some slow_conversation))
              (map (batch_call demo_task)
                   (critique_pairs [writer_output; editor_output] [reviewer]))
              eq_refl) as [F L].
  { repeat constructor. }
  cbn [critique_pairs flat_map] in *.
  remember (snd (gather order _ _)) as rs eqn:E. clear E.
  cbn in L.
  destruct rs as [|r1 [|r2 [|r3 rs]]]; try discriminate L.
  inversion F as [|? ? [o1 [E1 I1]] F']; subst.
  inversion F' as [|? ? [o2 [E2 I2]] F'']; subst.
  cbn [valid_critiques map]. rewrite I1, I2. reflexivity.
Qed.

(** The same two calls awaited one after the other record 1 and 2. *)
Example sequential_calls_record_their_own_iteration :
  map iteration
    (snd (run_sequence (fresh (Some slow_conversation))
            [ (writer_output, reviewer, demo_task, None);
              (editor_output, reviewer, demo_task, None) ]))
  = [1%Z; 2%Z].
Proof. vm_compute. reflexivity. Qed.

(* ================================================================= *)
(** * Further runs on concrete inputs *)

(** X1 at a concrete input: the first call of a new criticizer in
    simulation mode. *)
Lemma successful_critique_is_recorded_witness :
  critique_history
    (self (fst (critique_output (fresh None) writer_output reviewer demo_task
                  None)))
  = [snd (critique_output (fresh None) writer_output reviewer demo_task None)]
  /\ get_latest_critique
       (self (fst (critique_output (fresh None) writer_output reviewer
                     demo_task None)))
     = Some (snd (critique_output (fresh None) writer_output reviewer
                    demo_task None)).
Proof.
  assert (H : exists p,
             _build_critique_prompt writer_output reviewer demo_task None
             = Ok p) by (eexists; vm_compute; reflexivity).
  destruct H as [p Hp].
  destruct (@successful_critique_is_recorded _ (fresh None) writer_output
              reviewer demo_task None p Hp) as [A [L _]].
  split; [exact A | exact L].
Defined.

(** X5 at a concrete input: after a recorded call and a failed one the
    counter is 2, the history has one entry, and the statistics report no
    failed evaluation. *)
Lemma ledger_never_holds_failures_witness :
  reachable after_failed_call
  /\ current_iteration (self after_failed_call) = 2%Z
  /\ List.length (critique_history (self after_failed_call)) = 1
  /\ lookup "failed_critiques"
       (get_critique_statistics (self after_failed_call))
     = Some (PyInt 0).
Proof.
  assert (R : reachable after_failed_call).
  { unfold after_failed_call. cbv zeta. apply reach_call. apply reach_call.
    exact (reach_init (Some null_summary_conversation) None 0). }
  split; [exact R|]. split; [vm_compute; reflexivity|].
  split; [vm_compute; reflexivity|].
  destruct (@ledger_never_holds_failures _ after_failed_call R)
    as [_ [_ H]].
  apply H. vm_compute. discriminate.
Defined.


(** X7 at a concrete input: a batch in simulation mode, with an arrival
    order that plays no role. *)
Lemma batch_without_suspension_is_sequential_witness :
  never_suspends (self (fresh None))
  /\ map iteration
       (snd (batch_critique [1; 0] (fresh None) [writer_output; editor_output]
               [reviewer] demo_task))
     = [1%Z; 2%Z].
Proof.
  assert (H : never_suspends (self (fresh None))) by exact I.
  split; [exact H|].
  exact (proj1 (proj2 (@batch_without_suspension_is_sequential _ [1; 0]
                         (fresh None) [writer_output; editor_output]
                         [reviewer] demo_task H))).
Defined.

(** X8 at a concrete input: the same batch with a collaborator that
    suspends its callers, the second answer arriving first. *)
Lemma suspended_batch_records_final_counter_witness :
  (forall (prompt : string) (t : float),
      suspends (slow_conversation prompt t) = true)
  /\ Forall (fun out =>
               iteration out
               = current_iteration
                   (self (fst (batch_critique [1; 0]
                                 (fresh (Some slow_conversation))
                                 [writer_output; editor_output] [reviewer]
                                 demo_task))))
            (snd (batch_critique [1; 0] (fresh (Some slow_conversation))
                    [writer_output; editor_output] [reviewer] demo_task))
  /\ current_iteration
       (self (fst (batch_critique [1; 0] (fresh (Some slow_conversation))
                     [writer_output; editor_output] [reviewer] demo_task)))
     = 2%Z.
Proof.
  assert (S : forall (prompt : string) (t : float),
             suspends (slow_conversation prompt t) = true)
    by (intros prompt t; reflexivity).
  split; [exact S|].
  exact (proj2 (@suspended_batch_records_final_counter reference_lib
                  slow_conversation S [1; 0] (fresh (Some slow_conversation))
                  [writer_output; editor_output] [reviewer] demo_task
                  eq_refl)).
Defined.

(** X9 at a concrete input: three entries, the second with a label that
    names no dimension. *)
Lemma parsed_scores_come_from_entries_witness :
  parse_scores [PyDict mixed_innovation; PyDict mixed_unknown;
                PyDict mixed_quality]
  = Ok [ mkCriticScore INNOVATION 8.5%float (PyStr "新颖") (PyList []);
         mkCriticScore QUALITY 7%float (PyStr "") (PyList []) ]
  /\ 2 <= 3.
Proof.
  assert (P : parse_scores [PyDict mixed_innovation; PyDict mixed_unknown;
                            PyDict mixed_quality]
              = Ok [ mkCriticScore INNOVATION 8.5%float (PyStr "新颖")
                       (PyList []);
                     mkCriticScore QUALITY 7%float (PyStr "") (PyList []) ])
    by (vm_compute; reflexivity).
  split; [exact P|].
  exact (proj1 (@parsed_scores_come_from_entries _ _ _ P)).
Defined.

(** X10 at a concrete input: a payload with a sound entry and one whose
    score is null; the overall score 9.5 and the summary are lost with the
    entries. *)
Lemma fatal_entry_voids_payload_witness :
  json_loads (extract_json_str null_score_answer)
  = Ok (PyDict null_score_payload)
  /\ fatal_entry (PyDict null_score_entry) = true
  /\ _parse_critique_result null_score_answer writer_output demo_task
     = _get_default_critique_result.
Proof.
  assert (J : json_loads (extract_json_str null_score_answer)
              = Ok (PyDict null_score_payload)) by (vm_compute; reflexivity).
  split; [exact J|]. split; [reflexivity|].
  refine (@fatal_entry_voids_payload _ null_score_answer writer_output
            demo_task null_score_payload _ (PyDict null_score_entry) J
            eq_refl _ eq_refl).
  right. left. reflexivity.
Defined.

(** X13 at a concrete input: the text "nan" is a score [float] accepts;
    against a last round that scored quality 8.0 the satisfaction is
    10.0. *)
Lemma nan_improvement_gives_full_satisfaction_witness :
  parse_scores [PyDict nan_entry] = Ok nan_round
  /\ is_nan_float
       (7 + mean (improvements_of nan_round (dimension_scores last_round)))
  /\ _calculate_satisfaction_score (Some [last_round]) nan_round = 10%float.
Proof.
  split; [vm_compute; reflexivity|].
  assert (N : is_nan_float
                (7 + mean (improvements_of nan_round
                             (dimension_scores last_round))))
    by (vm_compute; reflexivity).
  split; [exact N|].
  refine (@nan_improvement_gives_full_satisfaction [] last_round nan_round
            _ N).
  vm_compute. discriminate.
Defined.

(** X16 at a concrete input: two contents of one producer and one
    iteration. *)
Lemma target_id_injective_witness :
  target_id writer_output = target_id writer_revision
  /\ ActorOutput.iteration writer_output
     = ActorOutput.iteration writer_revision.
Proof.
  assert (H : target_id writer_output = target_id writer_revision)
    by reflexivity.
  split; [exact H|].
  exact (proj2 (@target_id_injective writer_output writer_revision H)).
Defined.

(** X18 at a concrete input: a criticizer without collaborator and one
    whose collaborator refuses every call give two different contents the
    same overall score. *)
Lemma simulated_evaluation_ignores_content_witness :
  simulated (self (fresh None))
  /\ simulated (self (fresh (Some failing_conversation)))
  /\ overall_score
       (snd (critique_output (fresh (Some failing_conversation))
               editor_output reviewer demo_task None))
     = overall_score
         (snd (critique_output (fresh None) writer_output reviewer demo_task
                 None)).
Proof.
  assert (S : simulated (self (fresh None))) by exact I.
  assert (S' : simulated (self (fresh (Some failing_conversation))))
    by (intros prompt t; eexists; reflexivity).
  split; [exact S|]. split; [exact S'|].
  destruct (@simulated_evaluation_ignores_content _ (fresh None)
              (fresh (Some failing_conversation)) writer_output editor_output
              reviewer demo_task demo_task S S') as [_ [_ [O _]]].
  exact O.
Defined.
